(** * Raja-Rani-Chor-Sipahi: the scoring rules, the role assigner and the
    room state machine of [app.py], embedded in Rocq.

    Python values are modelled as follows: player names and role names are
    [string]s, a [Dict[str, str]] or [Dict[str, int]] is a [gmap], Python
    integers are [Z], a value that may be [None] is an [option], and a raised
    exception is the [Raise] case of [result]. *)

From Stdlib Require Import ZArith.
From stdpp Require Import gmap strings list fin_maps sorting.

Set Warnings "-clear-no-such-hyp".

Open Scope Z_scope.
Open Scope string_scope.

(** ** Python exceptions *)

Inductive exn : Set :=
  | KeyError
  | IndexError
  | AssertionError
  | APIError.

Inductive result (A : Type) : Type :=
  | Ok (a : A)
  | Raise (e : exn).
Arguments Ok {A} a.
Arguments Raise {A} e.

(** Sequencing: an exception aborts the rest of the function. *)
#[global] Instance result_bind : MBind result := fun A B k r =>
  match r with
  | Ok a => k a
  | Raise e => Raise e
  end.

Definition is_ok {A : Type} (r : result A) : bool :=
  match r with Ok _ => true | Raise _ => false end.

(** [d[k]] on a dictionary: [KeyError] when the key is missing. *)
Definition subscript {V : Type} (d : gmap string V) (k : string) : result V :=
  match d !! k with
  | Some v => Ok v
  | None => Raise KeyError
  end.

(** [l[0]] on a list: [IndexError] when the list is empty. *)
Definition first {A : Type} (l : list A) : result A :=
  match l with
  | x :: _ => Ok x
  | [] => Raise IndexError
  end.

(** The comprehension [[p for p in player_names if role_assignment[p] == role]]:
    the subscript is evaluated for every name, in order. *)
Fixpoint names_with_role (player_names : list string)
    (role_assignment : gmap string string) (role : string)
    : result (list string) :=
  match player_names with
  | [] => Ok []
  | p :: rest =>
      r ← subscript role_assignment p;
      tl ← names_with_role rest role_assignment role;
      Ok (if bool_decide (r = role) then p :: tl else tl)
  end.

Definition _player_with_role (player_names : list string)
    (role_assignment : gmap string string) (role : string) : result string :=
  l ← names_with_role player_names role_assignment role; first l.

(** [for player in player_names: points[player] = 0], starting from [{}]. *)
Definition init_points (player_names : list string) : gmap string Z :=
  foldl (fun points player => <[player := 0]> points) ∅ player_names.

(** ** Score calculators *)

Definition calculate_points_4_players (player_names : list string)
    (role_assignment : gmap string string)
    (mantri_guesses : option string * option string) : result (gmap string Z) :=
  let points := init_points player_names in
  actual_chor ← _player_with_role player_names role_assignment "Chor";
  actual_sipahi ← _player_with_role player_names role_assignment "Sipahi";
  mantri_name ← _player_with_role player_names role_assignment "Mantri";
  raja_name ← _player_with_role player_names role_assignment "Raja";
  let '(guessed_chor, guessed_sipahi) := mantri_guesses in
  let mantri_correct :=
    bool_decide (guessed_chor = Some actual_chor)
    && bool_decide (guessed_sipahi = Some actual_sipahi) in
  let points :=
    if mantri_correct
    then <[actual_chor := 0]> (<[mantri_name := 500]> points)
    else <[actual_chor := 500]> (<[mantri_name := 0]> points) in
  let points := <[raja_name := 1000]> points in
  let points := <[actual_sipahi := 250]> points in
  Ok points.

Definition calculate_points_5_players (player_names : list string)
    (role_assignment : gmap string string)
    (mantri_guesses : option string * option string)
    (raja_rani_guess : option string) : result (gmap string Z) :=
  let points := init_points player_names in
  actual_chor ← _player_with_role player_names role_assignment "Chor";
  actual_sipahi ← _player_with_role player_names role_assignment "Sipahi";
  actual_rani ← _player_with_role player_names role_assignment "Rani";
  mantri_name ← _player_with_role player_names role_assignment "Mantri";
  raja_name ← _player_with_role player_names role_assignment "Raja";
  let '(guessed_chor, guessed_sipahi) := mantri_guesses in
  let mantri_both_correct :=
    bool_decide (guessed_chor = Some actual_chor)
    && bool_decide (guessed_sipahi = Some actual_sipahi) in
  let points :=
    if mantri_both_correct
    then <[actual_chor := 0]> (<[mantri_name := 500]> points)
    else <[actual_chor := 500]> (<[mantri_name := 0]> points) in
  let points := <[actual_sipahi := 250]> points in
  points ←
    (if bool_decide (raja_rani_guess = Some actual_rani)
     then Ok (<[raja_name := 1000]> points)
     else
       let points := <[raja_name := 500]> points in
       old ← subscript points actual_chor;
       Ok (<[actual_chor := old + 500]> points));
  let points := <[actual_rani := 750]> points in
  Ok points.

(** Sum of the awarded points over the players of the round. *)
Definition total_points (player_names : list string) (points : gmap string Z) : Z :=
  foldr (fun p acc => default 0 (points !! p) + acc) 0 player_names.

(** ** Role sets and valid assignments *)

Definition roles4 : list string := ["Raja"; "Mantri"; "Sipahi"; "Chor"].
Definition roles5 : list string := ["Raja"; "Rani"; "Mantri"; "Sipahi"; "Chor"].

(** [role_assignment] is a bijection from the distinct [player_names] onto
    [roles]. *)
Record role_bijection (player_names roles : list string)
    (role_assignment : gmap string string) : Prop := {
  rb_distinct : NoDup player_names;
  rb_dom : forall p, is_Some (role_assignment !! p) <-> p ∈ player_names;
  rb_into : forall p r, role_assignment !! p = Some r -> r ∈ roles;
  rb_inj : forall p q r,
    role_assignment !! p = Some r -> role_assignment !! q = Some r -> p = q;
  rb_onto : forall r, r ∈ roles -> exists p, role_assignment !! p = Some r
}.

(** [dict(pairs)]: later pairs overwrite earlier ones with the same key. *)
Definition dict {V : Type} (pairs : list (string * V)) : gmap string V :=
  foldl (fun d kv => <[kv.1 := kv.2]> d) ∅ pairs.

(** ** The random source

    [random.shuffle(x)] exchanges, for [i] from [len(x) - 1] down to [1], the
    entries [x[i]] and [x[j]] with [j] drawn below [i + 1]. The generator is
    the list of raw draws it is going to deliver; a draw below [n] is the next
    raw draw reduced modulo [n], and an exhausted generator delivers [0]. *)

Definition rng : Type := list nat.

Definition randbelow (n : nat) (g : rng) : nat * rng :=
  (Nat.modulo (hd 0%nat g) n, tl g).

(** [x[i], x[j] = x[j], x[i]] *)
Definition swap {A : Type} (x : list A) (i j : nat) : list A :=
  match x !! i, x !! j with
  | Some a, Some b => <[j := a]> (<[i := b]> x)
  | _, _ => x
  end.

Fixpoint shuffle_from {A : Type} (i : nat) (x : list A) (g : rng) : list A * rng :=
  match i with
  | O => (x, g)
  | S i' =>
      let '(j, g') := randbelow (S i) g in
      shuffle_from i' (swap x i j) g'
  end.

Definition shuffle {A : Type} (x : list A) (g : rng) : list A * rng :=
  shuffle_from (length x - 1) x g.

(** ** Role assigner *)

Definition assign_roles_5_players (player_names : list string) (g : rng)
    : gmap string string * rng :=
  let roles := roles5 in
  let '(shuffled_players, g') := shuffle player_names g in
  (dict (zip shuffled_players roles), g').

Definition assign_roles_4_players (player_names : list string) (g : rng)
    : gmap string string * rng :=
  let roles := roles4 in
  let '(shuffled_players, g') := shuffle player_names g in
  (dict (zip shuffled_players roles), g').

Definition compute_roles_for_round (player_ids : list string) (num_players : Z)
    (g : rng) : gmap string string * rng :=
  if bool_decide (num_players = 5)
  then assign_roles_5_players player_ids g
  else assign_roles_4_players player_ids g.

(** The hidden players, among whom Mantri guesses. *)
Fixpoint _eligible_hidden_players (player_names : list string)
    (role_assignment : gmap string string) : result (list string) :=
  match player_names with
  | [] => Ok []
  | p :: rest =>
      r ← subscript role_assignment p;
      tl ← _eligible_hidden_players rest role_assignment;
      Ok (if bool_decide (r ∈ ["Raja"; "Mantri"]) then tl else p :: tl)
  end.

Definition _infer_sipahi_4p (player_names : list string)
    (role_assignment : gmap string string) (guessed_chor : option string)
    : result string :=
  eligible ← _eligible_hidden_players player_names role_assignment;
  first (filter (fun p => Some p <> guessed_chor) eligible).

Definition sipahi_choice_4p (hidden_names : list string)
    (chor_choice_name : option string) : option string :=
  head (filter (fun n => Some n <> chor_choice_name) hidden_names).

(** ** The store

    The three tables of the hosted database. A row of [rooms] carries the
    columns written by the host set-up and by the phase updates; a nullable
    column is an [option]. *)

Record room : Type := {
  room_code : string;
  num_players : Z;
  num_rounds : Z;
  current_round : Z;
  current_phase : option string;
  current_roles : option (gmap string string);
  mantri_chor_guess : option string;
  mantri_sipahi_guess : option string;
  raja_rani_guess : option string;
  admin_name : string;
  lobby_log : option (list string)
}.

Record player : Type := {
  pl_room_code : string;
  player_name : string;
  pl_role : option string;
  pl_total_score : Z
}.

Record round_score : Type := {
  rs_room_code : string;
  rs_player_name : string;
  rs_round_number : Z;
  rs_points : Z
}.

(** The store together with the generator of the serving process. *)
Record world : Type := {
  rooms : list room;
  players : list player;
  round_scores : list round_score;
  gen : rng
}.

(** Values of an [updates] dictionary. *)
Inductive val : Type :=
  | VNone
  | VInt (n : Z)
  | VStr (s : string)
  | VRoles (m : gmap string string)
  | VLog (l : list string).

Definition opt_str (o : option string) : val :=
  match o with
  | Some s => VStr s
  | None => VNone
  end.

(** What the [rooms] table accepts in a column. An update naming another
    column, or carrying a value of another type, is refused by the database as
    a whole, which the client library reports by raising. *)
Definition column_accepts (column : string) (v : val) : bool :=
  match v with
  | VInt _ => bool_decide (column ∈ ["num_players"; "num_rounds"; "current_round"])
  | VStr _ =>
      bool_decide (column ∈ ["room_code"; "current_phase"; "mantri_chor_guess";
                             "mantri_sipahi_guess"; "raja_rani_guess"; "admin_name"])
  | VNone =>
      bool_decide (column ∈ ["current_phase"; "current_roles"; "mantri_chor_guess";
                             "mantri_sipahi_guess"; "raja_rani_guess"; "lobby_log"])
  | VRoles _ => bool_decide (column = "current_roles")
  | VLog _ => bool_decide (column = "lobby_log")
  end.

Definition set_int (v : option val) (old : Z) : Z :=
  match v with Some (VInt n) => n | _ => old end.

Definition set_str (v : option val) (old : string) : string :=
  match v with Some (VStr s) => s | _ => old end.

Definition set_opt_str (v : option val) (old : option string) : option string :=
  match v with Some (VStr s) => Some s | Some VNone => None | _ => old end.

Definition set_roles (v : option val) (old : option (gmap string string))
    : option (gmap string string) :=
  match v with Some (VRoles m) => Some m | Some VNone => None | _ => old end.

Definition set_log (v : option val) (old : option (list string))
    : option (list string) :=
  match v with Some (VLog l) => Some l | Some VNone => None | _ => old end.

(** [UPDATE rooms SET ...] on one row: the columns named in [updates] are
    overwritten, the others kept. *)
Definition apply_updates (updates : gmap string val) (r : room) : room :=
  {| room_code := set_str (updates !! "room_code") (room_code r);
     num_players := set_int (updates !! "num_players") (num_players r);
     num_rounds := set_int (updates !! "num_rounds") (num_rounds r);
     current_round := set_int (updates !! "current_round") (current_round r);
     current_phase := set_opt_str (updates !! "current_phase") (current_phase r);
     current_roles := set_roles (updates !! "current_roles") (current_roles r);
     mantri_chor_guess :=
       set_opt_str (updates !! "mantri_chor_guess") (mantri_chor_guess r);
     mantri_sipahi_guess :=
       set_opt_str (updates !! "mantri_sipahi_guess") (mantri_sipahi_guess r);
     raja_rani_guess :=
       set_opt_str (updates !! "raja_rani_guess") (raja_rani_guess r);
     admin_name := set_str (updates !! "admin_name") (admin_name r);
     lobby_log := set_log (updates !! "lobby_log") (lobby_log r) |}.

Definition with_rooms (w : world) (rs : list room) : world :=
  {| rooms := rs; players := players w; round_scores := round_scores w;
     gen := gen w |}.

Definition with_round_scores (w : world) (rows : list round_score) : world :=
  {| rooms := rooms w; players := players w; round_scores := rows;
     gen := gen w |}.

Definition with_gen (w : world) (g : rng) : world :=
  {| rooms := rooms w; players := players w; round_scores := round_scores w;
     gen := g |}.

(** [.eq("room_code", code)] *)
Definition has_code (code : string) (r : room) : Prop := room_code r = code.

#[global] Instance has_code_dec code r : Decision (has_code code r).
Proof. unfold has_code. apply _. Defined.

Definition fetch_room (code : string) (w : world) : option room :=
  head (filter (has_code code) (rooms w)).

(** [.order("player_name")] *)
Definition name_le (p q : player) : Prop :=
  Is_true (String.leb (player_name p) (player_name q)).

#[global] Instance name_le_dec p q : Decision (name_le p q).
Proof. unfold name_le. apply _. Defined.

Definition fetch_players (code : string) (w : world) : list player :=
  merge_sort name_le (filter (fun p => pl_room_code p = code) (players w)).

Definition update_room (code : string) (updates : gmap string val) (w : world)
    : result (option room * world) :=
  if bool_decide (code = "") then Raise AssertionError
  else
    let updates :=
      if bool_decide (is_Some (updates !! "admin_name"))
      then filter (fun kv => kv.1 <> "admin_name") updates
      else updates in
    if bool_decide (map_Forall (fun k v => column_accepts k v = true) updates)
    then
      let data := apply_updates updates <$> filter (has_code code) (rooms w) in
      let rooms' :=
        (fun r => if decide (has_code code r) then apply_updates updates r else r)
          <$> rooms w in
      Ok (head data, with_rooms w rooms')
    else Raise APIError.

Definition insert_round_scores (rows : list round_score) (w : world) : world :=
  match rows with
  | [] => w
  | _ => with_round_scores w (round_scores w ++ rows)
  end.

(** ** The room screen of [main]

    One run of the script for a session that is inside a room (the block
    guarded by [if st.session_state.room_code:]). The scoreboard and the other
    displays only read the store and are left out; what a run does to the
    store, and how it ends, is kept. *)

Definition PHASE_RAJA_REVEAL : string := "RAJA_REVEAL".
Definition PHASE_MANTRI_REVEAL : string := "MANTRI_REVEAL".
Definition PHASE_MANTRI_GUESS : string := "MANTRI_GUESS".
Definition PHASE_RAJA_GUESS : string := "RAJA_GUESS".
Definition PHASE_ROUND_RESULT : string := "ROUND_RESULT".
Definition PHASE_GAME_OVER : string := "GAME_OVER".

(** [st.session_state] of the client. *)
Record session : Type := {
  session_room_code : string;
  session_player_name : string;
  is_admin : bool
}.

(** What the user did to trigger the run: a button pressed, or a form
    submitted with its selections. A widget that the run does not draw is
    never consulted. *)
Inductive click : Type :=
  | NoClick
  | StartGame
  | ContinueMantriReveal
  | ContinueMantriGuess
  | SubmitGuess (chor_pick sipahi_pick : string)
  | SubmitRajaGuess (rani_pick : string)
  | NextRound
  | FinishGame
  | LeaveRoom.

#[global] Instance click_eq_dec : EqDecision click.
Proof. solve_decision. Defined.

(** How a run ends: [st.rerun()] after a write, the polling loop of a waiting
    client, a plain return, or [st.error] followed by a return. *)
Inductive screen : Type :=
  | Rerun
  | Waiting
  | Idle
  | Failed (message : string).

(** [st.button(label)]: true in the run triggered by pressing it. *)
Definition button (b ev : click) : bool := bool_decide (ev = b).

(** [st.selectbox(label, options)]: the selected option, the first option
    while nothing (or nothing on offer) was selected, [None] without options. *)
Definition selectbox (options : list string) (pick : option string)
    : option string :=
  match pick with
  | Some n => if bool_decide (n ∈ options) then Some n else head options
  | None => head options
  end.

Definition chor_pick_of (ev : click) : option string :=
  match ev with SubmitGuess c _ => Some c | _ => None end.

Definition sipahi_pick_of (ev : click) : option string :=
  match ev with SubmitGuess _ s => Some s | _ => None end.

Definition rani_pick_of (ev : click) : option string :=
  match ev with SubmitRajaGuess r => Some r | _ => None end.

Definition is_submit_guess (ev : click) : bool :=
  match ev with SubmitGuess _ _ => true | _ => false end.

Definition is_submit_raja_guess (ev : click) : bool :=
  match ev with SubmitRajaGuess _ => true | _ => false end.

(** The inner helper [player_with_role] of [main]. *)
Definition player_with_role (players : list player)
    (roles_map : gmap string string) (role : string) : option player :=
  head (filter (fun p => roles_map !! player_name p = Some role) players).

(** One row per player for the round just scored. *)
Definition score_rows (r : room) (players : list player) (round : Z)
    (pts : gmap string Z) : list round_score :=
  (fun p => {| rs_room_code := room_code r;
               rs_player_name := player_name p;
               rs_round_number := round;
               rs_points := default 0 (pts !! player_name p) |}) <$> players.

Definition new_round_updates (round : Z) (roles : gmap string string)
    : gmap string val :=
  <["current_round" := VInt round]>
  (<["current_phase" := VStr PHASE_RAJA_REVEAL]>
  (<["current_roles" := VRoles roles]>
  (<["mantri_chor_guess" := VNone]>
  (<["mantri_sipahi_guess" := VNone]>
  (<["raja_rani_guess" := VNone]> ∅))))).

Definition phase_update (phase : string) : gmap string val :=
  <["current_phase" := VStr phase]> ∅.

(** The write of a run: [update_room(...)] then [st.rerun()]. *)
Definition update_and_rerun (code : string) (updates : gmap string val)
    (w : world) : result screen * world :=
  match update_room code updates w with
  | Ok (_, w') => (Ok Rerun, w')
  | Raise e => (Raise e, w)
  end.

(** Lobby: [phase is None]. *)
Definition lobby_phase (r : room) (players : list player) (s : session)
    (ev : click) (w : world) : result screen * world :=
  if is_admin s then
    if bool_decide (Z.of_nat (length players) = num_players r) then
      if button StartGame ev then
        let player_names := player_name <$> players in
        let '(roles, g') :=
          compute_roles_for_round player_names (num_players r) (gen w) in
        update_and_rerun (room_code r) (new_round_updates 1 roles) (with_gen w g')
      else (Ok Idle, w)
    else (Ok Idle, w)
  else (Ok Waiting, w).

Definition reveal_phase (next : string) (b : click) (r : room) (s : session)
    (ev : click) (w : world) : result screen * world :=
  if is_admin s then
    if button b ev then update_and_rerun (room_code r) (phase_update next) w
    else (Ok Idle, w)
  else (Ok Waiting, w).

Definition mantri_guess_phase (r : room) (players : list player)
    (roles_map : gmap string string) (s : session) (ev : click) (w : world)
    : result screen * world :=
  let mantri := player_with_role players roles_map "Mantri" in
  if bool_decide (player_name <$> mantri = Some (session_player_name s)) then
    let hidden_names :=
      player_name <$>
        filter (fun p => roles_map !! player_name p ∉ [Some "Raja"; Some "Mantri"])
          players in
    let chor_choice_name := selectbox hidden_names (chor_pick_of ev) in
    let sipahi_choice_name :=
      if bool_decide (num_players r = 5)
      then selectbox (filter (fun n => Some n <> chor_choice_name) hidden_names)
             (sipahi_pick_of ev)
      else sipahi_choice_4p hidden_names chor_choice_name in
    if bool_decide (num_players r <> 5) && bool_decide (sipahi_choice_name = None)
    then (Ok (Failed "Unable to determine Sipahi choice."), w)
    else if is_submit_guess ev then
      let update :=
        <["mantri_sipahi_guess" := opt_str sipahi_choice_name]>
        (<["mantri_chor_guess" := opt_str chor_choice_name]> ∅) in
      if bool_decide (num_players r = 4) then
        let player_names := player_name <$> players in
        match calculate_points_4_players player_names roles_map
                (chor_choice_name, sipahi_choice_name) with
        | Raise e => (Raise e, w)
        | Ok pts =>
            let w := insert_round_scores
                       (score_rows r players (current_round r) pts) w in
            update_and_rerun (room_code r)
              (<["current_phase" := VStr PHASE_ROUND_RESULT]> update) w
        end
      else
        update_and_rerun (room_code r)
          (<["current_phase" := VStr PHASE_RAJA_GUESS]> update) w
    else (Ok Idle, w)
  else (Ok Waiting, w).

Definition raja_guess_phase (r : room) (players : list player)
    (roles_map : gmap string string) (s : session) (ev : click) (w : world)
    : result screen * world :=
  match player_with_role players roles_map "Raja" with
  | None => (Ok (Failed "Raja not found for this round."), w)
  | Some raja =>
      if bool_decide (session_player_name s <> player_name raja)
      then (Ok Waiting, w)
      else
        let candidate_names_list :=
          player_name <$>
            filter (fun p => player_name p <> player_name raja) players in
        let rani_choice_name := selectbox candidate_names_list (rani_pick_of ev) in
        if is_submit_raja_guess ev then
          let player_names := player_name <$> players in
          match calculate_points_5_players player_names roles_map
                  (mantri_chor_guess r, mantri_sipahi_guess r)
                  rani_choice_name with
          | Raise e => (Raise e, w)
          | Ok pts =>
              let w := insert_round_scores
                         (score_rows r players (current_round r) pts) w in
              update_and_rerun (room_code r)
                (<["raja_rani_guess" := opt_str rani_choice_name]>
                 (<["current_phase" := VStr PHASE_ROUND_RESULT]> ∅)) w
          end
        else (Ok Idle, w)
  end.

Definition round_result_phase (r : room) (players : list player) (s : session)
    (ev : click) (w : world) : result screen * world :=
  if is_admin s then
    if bool_decide (current_round r < num_rounds r) then
      if button NextRound ev then
        let player_names := player_name <$> players in
        let '(roles, g') :=
          compute_roles_for_round player_names (num_players r) (gen w) in
        update_and_rerun (room_code r)
          (new_round_updates (current_round r + 1) roles) (with_gen w g')
      else (Ok Idle, w)
    else
      if button FinishGame ev
      then update_and_rerun (room_code r) (phase_update PHASE_GAME_OVER) w
      else (Ok Idle, w)
  else (Ok Waiting, w).

(** The phase dispatch of [main], on the room and the players just read. *)
Definition room_screen (r : room) (players : list player) (s : session)
    (ev : click) (w : world) : result screen * world :=
  let roles_map := default ∅ (current_roles r) in
  match current_phase r with
  | None => lobby_phase r players s ev w
  | Some phase =>
      if bool_decide (phase = PHASE_RAJA_REVEAL) then
        reveal_phase PHASE_MANTRI_REVEAL ContinueMantriReveal r s ev w
      else if bool_decide (phase = PHASE_MANTRI_REVEAL) then
        reveal_phase PHASE_MANTRI_GUESS ContinueMantriGuess r s ev w
      else if bool_decide (phase = PHASE_MANTRI_GUESS) then
        mantri_guess_phase r players roles_map s ev w
      else if bool_decide (phase = PHASE_RAJA_GUESS) then
        raja_guess_phase r players roles_map s ev w
      else if bool_decide (phase = PHASE_ROUND_RESULT) then
        round_result_phase r players s ev w
      else if bool_decide (phase = PHASE_GAME_OVER) then
        (Ok (if button LeaveRoom ev then Rerun else Idle), w)
      else (Ok Idle, w)
  end.

Definition main (s : session) (ev : click) (w : world) : result screen * world :=
  if bool_decide (session_room_code s = "") then (Ok Idle, w)
  else
    match fetch_room (session_room_code s) w with
    | None => (Ok (Failed "Room not found or deleted."), w)
    | Some r =>
        match fetch_players (room_code r) w with
        | [] => (Ok (Failed "No players found in this room."), w)
        | players =>
            if bool_decide (session_player_name s ∈ player_name <$> players)
            then room_screen r players s ev w
            else (Ok (Failed "Your player row was not found in this room."), w)
        end
    end.

(** ** Room codes *)

(** [random.choice(seq)]: the entry at an index drawn below [len(seq)];
    [IndexError] on an empty sequence. *)
Definition choice (seq : string) (g : rng) : result Ascii.ascii * rng :=
  match String.length seq with
  | O => (Raise IndexError, g)
  | n =>
      let '(j, g') := randbelow n g in
      match String.get j seq with
      | Some c => (Ok c, g')
      | None => (Raise IndexError, g')
      end
  end.

Definition alphabet : string := "ABCDEFGHJKLMNPQRSTUVWXYZ23456789".

(** The generator expression of [random_room_code], for [n] remaining
    characters. *)
Fixpoint choices (n : nat) (g : rng) : result string * rng :=
  match n with
  | O => (Ok "", g)
  | S n' =>
      match choice alphabet g with
      | (Raise e, g') => (Raise e, g')
      | (Ok c, g') =>
          match choices n' g' with
          | (Raise e, g'') => (Raise e, g'')
          | (Ok rest, g'') => (Ok (String c rest), g'')
          end
      end
  end.

(** [range(length)] is empty for a length below one. *)
Definition random_room_code (length : Z) (g : rng) : result string * rng :=
  choices (Z.to_nat length) g.

(** ** Reading the ledger *)

(** [.order("round_number")] *)
Definition round_le (a b : round_score) : Prop :=
  rs_round_number a <= rs_round_number b.

#[global] Instance round_le_dec a b : Decision (round_le a b).
Proof. unfold round_le. apply _. Defined.

Definition fetch_round_scores (code : string) (w : world) : list round_score :=
  merge_sort round_le (filter (fun row => rs_room_code row = code) (round_scores w)).

(** A line of the scoreboard: the player, the cells "Round 1" to
    "Round num_rounds", and "Total". *)
Record board_row : Type := {
  br_player : string;
  br_rounds : list Z;
  br_total : Z
}.

(** The loop filling [points_map]. *)
Definition points_map_of (scores : list round_score) : gmap (string * Z) Z :=
  foldl (fun points_map row =>
           let key := (rs_player_name row, rs_round_number row) in
           <[key := default 0 (points_map !! key) + rs_points row]> points_map)
    ∅ scores.

(** [range(1, num_rounds + 1)] *)
Definition round_numbers (num_rounds : Z) : list Z := seqZ 1 num_rounds.

Definition build_scoreboard_from_db (code : string) (players : list player)
    (num_rounds : Z) (w : world) : list board_row :=
  let scores := fetch_round_scores code w in
  let points_map := points_map_of scores in
  (fun p =>
     let pname := player_name p in
     let cells :=
       (fun rnd => default 0 (points_map !! (pname, rnd)))
         <$> round_numbers num_rounds in
     {| br_player := pname;
        br_rounds := cells;
        br_total := foldl Z.add 0 cells |}) <$> players.

(** ** Creating rooms and players, and the lobby log *)

(** Truth value of a dictionary value, as [not] and [or] see it. *)
Definition truthy (v : option val) : bool :=
  match v with
  | None | Some VNone => false
  | Some (VInt n) => bool_decide (n <> 0)
  | Some (VStr s) => bool_decide (s <> "")
  | Some (VRoles m) => bool_decide (m <> ∅)
  | Some (VLog l) => bool_decide (l <> [])
  end.

(** [INSERT INTO rooms]: the row that the table makes of [room_data]. The
    columns that the room record keeps without [option] must be given; the
    nullable ones default to null. The table refuses anything else. *)
Definition inserted_row (room_data : gmap string val) : option room :=
  match room_data !! "room_code", room_data !! "num_players",
        room_data !! "num_rounds", room_data !! "current_round",
        room_data !! "admin_name" with
  | Some (VStr code), Some (VInt np), Some (VInt nr), Some (VInt cr),
    Some (VStr admin) =>
      if bool_decide (map_Forall (fun k v => column_accepts k v = true) room_data)
      then
        Some {| room_code := code; num_players := np; num_rounds := nr;
                current_round := cr;
                current_phase := set_opt_str (room_data !! "current_phase") None;
                current_roles := set_roles (room_data !! "current_roles") None;
                mantri_chor_guess :=
                  set_opt_str (room_data !! "mantri_chor_guess") None;
                mantri_sipahi_guess :=
                  set_opt_str (room_data !! "mantri_sipahi_guess") None;
                raja_rani_guess :=
                  set_opt_str (room_data !! "raja_rani_guess") None;
                admin_name := admin;
                lobby_log := set_log (room_data !! "lobby_log") None |}
      else None
  | _, _, _, _, _ => None
  end.

Definition create_room (room_data : gmap string val) (w : world)
    : result room * world :=
  let admin := room_data !! "admin_name" in
  if negb (truthy admin) then (Raise AssertionError, w)
  else
    match inserted_row room_data with
    | Some r => (Ok r, with_rooms w (rooms w ++ [r]))
    | None => (Raise APIError, w)
    end.

Definition with_players (w : world) (ps : list player) : world :=
  {| rooms := rooms w; players := ps; round_scores := round_scores w;
     gen := gen w |}.

Definition insert_players (new_players : list player) (w : world)
    : list player * world :=
  match new_players with
  | [] => ([], w)
  | _ => (new_players, with_players w (players w ++ new_players))
  end.

(** The whole body sits in [try: ... except Exception: pass]. *)
Definition append_lobby_event (code : string) (text : string) (w : world)
    : world :=
  match fetch_room code w with
  | None => w
  | Some r =>
      let log := (default [] (lobby_log r) ++ [text])%list in
      match update_room code (<["lobby_log" := VLog log]> ∅) w with
      | Ok (_, w') => w'
      | Raise _ => w
      end
  end.

(** ** The host and join screens of [main]

    [str.strip] and [str.upper] are taken as given: the two screens are
    modelled for any pair of functions [strip] and [upper]. *)

(** [st.session_state], as far as these screens use it. *)
Record local_state : Type := {
  view : string;
  ls_room_code : option string;
  ls_is_admin : bool;
  ls_player_name : string;
  ls_admin_name : option string;
  lobby_join_logged : bool
}.

Definition fetch_room_by_code (strip upper : string -> string) (code : string)
    (w : world) : option room :=
  let code := upper (strip code) in
  if bool_decide (code = "") then None
  else head (filter (has_code code) (rooms w)).

Definition new_player (code name : string) : player :=
  {| pl_room_code := code; player_name := name; pl_role := None;
     pl_total_score := 0 |}.

(** The state of a client that has entered room [code] as [name]. *)
Definition entered (st : local_state) (code name : string) (admin : bool)
    : local_state :=
  {| view := "room"; ls_room_code := Some code; ls_is_admin := admin;
     ls_player_name := name; ls_admin_name := ls_admin_name st;
     lobby_join_logged := true |}.

(** The join message is logged once per client. *)
Definition log_join (st : local_state) (code name : string) (w : world) : world :=
  if lobby_join_logged st then w
  else append_lobby_event code (name +:+ " joined the lobby") w.

(** The join screen: the two text inputs and whether "Join" was pressed. *)
Definition join_room_view (strip upper : string -> string)
    (code_input name_input : string) (join_pressed : bool)
    (st : local_state) (w : world) : screen * local_state * world :=
  let code := upper code_input in
  let name := name_input in
  if join_pressed then
    match fetch_room_by_code strip upper code w with
    | None => (Failed "Room not found.", st, w)
    | Some r =>
        let players := fetch_players (room_code r) w in
        let existing :=
          filter (fun p => player_name p = strip name) players in
        let joined (p : player) (w : world) :=
          (Rerun,
           entered st (room_code r) (player_name p)
             (bool_decide (player_name p = admin_name r)),
           log_join st (room_code r) (player_name p) w) in
        match existing with
        | p :: _ => joined p w
        | [] =>
            if bool_decide (num_players r <= Z.of_nat (length players))
            then (Failed "Room is full.", st, w)
            else
              let '(created, w') :=
                insert_players [new_player (room_code r) (strip name)] w in
              match created with
              | p :: _ => joined p w'
              | [] => (Failed "Failed to create player row.", st, w')
              end
        end
    end
  else (Idle, st, w).

(** [len(set(cleaned))] *)
Definition distinct_count (l : list string) : nat := length (remove_dups l).

(** The names that the host screen keeps: the text inputs that are filled
    ([host_name i] is the input with key [host_name_i], one per player),
    stripped, without those that the stripping has emptied. *)
Definition cleaned_names (strip : string -> string) (num_players : Z)
    (host_name : nat -> string) : list string :=
  let names :=
    strip <$> filter (fun val => val <> "")
                (host_name <$> seq 0 (Z.to_nat num_players)) in
  filter (fun n => n <> "") names.

Definition room_insert (code : string) (num_players num_rounds : Z)
    (admin_input : string) : gmap string val :=
  <["room_code" := VStr code]>
  (<["num_players" := VInt num_players]>
  (<["num_rounds" := VInt num_rounds]>
  (<["current_round" := VInt 1]>
  (<["current_phase" := VNone]>
  (<["admin_name" := VStr admin_input]> ∅))))).

(** The host screen: the radio and slider values, the text inputs for the
    player names, the admin input and whether "Create Room" was pressed. *)
Definition host_setup_view (strip : string -> string)
    (players_choice rounds_choice : Z) (host_name : nat -> string)
    (admin_name_input : string) (create_pressed : bool)
    (st : local_state) (w : world) : result screen * local_state * world :=
  let cleaned := cleaned_names strip players_choice host_name in
  let all_filled :=
    bool_decide (Z.of_nat (length cleaned) = players_choice)
    && bool_decide (Z.of_nat (distinct_count cleaned) = players_choice) in
  if all_filled && create_pressed then
    let admin_input := strip admin_name_input in
    if bool_decide (admin_input = "") then
      (Ok (Failed "Please enter which player you are (choose a name from the list)."),
       st, w)
    else if bool_decide (admin_input ∉ cleaned) then
      (Ok (Failed "Admin name must match one of the entered player names."),
       st, w)
    else
      let st := {| view := view st; ls_room_code := ls_room_code st;
                   ls_is_admin := ls_is_admin st;
                   ls_player_name := ls_player_name st;
                   ls_admin_name := Some admin_input;
                   lobby_join_logged := lobby_join_logged st |} in
      match random_room_code 6 (gen w) with
      | (Raise e, g) => (Raise e, st, with_gen w g)
      | (Ok code, g) =>
          let w := with_gen w g in
          match create_room
                  (room_insert code players_choice rounds_choice admin_input)
                  w with
          | (Raise AssertionError, w) =>
              (Ok (Failed "admin_name must be provided and non-empty when creating a room"),
               st, w)
          | (Raise e, w) => (Raise e, st, w)
          | (Ok r, w) =>
              let player_rows := new_player code <$> cleaned in
              let '(created_players, w) := insert_players player_rows w in
              match filter (fun p => player_name p = admin_input)
                      created_players with
              | [] => (Ok (Failed "Failed to create admin player row."), st, w)
              | admin_player :: _ =>
                  (Ok Rerun,
                   entered st code (player_name admin_player) true,
                   log_join st code (player_name admin_player) w)
              end
          end
      end
  else if bool_decide (Z.of_nat (length cleaned) = players_choice)
          && negb (bool_decide (Z.of_nat (distinct_count cleaned) = players_choice))
  then (Ok (Failed "Player names must be unique."), st, w)
  else (Ok Idle, st, w).

(** ** Vocabulary of the statements *)

(** The run ended without a write: same store, and no [st.rerun()]. *)
Definition unchanged (run : result screen * world) (w : world) : Prop :=
  exists scr, run = (Ok scr, w) /\ scr <> Rerun.

(** A run changes nothing when the phase it finds has no use for the click,
    the session or the role of the player. *)
Definition no_effect (r : room) (s : session) (ev : click) : Prop :=
  match current_phase r with
  | None => is_admin s = false \/ ev <> StartGame
  | Some phase =>
      (phase = PHASE_RAJA_REVEAL ->
         is_admin s = false \/ ev <> ContinueMantriReveal)
      /\ (phase = PHASE_MANTRI_REVEAL ->
         is_admin s = false \/ ev <> ContinueMantriGuess)
      /\ (phase = PHASE_MANTRI_GUESS ->
         is_submit_guess ev = false
         \/ default ∅ (current_roles r) !! session_player_name s <> Some "Mantri")
      /\ (phase = PHASE_RAJA_GUESS ->
         is_submit_raja_guess ev = false
         \/ default ∅ (current_roles r) !! session_player_name s <> Some "Raja")
      /\ (phase = PHASE_ROUND_RESULT ->
         is_admin s = false \/ (ev <> NextRound /\ ev <> FinishGame))
      /\ (phase = PHASE_GAME_OVER -> ev <> LeaveRoom)
  end.

(** The click is one that the session may not make in room [r]: a Mantri
    guess from a player who does not hold Mantri, a Raja guess from a player
    who does not hold Raja, or an admin button from a session that is not the
    admin's. *)
Definition unauthorized (r : room) (s : session) (ev : click) : Prop :=
  match ev with
  | SubmitGuess _ _ =>
      default ∅ (current_roles r) !! session_player_name s <> Some "Mantri"
  | SubmitRajaGuess _ =>
      default ∅ (current_roles r) !! session_player_name s <> Some "Raja"
  | StartGame | ContinueMantriReveal | ContinueMantriGuess
  | NextRound | FinishGame => is_admin s = false
  | NoClick | LeaveRoom => False
  end.

(** The two guess forms. *)
Definition same_slot (ev ev' : click) : bool :=
  (is_submit_guess ev && is_submit_guess ev')
  || (is_submit_raja_guess ev && is_submit_raja_guess ev').

(** The outcome of the role lookups that both calculators start with. *)
Definition lookup_outcome (player_names roles : list string)
    (role_assignment : gmap string string) (run : result (gmap string Z)) : Prop :=
  match run with
  | Ok _ =>
      (forall p, p ∈ player_names -> is_Some (role_assignment !! p))
      /\ forall r, r ∈ roles ->
           exists p, p ∈ player_names /\ role_assignment !! p = Some r
  | Raise KeyError =>
      exists p, p ∈ player_names /\ role_assignment !! p = None
  | Raise IndexError =>
      (forall p, p ∈ player_names -> is_Some (role_assignment !! p))
      /\ exists r, r ∈ roles
           /\ forall p, p ∈ player_names -> role_assignment !! p <> Some r
  | Raise _ => False
  end.

(** Sum of the points of ledger rows. *)
Definition sum_points (rows : list round_score) : Z :=
  foldr (fun row acc => rs_points row + acc) 0 rows.

(** The ledger rows of a room that count for a player on a scoreboard of
    [num_rounds] rounds. *)
Definition counted_for (code pname : string) (num_rounds : Z)
    (row : round_score) : Prop :=
  rs_room_code row = code /\ rs_player_name row = pname
  /\ 1 <= rs_round_number row <= num_rounds.

#[global] Instance counted_for_dec code pname num_rounds row :
  Decision (counted_for code pname num_rounds row).
Proof. unfold counted_for. apply _. Defined.

(** What no run and no store operation may touch in a room: its code, its
    admin, its number of players and its number of rounds. *)
Definition same_setup (r r' : room) : Prop :=
  room_code r' = room_code r /\ admin_name r' = admin_name r
  /\ num_players r' = num_players r /\ num_rounds r' = num_rounds r.

(** The same rooms with the same set-up, the same players, and a ledger that
    has only grown at its end. *)
Definition keeps_setup (w w' : world) : Prop :=
  players w' = players w
  /\ Forall2 same_setup (rooms w) (rooms w')
  /\ round_scores w `prefix_of` round_scores w'.

(** Room [r] with another lobby log. *)
Definition with_lobby_log (r : room) (log : option (list string)) : room :=
  {| room_code := room_code r; num_players := num_players r;
     num_rounds := num_rounds r; current_round := current_round r;
     current_phase := current_phase r; current_roles := current_roles r;
     mantri_chor_guess := mantri_chor_guess r;
     mantri_sipahi_guess := mantri_sipahi_guess r;
     raja_rani_guess := raja_rani_guess r; admin_name := admin_name r;
     lobby_log := log |}.

(** Room [r] in another phase. *)
Definition with_phase (r : room) (phase : option string) : room :=
  {| room_code := room_code r; num_players := num_players r;
     num_rounds := num_rounds r; current_round := current_round r;
     current_phase := phase; current_roles := current_roles r;
     mantri_chor_guess := mantri_chor_guess r;
     mantri_sipahi_guess := mantri_sipahi_guess r;
     raja_rani_guess := raja_rani_guess r; admin_name := admin_name r;
     lobby_log := lobby_log r |}.

(** Every room has an admin. *)
Definition admins_named (w : world) : Prop :=
  Forall (fun r => admin_name r <> "") (rooms w).

(** A room is in one of its rounds. *)
Definition round_ok (r : room) : Prop := 1 <= current_round r <= num_rounds r.

(** Room codes are pairwise different, and every room is in one of its
    rounds. *)
Definition rounds_in_range (w : world) : Prop :=
  NoDup (room_code <$> rooms w)
  /\ Forall (fun r => 1 <= current_round r <= num_rounds r) (rooms w).

(** The room that the host screen asks for. *)
Definition hosted_room (code : string) (num_players num_rounds : Z)
    (admin : string) : room :=
  {| room_code := code; num_players := num_players; num_rounds := num_rounds;
     current_round := 1; current_phase := None; current_roles := None;
     mantri_chor_guess := None; mantri_sipahi_guess := None;
     raja_rani_guess := None; admin_name := admin; lobby_log := None |}.

(** The session of the host once the room is there. *)
Definition hosting (code admin : string) : local_state :=
  {| view := "room"; ls_room_code := Some code; ls_is_admin := true;
     ls_player_name := admin; ls_admin_name := Some admin;
     lobby_join_logged := true |}.

(** What the host screen wants before it creates anything: the button
    pressed, one name kept per player, the names pairwise different and the
    admin's name among them. *)
Definition host_input_valid (cleaned : list string) (num_players : Z)
    (admin : string) (pressed : bool) : Prop :=
  pressed = true /\ Z.of_nat (length cleaned) = num_players
  /\ NoDup cleaned /\ admin ∈ cleaned.

(** ** Documented scenarios *)

Definition scenario4 : gmap string string :=
  dict (zip ["A"; "B"; "C"; "D"] roles4).
Definition scenario5 : gmap string string :=
  dict (zip ["A"; "B"; "C"; "D"; "E"] roles5).

Definition demo_player (name : string) : player :=
  {| pl_room_code := "ROOM42"; player_name := name; pl_role := None;
     pl_total_score := 0 |}.

(** A four-player room of two rounds, with the roles of [scenario4]. *)
Definition demo_room (phase : option string) (round : Z) : room :=
  {| room_code := "ROOM42"; num_players := 4; num_rounds := 2;
     current_round := round; current_phase := phase;
     current_roles := Some scenario4;
     mantri_chor_guess := None; mantri_sipahi_guess := None;
     raja_rani_guess := None; admin_name := "A"; lobby_log := None |}.

Definition demo_world (phase : option string) (round : Z) : world :=
  {| rooms := [demo_room phase round];
     players := demo_player <$> ["D"; "B"; "A"; "C"];
     round_scores := [];
     gen := [3; 1; 2]%nat |}.

Definition demo_session (name : string) (admin : bool) : session :=
  {| session_room_code := "ROOM42"; session_player_name := name;
     is_admin := admin |}.




(** * Properties *)

(** ** Lookup helpers *)

Lemma names_with_role_total player_names (role_assignment : gmap string string)
    role :
  (forall p, p ∈ player_names -> is_Some (role_assignment !! p)) ->
  names_with_role player_names role_assignment role
  = Ok (filter (fun q => role_assignment !! q = Some role) player_names).
Proof.
  induction player_names as [|p rest IH]; intros Hdom; [reflexivity|].
  cbn [names_with_role]. destruct (Hdom p) as [r Hr]; [left|].
  unfold subscript. rewrite Hr. cbn.
  rewrite IH by (intros q Hq; apply Hdom; now right). cbn.
  rewrite Hr. case_bool_decide as Hd; case_decide as Hd'; try done.
  - destruct Hd'. now subst.
  - destruct Hd. now inversion Hd'.
Qed.

Lemma filter_none {A : Type} (P : A -> Prop) `{forall x, Decision (P x)}
    (l : list A) :
  (forall y, y ∈ l -> ~ P y) -> filter P l = [].
Proof.
  induction l as [|a l IH]; intros Hno; [reflexivity|].
  rewrite filter_cons, decide_False by (apply Hno; left).
  apply IH. intros y Hy. apply Hno. now right.
Qed.

Lemma filter_unique {A : Type} (P : A -> Prop) `{forall x, Decision (P x)}
    (l : list A) (x : A) :
  NoDup l -> x ∈ l -> P x -> (forall y, y ∈ l -> P y -> y = x) -> filter P l = [x].
Proof.
  induction 1 as [|a l Hnotin Hnd IH]; intros Hin HP Huniq.
  - inversion Hin.
  - rewrite filter_cons. destruct (decide (P a)) as [HPa|HPa].
    + assert (a = x) as -> by (apply Huniq; [left|done]).
      f_equal. apply filter_none. intros y Hy HPy. apply Hnotin.
      rewrite <- (Huniq y) by (done || now right). done.
    + apply IH; [|done|intros y Hy; apply Huniq; now right].
      apply elem_of_cons in Hin as [->|?]; done.
Qed.

(** Under a bijection the holder of a role is found, and it is the only one. *)
Lemma player_with_role_bijection player_names roles role_assignment p r :
  role_bijection player_names roles role_assignment ->
  role_assignment !! p = Some r ->
  _player_with_role player_names role_assignment r = Ok p.
Proof.
  intros [Hnd Hdom _ Hinj _] Hp. unfold _player_with_role.
  rewrite names_with_role_total by (intros q Hq; now apply Hdom).
  erewrite (filter_unique _ _ p); [reflexivity|done| |done|].
  - apply Hdom. eauto.
  - intros q _ Hq. eapply Hinj; eauto.
Qed.

Lemma init_points_from (player_names : list string) (m : gmap string Z) p :
  foldl (fun points player => <[player := 0]> points) m player_names !! p
  = if decide (p ∈ player_names) then Some 0 else m !! p.
Proof.
  revert m. induction player_names as [|q rest IH]; intros m; cbn.
  - rewrite decide_False; [done|]. apply not_elem_of_nil.
  - rewrite IH. destruct (decide (p ∈ rest)) as [Hin|Hnin].
    + rewrite decide_True; [done|now right].
    + destruct (decide (p = q)) as [->|Hne].
      * rewrite lookup_insert_eq, decide_True; [done|left].
      * rewrite lookup_insert_ne by done. rewrite decide_False; [done|].
        intros [?|?]%elem_of_cons; done.
Qed.

Lemma init_points_lookup (player_names : list string) p :
  init_points player_names !! p = if decide (p ∈ player_names) then Some 0 else None.
Proof. unfold init_points. now rewrite init_points_from, lookup_empty. Qed.

(** ** Totals *)

Lemma total_points_cons p rest (points : gmap string Z) :
  total_points (p :: rest) points
  = default 0 (points !! p) + total_points rest points.
Proof. reflexivity. Qed.

Lemma total_points_insert_fresh player_names (points : gmap string Z) k v :
  k ∉ player_names ->
  total_points player_names (<[k := v]> points) = total_points player_names points.
Proof.
  induction player_names as [|p rest IH]; intros Hk; [reflexivity|].
  apply not_elem_of_cons in Hk as [Hne Hk].
  rewrite !total_points_cons, lookup_insert_ne by done. now rewrite IH.
Qed.

Lemma total_points_insert player_names (points : gmap string Z) k v :
  NoDup player_names -> k ∈ player_names ->
  total_points player_names (<[k := v]> points)
  = total_points player_names points - default 0 (points !! k) + v.
Proof.
  induction 1 as [|p rest Hnotin Hnd IH]; intros Hk.
  - inversion Hk.
  - rewrite !total_points_cons. destruct (decide (k = p)) as [->|Hne].
    + rewrite lookup_insert_eq, total_points_insert_fresh by done. cbn. lia.
    + rewrite lookup_insert_ne by done. rewrite IH; [lia|].
      apply elem_of_cons in Hk as [?|?]; done.
Qed.

Lemma total_points_init player_names :
  total_points player_names (init_points player_names) = 0.
Proof.
  assert (forall l, (forall p, p ∈ l -> init_points player_names !! p = Some 0) ->
    total_points l (init_points player_names) = 0) as Hall.
  { induction l as [|p l IH]; intros Hl; [reflexivity|].
    rewrite total_points_cons, Hl by left. rewrite IH; [done|]. intros q Hq. apply Hl. now right. }
  apply Hall. intros p Hp. now rewrite init_points_lookup, decide_True.
Qed.

(** Players holding different roles are different players. *)
Lemma role_holders_differ (role_assignment : gmap string string) p q r s :
  role_assignment !! p = Some r -> role_assignment !! q = Some s -> r <> s -> p <> q.
Proof. intros Hp Hq Hrs ->. congruence. Qed.

(** ** Four players *)

(** C1: under a bijective assignment of four distinct players onto
    Raja, Mantri, Sipahi and Chor, [calculate_points_4_players] returns a
    table in which Raja has 1000 and Sipahi 250; Mantri has 500 and Chor 0
    when both guesses name the actual Chor and the actual Sipahi, and Mantri
    has 0 and Chor 500 otherwise; any other player has 0. *)
Theorem calculate_points_4_players_awards
    player_names role_assignment guessed_chor guessed_sipahi
    raja mantri sipahi chor :
  role_bijection player_names roles4 role_assignment ->
  role_assignment !! raja = Some "Raja" ->
  role_assignment !! mantri = Some "Mantri" ->
  role_assignment !! sipahi = Some "Sipahi" ->
  role_assignment !! chor = Some "Chor" ->
  exists points,
    calculate_points_4_players player_names role_assignment
      (guessed_chor, guessed_sipahi) = Ok points
    /\ points !! raja = Some 1000
    /\ points !! sipahi = Some 250
    /\ (guessed_chor = Some chor /\ guessed_sipahi = Some sipahi ->
        points !! mantri = Some 500 /\ points !! chor = Some 0)
    /\ (~ (guessed_chor = Some chor /\ guessed_sipahi = Some sipahi) ->
        points !! mantri = Some 0 /\ points !! chor = Some 500)
    /\ (forall p, p ∈ player_names -> p ∉ [raja; mantri; sipahi; chor] ->
        points !! p = Some 0).
Proof.
  intros Hb Hraja Hmantri Hsipahi Hchor.
  unfold calculate_points_4_players.
  rewrite (player_with_role_bijection _ _ _ chor "Chor" Hb Hchor).
  rewrite (player_with_role_bijection _ _ _ sipahi "Sipahi" Hb Hsipahi).
  rewrite (player_with_role_bijection _ _ _ mantri "Mantri" Hb Hmantri).
  rewrite (player_with_role_bijection _ _ _ raja "Raja" Hb Hraja).
  cbn -[init_points].
  assert (raja <> mantri) by (eapply role_holders_differ; eauto; done).
  assert (raja <> sipahi) by (eapply role_holders_differ; eauto; done).
  assert (raja <> chor) by (eapply role_holders_differ; eauto; done).
  assert (mantri <> sipahi) by (eapply role_holders_differ; eauto; done).
  assert (mantri <> chor) by (eapply role_holders_differ; eauto; done).
  assert (sipahi <> chor) by (eapply role_holders_differ; eauto; done).
  eexists; split; [reflexivity|].
  repeat apply conj.
  - now simplify_map_eq.
  - now simplify_map_eq.
  - intros [-> ->]. rewrite !bool_decide_eq_true_2 by done. now simplify_map_eq.
  - intros Hwrong.
    destruct (bool_decide (guessed_chor = Some chor)) eqn:E1;
      destruct (bool_decide (guessed_sipahi = Some sipahi)) eqn:E2; cbn;
      try now simplify_map_eq.
    apply bool_decide_eq_true in E1, E2. tauto.
  - intros p Hp Hother.
    assert (p <> raja /\ p <> mantri /\ p <> sipahi /\ p <> chor) as (?&?&?&?).
    { rewrite !not_elem_of_cons in Hother. tauto. }
    destruct (_ && _); rewrite !lookup_insert_ne by done;
      now rewrite init_points_lookup, decide_True.
Qed.

(** ** Five players *)

(** C2: under a bijective assignment of five distinct players onto
    Raja, Rani, Mantri, Sipahi and Chor, [calculate_points_5_players] gives
    Raja 1000 when the Rani guess names the actual Rani and 500 otherwise;
    in the latter case Chor gets 500 more than the Mantri branch gave (0 after
    a correct Mantri guess, 500 after a wrong one, so up to 1000); Rani has
    750 and Sipahi 250. *)
Theorem calculate_points_5_players_awards
    player_names role_assignment guessed_chor guessed_sipahi raja_rani_guess
    raja rani mantri sipahi chor :
  role_bijection player_names roles5 role_assignment ->
  role_assignment !! raja = Some "Raja" ->
  role_assignment !! rani = Some "Rani" ->
  role_assignment !! mantri = Some "Mantri" ->
  role_assignment !! sipahi = Some "Sipahi" ->
  role_assignment !! chor = Some "Chor" ->
  let mantri_right := guessed_chor = Some chor /\ guessed_sipahi = Some sipahi in
  let raja_right := raja_rani_guess = Some rani in
  exists points,
    calculate_points_5_players player_names role_assignment
      (guessed_chor, guessed_sipahi) raja_rani_guess = Ok points
    /\ points !! raja = Some (if decide raja_right then 1000 else 500)
    /\ points !! chor =
         Some ((if decide mantri_right then 0 else 500)
               + (if decide raja_right then 0 else 500))
    /\ points !! mantri = Some (if decide mantri_right then 500 else 0)
    /\ points !! rani = Some 750
    /\ points !! sipahi = Some 250.
Proof.
  intros Hb Hraja Hrani Hmantri Hsipahi Hchor mantri_right raja_right.
  unfold calculate_points_5_players.
  rewrite (player_with_role_bijection _ _ _ chor "Chor" Hb Hchor).
  rewrite (player_with_role_bijection _ _ _ sipahi "Sipahi" Hb Hsipahi).
  rewrite (player_with_role_bijection _ _ _ rani "Rani" Hb Hrani).
  rewrite (player_with_role_bijection _ _ _ mantri "Mantri" Hb Hmantri).
  rewrite (player_with_role_bijection _ _ _ raja "Raja" Hb Hraja).
  cbn -[init_points].
  assert (raja <> rani) by (eapply role_holders_differ; eauto; done).
  assert (raja <> mantri) by (eapply role_holders_differ; eauto; done).
  assert (raja <> sipahi) by (eapply role_holders_differ; eauto; done).
  assert (raja <> chor) by (eapply role_holders_differ; eauto; done).
  assert (rani <> mantri) by (eapply role_holders_differ; eauto; done).
  assert (rani <> sipahi) by (eapply role_holders_differ; eauto; done).
  assert (rani <> chor) by (eapply role_holders_differ; eauto; done).
  assert (mantri <> sipahi) by (eapply role_holders_differ; eauto; done).
  assert (mantri <> chor) by (eapply role_holders_differ; eauto; done).
  assert (sipahi <> chor) by (eapply role_holders_differ; eauto; done).
  assert (bool_decide (guessed_chor = Some chor)
          && bool_decide (guessed_sipahi = Some sipahi)
          = bool_decide mantri_right) as ->.
  { unfold mantri_right.
    repeat case_bool_decide; cbn; try done; tauto. }
  fold raja_right.
  destruct (decide raja_right) as [Hr|Hr];
    [rewrite (bool_decide_eq_true_2 _ Hr)|rewrite (bool_decide_eq_false_2 _ Hr)];
    (destruct (decide mantri_right) as [Hm|Hm];
     [rewrite (bool_decide_eq_true_2 _ Hm)|rewrite (bool_decide_eq_false_2 _ Hm)]);
    unfold subscript; simplify_map_eq; cbn;
    (eexists; split; [reflexivity|]); repeat apply conj; now simplify_map_eq.
Qed.

(** ** Round totals *)

Lemma role_holder_listed player_names roles role_assignment p r :
  role_bijection player_names roles role_assignment ->
  role_assignment !! p = Some r -> p ∈ player_names.
Proof. intros Hb Hp. apply (rb_dom _ _ _ Hb). eauto. Qed.

Lemma calculate_points_4_players_total player_names role_assignment guesses :
  role_bijection player_names roles4 role_assignment ->
  exists points,
    calculate_points_4_players player_names role_assignment guesses = Ok points
    /\ total_points player_names points = 1750.
Proof.
  intros Hb. destruct guesses as [guessed_chor guessed_sipahi].
  destruct (rb_onto _ _ _ Hb "Raja") as [raja Hraja]; [set_solver|].
  destruct (rb_onto _ _ _ Hb "Mantri") as [mantri Hmantri]; [set_solver|].
  destruct (rb_onto _ _ _ Hb "Sipahi") as [sipahi Hsipahi]; [set_solver|].
  destruct (rb_onto _ _ _ Hb "Chor") as [chor Hchor]; [set_solver|].
  unfold calculate_points_4_players.
  rewrite (player_with_role_bijection _ _ _ chor "Chor" Hb Hchor).
  rewrite (player_with_role_bijection _ _ _ sipahi "Sipahi" Hb Hsipahi).
  rewrite (player_with_role_bijection _ _ _ mantri "Mantri" Hb Hmantri).
  rewrite (player_with_role_bijection _ _ _ raja "Raja" Hb Hraja).
  cbn -[init_points].
  assert (raja <> mantri) by (eapply role_holders_differ; eauto; done).
  assert (raja <> sipahi) by (eapply role_holders_differ; eauto; done).
  assert (raja <> chor) by (eapply role_holders_differ; eauto; done).
  assert (mantri <> sipahi) by (eapply role_holders_differ; eauto; done).
  assert (mantri <> chor) by (eapply role_holders_differ; eauto; done).
  assert (sipahi <> chor) by (eapply role_holders_differ; eauto; done).
  pose proof (rb_distinct _ _ _ Hb) as Hnd.
  pose proof (role_holder_listed _ _ _ _ _ Hb Hraja).
  pose proof (role_holder_listed _ _ _ _ _ Hb Hmantri).
  pose proof (role_holder_listed _ _ _ _ _ Hb Hsipahi).
  pose proof (role_holder_listed _ _ _ _ _ Hb Hchor).
  eexists; split; [reflexivity|].
  destruct (_ && _);
    rewrite !total_points_insert, total_points_init by done;
    rewrite ?lookup_insert_ne by done;
    rewrite !init_points_lookup, !decide_True by done; reflexivity.
Qed.

Lemma calculate_points_5_players_total
    player_names role_assignment guesses raja_rani_guess :
  role_bijection player_names roles5 role_assignment ->
  exists points,
    calculate_points_5_players player_names role_assignment guesses
      raja_rani_guess = Ok points
    /\ total_points player_names points = 2500.
Proof.
  intros Hb. destruct guesses as [guessed_chor guessed_sipahi].
  destruct (rb_onto _ _ _ Hb "Raja") as [raja Hraja]; [set_solver|].
  destruct (rb_onto _ _ _ Hb "Rani") as [rani Hrani]; [set_solver|].
  destruct (rb_onto _ _ _ Hb "Mantri") as [mantri Hmantri]; [set_solver|].
  destruct (rb_onto _ _ _ Hb "Sipahi") as [sipahi Hsipahi]; [set_solver|].
  destruct (rb_onto _ _ _ Hb "Chor") as [chor Hchor]; [set_solver|].
  unfold calculate_points_5_players.
  rewrite (player_with_role_bijection _ _ _ chor "Chor" Hb Hchor).
  rewrite (player_with_role_bijection _ _ _ sipahi "Sipahi" Hb Hsipahi).
  rewrite (player_with_role_bijection _ _ _ rani "Rani" Hb Hrani).
  rewrite (player_with_role_bijection _ _ _ mantri "Mantri" Hb Hmantri).
  rewrite (player_with_role_bijection _ _ _ raja "Raja" Hb Hraja).
  cbn -[init_points].
  assert (raja <> rani) by (eapply role_holders_differ; eauto; done).
  assert (raja <> mantri) by (eapply role_holders_differ; eauto; done).
  assert (raja <> sipahi) by (eapply role_holders_differ; eauto; done).
  assert (raja <> chor) by (eapply role_holders_differ; eauto; done).
  assert (rani <> mantri) by (eapply role_holders_differ; eauto; done).
  assert (rani <> sipahi) by (eapply role_holders_differ; eauto; done).
  assert (rani <> chor) by (eapply role_holders_differ; eauto; done).
  assert (mantri <> sipahi) by (eapply role_holders_differ; eauto; done).
  assert (mantri <> chor) by (eapply role_holders_differ; eauto; done).
  assert (sipahi <> chor) by (eapply role_holders_differ; eauto; done).
  pose proof (rb_distinct _ _ _ Hb) as Hnd.
  pose proof (role_holder_listed _ _ _ _ _ Hb Hraja).
  pose proof (role_holder_listed _ _ _ _ _ Hb Hrani).
  pose proof (role_holder_listed _ _ _ _ _ Hb Hmantri).
  pose proof (role_holder_listed _ _ _ _ _ Hb Hsipahi).
  pose proof (role_holder_listed _ _ _ _ _ Hb Hchor).
  destruct (_ && _); destruct (bool_decide (raja_rani_guess = Some rani));
    unfold subscript; cbn -[init_points];
    rewrite ?lookup_insert_ne, ?lookup_insert_eq by done; cbn -[init_points];
    (eexists; split; [reflexivity|]);
    rewrite !total_points_insert, total_points_init by done;
    rewrite ?lookup_insert_eq; 
    repeat (rewrite lookup_insert_ne by done; rewrite ?lookup_insert_eq);
    rewrite ?init_points_lookup, ?decide_True by done; reflexivity.
Qed.

(** C3: for both calculators and every bijective assignment, two rounds
    that differ only in the Mantri guess (so one may be the correct and the
    other the incorrect branch, at the same Raja outcome) award the same
    total: 1750 with four players, 2500 with five. *)
Theorem round_total_invariant
    names4 roles_map4 names5 roles_map5 guesses guesses' raja_rani_guess :
  role_bijection names4 roles4 roles_map4 ->
  role_bijection names5 roles5 roles_map5 ->
  (exists points points',
     calculate_points_4_players names4 roles_map4 guesses = Ok points
     /\ calculate_points_4_players names4 roles_map4 guesses' = Ok points'
     /\ total_points names4 points = 1750
     /\ total_points names4 points' = 1750)
  /\ (exists points points',
     calculate_points_5_players names5 roles_map5 guesses raja_rani_guess
       = Ok points
     /\ calculate_points_5_players names5 roles_map5 guesses' raja_rani_guess
       = Ok points'
     /\ total_points names5 points = 2500
     /\ total_points names5 points' = 2500).
Proof.
  intros Hb4 Hb5. split.
  - destruct (calculate_points_4_players_total _ _ guesses Hb4) as (p & ? & ?).
    destruct (calculate_points_4_players_total _ _ guesses' Hb4) as (p' & ? & ?).
    now exists p, p'.
  - destruct (calculate_points_5_players_total _ _ guesses raja_rani_guess Hb5)
      as (p & ? & ?).
    destruct (calculate_points_5_players_total _ _ guesses' raja_rani_guess Hb5)
      as (p' & ? & ?).
    now exists p, p'.
Qed.

(** ** The shuffle permutes *)

Lemma swap_lookup {A : Type} (x : list A) i j a b n :
  x !! i = Some a -> x !! j = Some b ->
  swap x i j !! n
  = x !! (if decide (n = j) then i else if decide (n = i) then j else n).
Proof.
  intros Hi Hj. unfold swap. rewrite Hi, Hj.
  pose proof (lookup_lt_Some _ _ _ Hi). pose proof (lookup_lt_Some _ _ _ Hj).
  destruct (decide (n = j)) as [->|Hnj].
  - rewrite list_lookup_insert_eq by (now rewrite length_insert). done.
  - rewrite list_lookup_insert_ne by done.
    destruct (decide (n = i)) as [->|Hni].
    + now rewrite list_lookup_insert_eq.
    + now rewrite list_lookup_insert_ne.
Qed.

Lemma swap_length {A : Type} (x : list A) i j : length (swap x i j) = length x.
Proof.
  unfold swap. destruct (x !! i), (x !! j); try done.
  now rewrite !length_insert.
Qed.

Lemma swap_permutation {A : Type} (x : list A) i j : swap x i j ≡ₚ x.
Proof.
  destruct (x !! i) as [a|] eqn:Hi; [|unfold swap; now rewrite Hi].
  destruct (x !! j) as [b|] eqn:Hj; [|unfold swap; now rewrite Hi, Hj].
  apply Permutation_inj. split; [apply swap_length|].
  exists (fun n => if decide (n = j) then i else if decide (n = i) then j else n).
  split.
  - intros n m. repeat case_decide; congruence.
  - intros n. now apply swap_lookup with (a := a) (b := b).
Qed.

Lemma shuffle_from_permutation {A : Type} i (x : list A) g :
  (shuffle_from i x g).1 ≡ₚ x.
Proof.
  revert x g. induction i as [|i IH]; intros x g; [done|].
  cbn [shuffle_from]. destruct (randbelow (S (S i)) g) as [j g'].
  rewrite IH. apply swap_permutation.
Qed.

Lemma shuffle_permutation {A : Type} (x : list A) g : (shuffle x g).1 ≡ₚ x.
Proof. apply shuffle_from_permutation. Qed.

(** ** Dictionaries built from pairs *)

Lemma dict_from_insert {V : Type} (pairs : list (string * V)) (d : gmap string V) k v :
  k ∉ pairs.*1 ->
  foldl (fun d kv => <[kv.1 := kv.2]> d) (<[k := v]> d) pairs
  = <[k := v]> (foldl (fun d kv => <[kv.1 := kv.2]> d) d pairs).
Proof.
  revert d. induction pairs as [|[k' v'] pairs IH]; intros d Hk; [done|].
  cbn in *. apply not_elem_of_cons in Hk as [Hne Hk].
  rewrite <- IH by done. f_equal. now apply insert_insert_ne.
Qed.

Lemma dict_list_to_map {V : Type} (pairs : list (string * V)) :
  NoDup pairs.*1 -> dict pairs = list_to_map pairs.
Proof.
  unfold dict. induction pairs as [|[k v] pairs IH]; intros Hnd; [done|].
  cbn in *. apply NoDup_cons in Hnd as [Hk Hnd].
  rewrite <- IH by done. rewrite <- dict_from_insert by done.
  now rewrite insert_empty.
Qed.

Lemma dict_zip_lookup {V : Type} (keys : list string) (vals : list V) k v :
  NoDup keys -> length keys = length vals ->
  dict (zip keys vals) !! k = Some v <-> (k, v) ∈ zip keys vals.
Proof.
  intros Hnd Hlen.
  assert ((zip keys vals).*1 = keys) as Hfst by (apply fst_zip; lia).
  rewrite dict_list_to_map by now rewrite Hfst.
  symmetry. apply elem_of_list_to_map. now rewrite Hfst.
Qed.

Lemma dict_zip_bijection (keys roles : list string) :
  NoDup keys -> NoDup roles -> length keys = length roles ->
  role_bijection keys roles (dict (zip keys roles)).
Proof.
  intros Hk Hr Hlen. split; [done|..].
  - intros p. split.
    + intros [r Hp]. apply dict_zip_lookup in Hp; [|done..].
      eapply elem_of_zip_l, Hp.
    + intros [i Hi]%list_elem_of_lookup.
      destruct (lookup_lt_is_Some_2 roles i) as [r Hri].
      { rewrite <- Hlen. eapply lookup_lt_Some, Hi. }
      exists r. apply dict_zip_lookup; [done..|].
      apply list_elem_of_lookup. exists i.
      rewrite lookup_zip_with, Hi, Hri. done.
  - intros p r Hp. apply dict_zip_lookup in Hp; [|done..].
    eapply elem_of_zip_r, Hp.
  - intros p q r Hp Hq.
    apply dict_zip_lookup in Hp; [|done..]. apply dict_zip_lookup in Hq; [|done..].
    apply list_elem_of_lookup in Hp as [i Hi], Hq as [j Hj].
    rewrite lookup_zip_with in Hi, Hj.
    destruct (keys !! i) as [p'|] eqn:Hpi; [|done].
    destruct (roles !! i) as [r'|] eqn:Hri; [|done].
    destruct (keys !! j) as [q'|] eqn:Hqj; [|done].
    destruct (roles !! j) as [r''|] eqn:Hrj; [|done].
    cbn in *. simplify_eq.
    assert (i = j) as -> by (eapply NoDup_lookup; eauto). congruence.
  - intros r [i Hi]%list_elem_of_lookup.
    destruct (lookup_lt_is_Some_2 keys i) as [p Hpi].
    { rewrite Hlen. eapply lookup_lt_Some, Hi. }
    exists p. apply dict_zip_lookup; [done..|].
    apply list_elem_of_lookup. exists i.
    rewrite lookup_zip_with, Hpi, Hi. done.
Qed.

(** A bijection on a list of names is one on every reordering of it. *)
Lemma role_bijection_permutation names names' roles role_assignment :
  names ≡ₚ names' ->
  role_bijection names roles role_assignment ->
  role_bijection names' roles role_assignment.
Proof.
  intros Hp [Hnd Hdom Hinto Hinj Honto]. split; try done.
  - now rewrite <- Hp.
  - intros p. rewrite <- Hp. apply Hdom.
Qed.

Lemma roles4_distinct : NoDup roles4.
Proof. apply (bool_decide_unpack _). vm_compute. exact I. Qed.

Lemma roles5_distinct : NoDup roles5.
Proof. apply (bool_decide_unpack _). vm_compute. exact I. Qed.

Lemma assign_roles_4_players_bijection player_names g :
  NoDup player_names -> length player_names = 4%nat ->
  role_bijection player_names roles4 (assign_roles_4_players player_names g).1.
Proof.
  intros Hnd Hlen. unfold assign_roles_4_players.
  pose proof (shuffle_permutation player_names g) as Hperm.
  destruct (shuffle player_names g) as [shuffled g']. cbn in *.
  apply (role_bijection_permutation shuffled); [done|].
  apply dict_zip_bijection; [now rewrite Hperm|apply roles4_distinct|].
  now rewrite Hperm, Hlen.
Qed.

Lemma assign_roles_5_players_bijection player_names g :
  NoDup player_names -> length player_names = 5%nat ->
  role_bijection player_names roles5 (assign_roles_5_players player_names g).1.
Proof.
  intros Hnd Hlen. unfold assign_roles_5_players.
  pose proof (shuffle_permutation player_names g) as Hperm.
  destruct (shuffle player_names g) as [shuffled g']. cbn in *.
  apply (role_bijection_permutation shuffled); [done|].
  apply dict_zip_bijection; [now rewrite Hperm|apply roles5_distinct|].
  now rewrite Hperm, Hlen.
Qed.

(** C4: whatever the generator delivers, the assigner for four
    (respectively five) players maps a list of four (five) distinct
    identities bijectively onto the four (five) roles, with exactly those
    identities as its domain; [compute_roles_for_round] selects the assigner
    by the player count. *)
Theorem assign_roles_bijection (ids4 ids5 : list string) (g : rng) :
  NoDup ids4 -> length ids4 = 4%nat ->
  NoDup ids5 -> length ids5 = 5%nat ->
  (compute_roles_for_round ids4 4 g = assign_roles_4_players ids4 g
   /\ role_bijection ids4 roles4 (assign_roles_4_players ids4 g).1)
  /\ (compute_roles_for_round ids5 5 g = assign_roles_5_players ids5 g
   /\ role_bijection ids5 roles5 (assign_roles_5_players ids5 g).1).
Proof.
  intros Hnd4 Hlen4 Hnd5 Hlen5. repeat apply conj; try reflexivity.
  - now apply assign_roles_4_players_bijection.
  - now apply assign_roles_5_players_bijection.
Qed.

Lemma distinct_by_evaluation (l : list string) :
  bool_decide (NoDup l) = true -> NoDup l.
Proof. apply bool_decide_eq_true_1. Qed.

Lemma assign_roles_bijection_witness :
  role_bijection ["A"; "B"; "C"; "D"] roles4
    (assign_roles_4_players ["A"; "B"; "C"; "D"] [5; 1; 0]%nat).1
  /\ role_bijection ["A"; "B"; "C"; "D"; "E"] roles5
    (assign_roles_5_players ["A"; "B"; "C"; "D"; "E"] [5; 1; 0]%nat).1.
Proof.
  destruct (assign_roles_bijection ["A"; "B"; "C"; "D"]
              ["A"; "B"; "C"; "D"; "E"] [5; 1; 0]%nat) as [[_ H4] [_ H5]].
  - apply distinct_by_evaluation. vm_compute. reflexivity.
  - reflexivity.
  - apply distinct_by_evaluation. vm_compute. reflexivity.
  - reflexivity.
  - split; assumption.
Defined.

Lemma scenario4_bijection : role_bijection ["A"; "B"; "C"; "D"] roles4 scenario4.
Proof.
  apply dict_zip_bijection; [|apply roles4_distinct|reflexivity].
  apply distinct_by_evaluation. vm_compute. reflexivity.
Qed.

Lemma scenario5_bijection :
  role_bijection ["A"; "B"; "C"; "D"; "E"] roles5 scenario5.
Proof.
  apply dict_zip_bijection; [|apply roles5_distinct|reflexivity].
  apply distinct_by_evaluation. vm_compute. reflexivity.
Qed.

Lemma calculate_points_4_players_awards_witness :
  exists points,
    calculate_points_4_players ["A"; "B"; "C"; "D"] scenario4
      (Some "D", Some "C") = Ok points
    /\ points !! "A" = Some 1000 /\ points !! "C" = Some 250
    /\ points !! "B" = Some 500 /\ points !! "D" = Some 0.
Proof.
  destruct (calculate_points_4_players_awards ["A"; "B"; "C"; "D"] scenario4
              (Some "D") (Some "C") "A" "B" "C" "D")
    as (points & Hrun & Hraja & Hsipahi & Hright & _ & _).
  - apply scenario4_bijection.
  - vm_compute. reflexivity.
  - vm_compute. reflexivity.
  - vm_compute. reflexivity.
  - vm_compute. reflexivity.
  - exists points. destruct Hright as [Hmantri Hchor]; [split; reflexivity|].
    repeat split; assumption.
Defined.

Lemma calculate_points_5_players_awards_witness :
  exists points,
    calculate_points_5_players ["A"; "B"; "C"; "D"; "E"] scenario5
      (Some "D", Some "E") (Some "C") = Ok points
    /\ points !! "A" = Some 500 /\ points !! "E" = Some 1000
    /\ points !! "C" = Some 0 /\ points !! "B" = Some 750
    /\ points !! "D" = Some 250.
Proof.
  apply (calculate_points_5_players_awards ["A"; "B"; "C"; "D"; "E"] scenario5
           (Some "D") (Some "E") (Some "C") "A" "B" "C" "D" "E").
  - apply scenario5_bijection.
  - vm_compute. reflexivity.
  - vm_compute. reflexivity.
  - vm_compute. reflexivity.
  - vm_compute. reflexivity.
  - vm_compute. reflexivity.
Defined.

Lemma round_total_invariant_witness :
  (exists points points',
     calculate_points_4_players ["A"; "B"; "C"; "D"] scenario4
       (Some "D", Some "C") = Ok points
     /\ calculate_points_4_players ["A"; "B"; "C"; "D"] scenario4
       (Some "C", Some "D") = Ok points'
     /\ total_points ["A"; "B"; "C"; "D"] points = 1750
     /\ total_points ["A"; "B"; "C"; "D"] points' = 1750)
  /\ (exists points points',
     calculate_points_5_players ["A"; "B"; "C"; "D"; "E"] scenario5
       (Some "D", Some "C") (Some "C") = Ok points
     /\ calculate_points_5_players ["A"; "B"; "C"; "D"; "E"] scenario5
       (Some "C", Some "D") (Some "C") = Ok points'
     /\ total_points ["A"; "B"; "C"; "D"; "E"] points = 2500
     /\ total_points ["A"; "B"; "C"; "D"; "E"] points' = 2500).
Proof.
  apply (round_total_invariant ["A"; "B"; "C"; "D"] scenario4
           ["A"; "B"; "C"; "D"; "E"] scenario5
           (Some "D", Some "C") (Some "C", Some "D") (Some "C")).
  - apply scenario4_bijection.
  - apply scenario5_bijection.
Defined.

(** ** The assigner does not validate its input *)

Lemma dict_from_lookup {V : Type} (pairs : list (string * V)) (d : gmap string V) k v :
  foldl (fun d kv => <[kv.1 := kv.2]> d) d pairs !! k = Some v ->
  (k, v) ∈ pairs \/ d !! k = Some v.
Proof.
  revert d. induction pairs as [|[k' v'] pairs IH]; intros d Hk; [now right|].
  cbn in Hk. apply IH in Hk as [Hin|Hd]; [left; now right|].
  destruct (decide (k' = k)) as [->|Hne].
  - rewrite lookup_insert_eq in Hd. left. simplify_eq. left.
  - rewrite lookup_insert_ne in Hd by done. now right.
Qed.

Lemma dict_lookup {V : Type} (pairs : list (string * V)) k v :
  dict pairs !! k = Some v -> (k, v) ∈ pairs.
Proof.
  intros [?|Hd]%dict_from_lookup; [done|]. now rewrite lookup_empty in Hd.
Qed.

(** C5, as the code has it: the assigner cannot fail and checks neither the
    number of identities nor their distinctness. For every list of
    identities, player count and generator it returns [dict(zip(shuffled,
    roles))] for a reordering [shuffled] of the identities, with the
    five-role list when the count is 5 and the four-role list for every other
    count; each key is a supplied identity and each value a role of that
    list. *)
Theorem compute_roles_for_round_unchecked
    (player_ids : list string) (num_players : Z) (g : rng) :
  let roles := if bool_decide (num_players = 5) then roles5 else roles4 in
  exists shuffled,
    shuffled ≡ₚ player_ids
    /\ (compute_roles_for_round player_ids num_players g).1
       = dict (zip shuffled roles)
    /\ forall p r,
         (compute_roles_for_round player_ids num_players g).1 !! p = Some r ->
         p ∈ player_ids /\ r ∈ roles.
Proof.
  intros roles. exists (shuffle player_ids g).1.
  pose proof (shuffle_permutation player_ids g) as Hperm.
  assert ((compute_roles_for_round player_ids num_players g).1
          = dict (zip (shuffle player_ids g).1 roles)) as Heq.
  { unfold compute_roles_for_round, roles, assign_roles_5_players,
      assign_roles_4_players.
    case_bool_decide; now destruct (shuffle player_ids g). }
  repeat apply conj; [done|done|].
  intros p r. rewrite Heq. intros Hin%dict_lookup. split.
  - rewrite <- Hperm. eapply elem_of_zip_l, Hin.
  - eapply elem_of_zip_r, Hin.
Qed.

(** C5 fails as stated: three identities for a four-player room, and four
    identities of which two are equal, both get an assignment. *)
Lemma compute_roles_for_round_accepts_bad_input :
  length ["A"; "B"; "C"] <> 4%nat
  /\ compute_roles_for_round ["A"; "B"; "C"] 4 []
     = (dict [("B", "Raja"); ("C", "Mantri"); ("A", "Sipahi")], [])
  /\ ~ NoDup ["A"; "A"; "B"; "C"]
  /\ compute_roles_for_round ["A"; "A"; "B"; "C"] 4 []
     = (dict [("A", "Raja"); ("B", "Mantri"); ("C", "Sipahi"); ("A", "Chor")], []).
Proof.
  repeat apply conj.
  - discriminate.
  - vm_compute. reflexivity.
  - intros Hnd. apply NoDup_cons in Hnd as [Hnotin _]. apply Hnotin. left.
  - vm_compute. reflexivity.
Qed.

(** ** Inferring the Sipahi pick with four players *)

Lemma eligible_hidden_players_total player_names role_assignment :
  (forall p, p ∈ player_names -> is_Some (role_assignment !! p)) ->
  _eligible_hidden_players player_names role_assignment
  = Ok (filter (fun p => role_assignment !! p ∉ [Some "Raja"; Some "Mantri"])
          player_names).
Proof.
  induction player_names as [|p rest IH]; intros Hdom; [reflexivity|].
  cbn [_eligible_hidden_players]. destruct (Hdom p) as [r Hr]; [left|].
  unfold subscript. rewrite Hr. cbn.
  rewrite IH by (intros q Hq; apply Hdom; now right). cbn.
  rewrite Hr. case_bool_decide as Hd; case_decide as Hd'; try done.
  - destruct Hd'. set_solver.
  - destruct Hd. set_solver.
Qed.

(** C8, as the code has it: with four players the Sipahi pick is not taken
    from the form but computed as the first hidden player, in player order,
    other than the Chor pick. The computation fails exactly when there is no
    such player ([IndexError] in [_infer_sipahi_4p], no choice in the form);
    with several candidates the first one is taken. Under a bijective
    four-player assignment and a Chor pick among the two hidden players the
    only candidate is the other hidden player. A Sipahi selection sent with
    the form has no influence unless the room has five players. *)
Theorem infer_sipahi_4p_first_candidate
    (player_names : list string) (role_assignment : gmap string string)
    (guessed_chor : option string) :
  (forall p, p ∈ player_names -> is_Some (role_assignment !! p)) ->
  let hidden :=
    filter (fun p => role_assignment !! p ∉ [Some "Raja"; Some "Mantri"])
      player_names in
  let candidates := filter (fun p => Some p <> guessed_chor) hidden in
  match candidates with
  | [] =>
      _infer_sipahi_4p player_names role_assignment guessed_chor
        = Raise IndexError
      /\ sipahi_choice_4p hidden guessed_chor = None
  | s :: _ =>
      _infer_sipahi_4p player_names role_assignment guessed_chor = Ok s
      /\ sipahi_choice_4p hidden guessed_chor = Some s
  end
  /\ (role_bijection player_names roles4 role_assignment ->
      forall chor other,
        guessed_chor = Some chor ->
        chor ∈ hidden -> other ∈ hidden -> other <> chor ->
        candidates = [other])
  /\ (forall r ps s chor_pick sipahi_pick sipahi_pick' w,
        num_players r <> 5 ->
        mantri_guess_phase r ps role_assignment s
          (SubmitGuess chor_pick sipahi_pick) w
        = mantri_guess_phase r ps role_assignment s
            (SubmitGuess chor_pick sipahi_pick') w).
Proof.
  intros Hdom hidden candidates. repeat apply conj.
  3:{ intros r ps s c sp sp' w Hnot5. unfold mantri_guess_phase.
      now rewrite !(bool_decide_eq_false_2 (num_players r = 5)). }
  - unfold _infer_sipahi_4p, sipahi_choice_4p.
    rewrite eligible_hidden_players_total by done. cbn.
    fold hidden. fold candidates. now destruct candidates.
  - intros Hb chor other -> Hchor Hother Hne.
    assert (forall p, p ∈ hidden ->
              role_assignment !! p = Some "Sipahi"
              \/ role_assignment !! p = Some "Chor") as Hroles.
    { intros p [Hp Hin]%list_elem_of_filter.
      destruct (Hdom p Hin) as [r Hr].
      pose proof (rb_into _ _ _ Hb p r Hr) as Hrole. rewrite Hr in Hp.
      unfold roles4 in Hrole. set_solver. }
    apply filter_unique.
    + apply NoDup_filter, (rb_distinct _ _ _ Hb).
    + done.
    + congruence.
    + intros y Hy Hyc.
      assert (y <> chor) as Hyne by congruence.
      destruct (Hroles _ Hy) as [Ry|Ry], (Hroles _ Hchor) as [Rc|Rc],
        (Hroles _ Hother) as [Ro|Ro];
        first [ eapply (rb_inj _ _ _ Hb); eassumption
              | exfalso; apply Hyne; eapply (rb_inj _ _ _ Hb); eassumption
              | exfalso; apply Hne; eapply (rb_inj _ _ _ Hb); eassumption ].
Qed.

Lemma infer_sipahi_4p_first_candidate_witness :
  _infer_sipahi_4p ["A"; "B"; "C"; "D"] scenario4 (Some "D") = Ok "C"
  /\ sipahi_choice_4p ["C"; "D"] (Some "D") = Some "C".
Proof.
  destruct (infer_sipahi_4p_first_candidate ["A"; "B"; "C"; "D"] scenario4
              (Some "D")) as (Hfirst & _ & _).
  - intros p Hp. apply (rb_dom _ _ _ scenario4_bijection p), Hp.
  - exact Hfirst.
Defined.

(** C8 fails as stated: with two candidates (a Chor pick outside the hidden
    players of a four-player round, or three hidden players) the first
    candidate is returned and nothing fails. *)
Lemma infer_sipahi_4p_takes_first_of_many :
  filter (fun p => Some p <> Some "A") ["C"; "D"] = ["C"; "D"]
  /\ _infer_sipahi_4p ["A"; "B"; "C"; "D"] scenario4 (Some "A") = Ok "C"
  /\ sipahi_choice_4p ["B"; "D"; "E"] (Some "E") = Some "B".
Proof. repeat apply conj; vm_compute; reflexivity. Qed.

(** ** Room updates *)

Lemma stripped_updates_no_admin (updates : gmap string val) :
  (if bool_decide (is_Some (updates !! "admin_name"))
   then filter (fun kv => kv.1 <> "admin_name") updates
   else updates) !! "admin_name" = None.
Proof.
  case_bool_decide as Hin.
  - apply map_lookup_filter_None. right. intros v _ Hne. now apply Hne.
  - now apply eq_None_not_Some.
Qed.

Lemma apply_updates_admin_name updates r :
  updates !! "admin_name" = None ->
  admin_name (apply_updates updates r) = admin_name r.
Proof. intros Hno. cbn. now rewrite Hno. Qed.

Lemma update_room_ok code updates w :
  code <> "" ->
  updates !! "admin_name" = None ->
  map_Forall (fun k v => column_accepts k v = true) updates ->
  update_room code updates w
  = Ok (head (apply_updates updates <$> filter (has_code code) (rooms w)),
        with_rooms w
          ((fun r => if decide (has_code code r)
                     then apply_updates updates r else r) <$> rooms w)).
Proof.
  intros Hcode Hno Hacc. unfold update_room.
  rewrite bool_decide_eq_false_2 by done.
  rewrite (bool_decide_eq_false_2 (is_Some _))
    by (rewrite Hno; apply is_Some_None).
  now rewrite bool_decide_eq_true_2.
Qed.

(** C10: an update that [update_room] applies leaves the [admin_name] of
    every room as it was, because an [admin_name] entry of the updates is
    dropped first: the call behaves as the call without that entry. The call
    is applied whenever the room code is not empty and the remaining entries
    fit their columns. *)
Theorem update_room_keeps_admin_name
    (code : string) (updates : gmap string val) (w : world) :
  update_room code updates w = update_room code (delete "admin_name" updates) w
  /\ (forall res w', update_room code updates w = Ok (res, w') ->
        admin_name <$> rooms w' = admin_name <$> rooms w)
  /\ (code <> "" ->
      map_Forall (fun k v => column_accepts k v = true)
        (delete "admin_name" updates) ->
      is_ok (update_room code updates w) = true).
Proof.
  assert ((if bool_decide (is_Some (updates !! "admin_name"))
           then filter (fun kv => kv.1 <> "admin_name") updates
           else updates) = delete "admin_name" updates) as Hstrip.
  { apply map_eq. intros k. destruct (decide (k = "admin_name")) as [->|Hne].
    - now rewrite stripped_updates_no_admin, lookup_delete_eq.
    - rewrite lookup_delete_ne by done. case_bool_decide; [|done].
      destruct (updates !! k) as [v|] eqn:Hk.
      + now apply map_lookup_filter_Some.
      + apply map_lookup_filter_None. now left. }
  assert (update_room code updates w
          = update_room code (delete "admin_name" updates) w) as Hsame.
  { unfold update_room. destruct (bool_decide (code = "")); [done|].
    rewrite Hstrip.
    rewrite (bool_decide_eq_false_2 (is_Some (delete _ _ !! _)))
      by (rewrite lookup_delete_eq; apply is_Some_None).
    done. }
  repeat apply conj; [done|..].
  - intros res w'. rewrite Hsame. unfold update_room.
    destruct (bool_decide (code = "")); [done|].
    rewrite (bool_decide_eq_false_2 (is_Some (delete _ _ !! _)))
      by (rewrite lookup_delete_eq; apply is_Some_None).
    destruct (bool_decide (map_Forall _ _)); [|done]. intros [= _ <-]. cbn.
    rewrite <- list_fmap_compose. apply list_fmap_ext. intros _ r _. cbn.
    case_decide; [|done]. apply apply_updates_admin_name, lookup_delete_eq.
  - intros Hcode Hacc. rewrite Hsame, update_room_ok; try done.
    apply lookup_delete_eq.
Qed.

(** ** Reading the room back *)

Lemma fetch_room_code code w r : fetch_room code w = Some r -> room_code r = code.
Proof.
  unfold fetch_room. intros Hhd.
  assert (r ∈ filter (has_code code) (rooms w)) as Hin.
  { destruct (filter _ _); [done|]. cbn in Hhd. simplify_eq. left. }
  now apply list_elem_of_filter in Hin as [? _].
Qed.

Lemma fetch_room_updated code updates w :
  updates !! "room_code" = None ->
  fetch_room code
    (with_rooms w
       ((fun r => if decide (has_code code r)
                  then apply_updates updates r else r) <$> rooms w))
  = apply_updates updates <$> fetch_room code w.
Proof.
  intros Hno. unfold fetch_room. cbn. induction (rooms w) as [|r rs IH]; [done|].
  rewrite fmap_cons, !filter_cons. destruct (decide (has_code code r)) as [Hc|Hc].
  - rewrite decide_True; [done|]. unfold has_code in *. cbn. now rewrite Hno.
  - rewrite decide_False by done. apply IH.
Qed.

Lemma fetch_players_with_rooms code w rs :
  fetch_players code (with_rooms w rs) = fetch_players code w.
Proof. reflexivity. Qed.

Lemma new_round_updates_accepted round roles :
  map_Forall (fun k v => column_accepts k v = true) (new_round_updates round roles).
Proof.
  unfold new_round_updates.
  repeat (apply map_Forall_insert_2; [reflexivity|]). apply map_Forall_empty.
Qed.

Lemma phase_update_accepted phase :
  map_Forall (fun k v => column_accepts k v = true) (phase_update phase).
Proof.
  unfold phase_update.
  repeat (apply map_Forall_insert_2; [reflexivity|]). apply map_Forall_empty.
Qed.

Lemma main_in_room s ev w r :
  session_room_code s <> "" ->
  fetch_room (session_room_code s) w = Some r ->
  session_player_name s ∈ player_name <$> fetch_players (room_code r) w ->
  main s ev w = room_screen r (fetch_players (room_code r) w) s ev w.
Proof.
  intros Hcode Hroom Hme. unfold main.
  rewrite bool_decide_eq_false_2, Hroom by done.
  destruct (fetch_players (room_code r) w) as [|p ps] eqn:Hps.
  - now apply elem_of_nil in Hme.
  - now rewrite bool_decide_eq_true_2.
Qed.

Lemma room_screen_round_result r ps s ev w :
  current_phase r = Some PHASE_ROUND_RESULT ->
  room_screen r ps s ev w = round_result_phase r ps s ev w.
Proof. intros Hphase. unfold room_screen. rewrite Hphase. reflexivity. Qed.

Lemma room_screen_mantri_guess r ps s ev w :
  current_phase r = Some PHASE_MANTRI_GUESS ->
  room_screen r ps s ev w
  = mantri_guess_phase r ps (default ∅ (current_roles r)) s ev w.
Proof. intros Hphase. unfold room_screen. rewrite Hphase. reflexivity. Qed.


(** C9: for the admin of a room in [ROUND_RESULT], "Next Round" is acted on
    exactly while the current round is below the number of rounds; it then
    moves to the next round index, stores the assignment just drawn by the
    role assigner, clears the three guesses and enters [RAJA_REVEAL], and
    "Finish Game" does nothing. Once the current round has reached the number
    of rounds, "Next Round" does nothing and "Finish Game" enters
    [GAME_OVER]. *)
Theorem round_result_advance (s : session) (w : world) (r : room) :
  session_room_code s <> "" ->
  fetch_room (session_room_code s) w = Some r ->
  session_player_name s ∈ player_name <$> fetch_players (room_code r) w ->
  current_phase r = Some PHASE_ROUND_RESULT ->
  is_admin s = true ->
  let names := player_name <$> fetch_players (room_code r) w in
  let assigned := compute_roles_for_round names (num_players r) (gen w) in
  (current_round r < num_rounds r ->
     (exists w' r',
        main s NextRound w = (Ok Rerun, w')
        /\ fetch_room (session_room_code s) w' = Some r'
        /\ current_round r' = current_round r + 1
        /\ current_phase r' = Some PHASE_RAJA_REVEAL
        /\ current_roles r' = Some assigned.1
        /\ mantri_chor_guess r' = None
        /\ mantri_sipahi_guess r' = None
        /\ raja_rani_guess r' = None
        /\ num_rounds r' = num_rounds r
        /\ round_scores w' = round_scores w)
     /\ main s FinishGame w = (Ok Idle, w))
  /\ (current_round r >= num_rounds r ->
     main s NextRound w = (Ok Idle, w)
     /\ exists w' r',
        main s FinishGame w = (Ok Rerun, w')
        /\ fetch_room (session_room_code s) w' = Some r'
        /\ current_phase r' = Some PHASE_GAME_OVER
        /\ current_round r' = current_round r
        /\ round_scores w' = round_scores w).
Proof.
  intros Hcode Hroom Hme Hphase Hadmin names assigned.
  pose proof (fetch_room_code _ _ _ Hroom) as Hrc.
  assert (room_code r <> "") as Hrc' by congruence.
  rewrite !(main_in_room s _ w r) by done.
  rewrite !room_screen_round_result by done.
  unfold round_result_phase. rewrite Hadmin. split; intros Hround.
  - rewrite bool_decide_eq_true_2 by done. cbn -[compute_roles_for_round].
    split; [|reflexivity].
    fold names. fold assigned. destruct assigned as [roles g'] eqn:Hassigned.
    unfold update_and_rerun.
    rewrite update_room_ok;
      [|done|reflexivity|apply new_round_updates_accepted].
    cbn. eexists _, _. split; [reflexivity|].
    rewrite <- Hrc at 1. 
    rewrite (fetch_room_updated (room_code r) _ (with_gen w g')) by reflexivity.
    replace (fetch_room (room_code r) (with_gen w g')) with (Some r)
      by (rewrite Hrc; symmetry; exact Hroom).
    cbn. repeat split.
  - rewrite bool_decide_eq_false_2 by lia. cbn.
    split; [reflexivity|].
    unfold update_and_rerun.
    rewrite update_room_ok;
      [|done|reflexivity|apply phase_update_accepted].
    cbn. eexists _, _. split; [reflexivity|].
    rewrite <- Hrc at 1.
    rewrite (fetch_room_updated (room_code r) _ w) by reflexivity.
    rewrite Hrc, Hroom. cbn. repeat split.
Qed.

(** ** Runs that change nothing *)

Lemma player_with_role_holds ps (roles_map : gmap string string) role p :
  player_with_role ps roles_map role = Some p ->
  roles_map !! player_name p = Some role.
Proof.
  unfold player_with_role. intros Hhd.
  assert (p ∈ filter (fun q => roles_map !! player_name q = Some role) ps) as Hin.
  { destruct (filter _ _); [done|]. cbn in Hhd. simplify_eq. left. }
  now apply list_elem_of_filter in Hin as [? _].
Qed.

Lemma lobby_phase_unchanged r ps s ev w :
  is_admin s = false \/ ev <> StartGame ->
  unchanged (lobby_phase r ps s ev w) w.
Proof.
  intros Hno. unfold lobby_phase, unchanged, button.
  destruct (is_admin s); [|by eexists].
  destruct Hno as [?|Hev]; [done|].
  rewrite (bool_decide_eq_false_2 _ Hev). case_bool_decide; by eexists.
Qed.

Lemma reveal_phase_unchanged next b r s ev w :
  is_admin s = false \/ ev <> b ->
  unchanged (reveal_phase next b r s ev w) w.
Proof.
  intros Hno. unfold reveal_phase, unchanged, button.
  destruct (is_admin s); [|by eexists].
  destruct Hno as [?|Hev]; [done|].
  rewrite (bool_decide_eq_false_2 _ Hev). by eexists.
Qed.

Lemma mantri_guess_phase_unchanged r ps roles_map s ev w :
  is_submit_guess ev = false
  \/ roles_map !! session_player_name s <> Some "Mantri" ->
  unchanged (mantri_guess_phase r ps roles_map s ev w) w.
Proof.
  intros Hno. unfold mantri_guess_phase, unchanged.
  case_bool_decide as Hme; [|by eexists].
  destruct Hno as [Hev|Hrole].
  - rewrite Hev. destruct (_ && _); by eexists.
  - destruct (player_with_role ps roles_map "Mantri") as [m|] eqn:Hm; [|done].
    apply player_with_role_holds in Hm. cbn in Hme. congruence.
Qed.

Lemma raja_guess_phase_unchanged r ps roles_map s ev w :
  is_submit_raja_guess ev = false
  \/ roles_map !! session_player_name s <> Some "Raja" ->
  unchanged (raja_guess_phase r ps roles_map s ev w) w.
Proof.
  intros Hno. unfold raja_guess_phase, unchanged.
  destruct (player_with_role ps roles_map "Raja") as [raja|] eqn:Hraja;
    [|by eexists].
  case_bool_decide as Hme; [by eexists|].
  destruct Hno as [Hev|Hrole].
  - rewrite Hev. by eexists.
  - apply player_with_role_holds in Hraja. congruence.
Qed.

Lemma round_result_phase_unchanged r ps s ev w :
  is_admin s = false \/ (ev <> NextRound /\ ev <> FinishGame) ->
  unchanged (round_result_phase r ps s ev w) w.
Proof.
  intros Hno. unfold round_result_phase, unchanged, button.
  destruct (is_admin s); [|by eexists].
  destruct Hno as [?|[Hnext Hfinish]]; [done|].
  rewrite (bool_decide_eq_false_2 _ Hnext), (bool_decide_eq_false_2 _ Hfinish).
  case_bool_decide; by eexists.
Qed.

Lemma room_screen_unchanged r ps s ev w :
  no_effect r s ev -> unchanged (room_screen r ps s ev w) w.
Proof.
  unfold no_effect, room_screen.
  destruct (current_phase r) as [phase|]; [|apply lobby_phase_unchanged].
  intros (H1 & H2 & H3 & H4 & H5 & H6).
  case_bool_decide; [now apply reveal_phase_unchanged, H1|].
  case_bool_decide; [now apply reveal_phase_unchanged, H2|].
  case_bool_decide; [now apply mantri_guess_phase_unchanged, H3|].
  case_bool_decide; [now apply raja_guess_phase_unchanged, H4|].
  case_bool_decide; [now apply round_result_phase_unchanged, H5|].
  unfold unchanged, button. case_bool_decide; [|by eexists].
  rewrite bool_decide_eq_false_2 by now apply H6. by eexists.
Qed.

Lemma main_unchanged s ev w :
  (forall r, fetch_room (session_room_code s) w = Some r -> no_effect r s ev) ->
  unchanged (main s ev w) w.
Proof.
  intros Hno. unfold main.
  case_bool_decide; [by eexists|].
  destruct (fetch_room (session_room_code s) w) as [r|]; [|by eexists].
  destruct (fetch_players (room_code r) w) as [|p ps]; [by eexists|].
  case_bool_decide; [|by eexists].
  now apply room_screen_unchanged, Hno.
Qed.

(** ** Actors without the right to act *)

Lemma unauthorized_no_effect r s ev : unauthorized r s ev -> no_effect r s ev.
Proof.
  unfold unauthorized, no_effect. intros Hun.
  destruct (current_phase r) as [phase|].
  - destruct ev; try done; repeat apply conj; intros _;
      first [ by left | by right | by (right; split) | done ].
  - destruct ev; try done; first [ by left | by right ].
Qed.

(** C7, as the code has it: a run triggered by an actor without the right
    to act (a Mantri guess from a player not holding Mantri, a Raja guess from
    a player not holding Raja, an admin button from a non-admin session) raises
    nothing and reports no error; it ends on the waiting or the idle screen (or
    on one of the "not found" messages) and leaves the whole store, the phase
    of the room included, as it was. *)
Theorem unauthorized_run_changes_nothing (s : session) (ev : click) (w : world)
    (r : room) :
  fetch_room (session_room_code s) w = Some r ->
  unauthorized r s ev ->
  exists scr, main s ev w = (Ok scr, w) /\ scr <> Rerun.
Proof.
  intros Hroom Hun. apply main_unchanged.
  intros r' Hr'. rewrite Hroom in Hr'. simplify_eq.
  now apply unauthorized_no_effect.
Qed.

Lemma unauthorized_run_changes_nothing_witness :
  exists scr,
    main (demo_session "A" true) (SubmitGuess "D" "C")
      (demo_world (Some PHASE_MANTRI_GUESS) 1)
    = (Ok scr, demo_world (Some PHASE_MANTRI_GUESS) 1)
    /\ scr <> Rerun.
Proof.
  apply (unauthorized_run_changes_nothing (demo_session "A" true)
           (SubmitGuess "D" "C") (demo_world (Some PHASE_MANTRI_GUESS) 1)
           (demo_room (Some PHASE_MANTRI_GUESS) 1)).
  - reflexivity.
  - vm_compute. discriminate.
Defined.

(** C7 fails as stated: the Raja of the round submitting the Mantri guess
    gets no error; the run ends normally on the waiting screen. *)
Lemma unauthorized_guess_is_not_an_error :
  default ∅ (current_roles (demo_room (Some PHASE_MANTRI_GUESS) 1)) !! "A"
    = Some "Raja"
  /\ main (demo_session "A" true) (SubmitGuess "D" "C")
       (demo_world (Some PHASE_MANTRI_GUESS) 1)
     = (Ok Waiting, demo_world (Some PHASE_MANTRI_GUESS) 1).
Proof. split; vm_compute; reflexivity. Qed.

(** ** A guess submitted again *)

Lemma update_and_rerun_inv code updates w scr w1 :
  updates !! "admin_name" = None ->
  update_and_rerun code updates w = (Ok scr, w1) ->
  w1 = with_rooms w
         ((fun r => if decide (has_code code r)
                    then apply_updates updates r else r) <$> rooms w).
Proof.
  intros Hno. unfold update_and_rerun, update_room.
  destruct (bool_decide (code = "")); [done|].
  rewrite (bool_decide_eq_false_2 (is_Some _))
    by (rewrite Hno; apply is_Some_None).
  destruct (bool_decide (map_Forall _ _)); [|done]. congruence.
Qed.

Lemma rooms_insert_round_scores rows w :
  rooms (insert_round_scores rows w) = rooms w.
Proof. now destruct rows. Qed.

Lemma fetch_room_insert_round_scores code rows w :
  fetch_room code (insert_round_scores rows w) = fetch_room code w.
Proof. now destruct rows. Qed.

Lemma fetch_players_insert_round_scores code rows w :
  fetch_players code (insert_round_scores rows w) = fetch_players code w.
Proof. now destruct rows. Qed.

(** A guess run that wrote has moved the room out of the phase of its form. *)
Lemma guess_run_moves_phase r ps s ev w w1 :
  room_screen r ps s ev w = (Ok Rerun, w1) ->
  is_submit_guess ev || is_submit_raja_guess ev = true ->
  exists rows updates phase',
    w1 = with_rooms (insert_round_scores rows w)
           ((fun r' => if decide (has_code (room_code r) r')
                       then apply_updates updates r' else r') <$> rooms w)
    /\ updates !! "room_code" = None
    /\ updates !! "current_phase" = Some (VStr phase')
    /\ (is_submit_guess ev = true ->
        phase' = PHASE_ROUND_RESULT \/ phase' = PHASE_RAJA_GUESS)
    /\ (is_submit_raja_guess ev = true -> phase' = PHASE_ROUND_RESULT).
Proof.
  intros Hrun Hev.
  assert (ev <> StartGame /\ ev <> ContinueMantriReveal
          /\ ev <> ContinueMantriGuess /\ ev <> NextRound
          /\ ev <> FinishGame /\ ev <> LeaveRoom) as (?&?&?&?&?&?)
    by (destruct ev; done).
  unfold room_screen in Hrun.
  destruct (current_phase r) as [phase|].
  2:{ destruct (lobby_phase_unchanged r ps s ev w) as (? & Heq & ?);
        [by right|]. rewrite Heq in Hrun. simplify_eq. }
  repeat case_bool_decide.
  - destruct (reveal_phase_unchanged PHASE_MANTRI_REVEAL ContinueMantriReveal
                r s ev w) as (? & Heq & ?); [by right|].
    rewrite Heq in Hrun. simplify_eq.
  - destruct (reveal_phase_unchanged PHASE_MANTRI_GUESS ContinueMantriGuess
                r s ev w) as (? & Heq & ?); [by right|].
    rewrite Heq in Hrun. simplify_eq.
  - unfold mantri_guess_phase in Hrun.
    case_bool_decide; [|done].
    destruct (_ && _); [done|].
    destruct (is_submit_guess ev) eqn:Hsub; [|done].
    assert (is_submit_raja_guess ev = false) as Hnr by (destruct ev; done).
    case_bool_decide.
    + destruct (calculate_points_4_players _ _ _) as [pts|]; [|done].
      cbn in Hrun. apply update_and_rerun_inv in Hrun; [|reflexivity].
      rewrite ?rooms_insert_round_scores in Hrun.
      eexists _, _, PHASE_ROUND_RESULT. split; [exact Hrun|].
      split; [reflexivity|]. split; [reflexivity|].
      split; [intros _; by left|by rewrite Hnr].
    + apply update_and_rerun_inv in Hrun; [|reflexivity].
      rewrite ?rooms_insert_round_scores in Hrun.
      exists []. eexists _, PHASE_RAJA_GUESS. split; [exact Hrun|].
      split; [reflexivity|]. split; [reflexivity|].
      split; [intros _; by right|by rewrite Hnr].
  - unfold raja_guess_phase in Hrun.
    destruct (player_with_role _ _ _); [|done].
    case_bool_decide; [done|].
    destruct (is_submit_raja_guess ev) eqn:Hsub; [|done].
    destruct (calculate_points_5_players _ _ _ _) as [pts|]; [|done].
    cbn in Hrun. apply update_and_rerun_inv in Hrun; [|reflexivity].
      rewrite ?rooms_insert_round_scores in Hrun.
    eexists _, _, PHASE_ROUND_RESULT. split; [exact Hrun|].
    split; [reflexivity|]. split; [reflexivity|].
    split; [intros _; by left|done].
  - destruct (round_result_phase_unchanged r ps s ev w) as (? & Heq & ?);
      [by right|]. rewrite Heq in Hrun. simplify_eq.
  - unfold button in Hrun. rewrite bool_decide_eq_false_2 in Hrun by done.
    simplify_eq.
  - simplify_eq.
Qed.

(** C6, as the code has it: once a guess submission has been written, a
    run for the same form that reads the room afterwards (from any session of
    that room) finds the room in a later phase and ignores the click: it
    raises nothing, reports no error, appends no score rows and leaves the
    store as it is. (The write itself is not conditional on the stored
    phase.) *)
Theorem repeated_guess_is_ignored (s s' : session) (ev ev' : click)
    (w w1 : world) :
  same_slot ev ev' = true ->
  session_room_code s' = session_room_code s ->
  main s ev w = (Ok Rerun, w1) ->
  exists scr,
    main s' ev' w1 = (Ok scr, w1)
    /\ scr <> Rerun
    /\ round_scores (main s' ev' w1).2 = round_scores w1.
Proof.
  intros Hslot Hcode Hrun.
  assert (unchanged (main s' ev' w1) w1) as (scr & Hrun' & Hscr).
  2:{ exists scr. rewrite Hrun'. done. }
  unfold main in Hrun.
  destruct (bool_decide (session_room_code s = "")); [done|].
  destruct (fetch_room (session_room_code s) w) as [r|] eqn:Hroom; [|done].
  destruct (fetch_players (room_code r) w) as [|p ps]; [done|].
  destruct (bool_decide (session_player_name s ∈ _)); [|done].
  pose proof (fetch_room_code _ _ _ Hroom) as Hrc.
  assert (is_submit_guess ev || is_submit_raja_guess ev = true) as Hev.
  { unfold same_slot in Hslot.
    destruct (is_submit_guess ev), (is_submit_raja_guess ev); done. }
  destruct (guess_run_moves_phase _ _ _ _ _ _ Hrun Hev)
    as (rows & updates & phase' & -> & Hnocode & Hphase & Hguess & Hraja).
  apply main_unchanged. intros r'. rewrite Hcode, <- Hrc.
  rewrite <- (rooms_insert_round_scores rows w).
  rewrite fetch_room_updated by done.
  rewrite fetch_room_insert_round_scores, Hrc, Hroom. intros [= <-].
  unfold no_effect. cbn. rewrite Hphase. cbn.
  unfold same_slot in Hslot.
  destruct (is_submit_guess ev) eqn:Hg.
  - assert (is_submit_guess ev' = true) as Hg'.
    { destruct ev; try done. destruct ev'; done. }
    assert (is_submit_raja_guess ev' = false) by (destruct ev'; done).
    assert (ev' <> NextRound /\ ev' <> FinishGame /\ ev' <> LeaveRoom)
      as (?&?&?) by (destruct ev'; done).
    destruct (Hguess eq_refl) as [-> | ->];
      repeat apply conj; intros Heq; try done; first [by left|by right].
  - assert (is_submit_raja_guess ev = true) as Hr by (destruct ev; done).
    assert (is_submit_raja_guess ev' = true) as Hr' by (destruct ev, ev'; done).
    assert (ev' <> NextRound /\ ev' <> FinishGame /\ ev' <> LeaveRoom)
      as (?&?&?) by (destruct ev'; done).
    rewrite (Hraja Hr).
    repeat apply conj; intros Heq; try done; first [by left|by right].
Qed.

Lemma repeated_guess_is_ignored_witness :
  exists scr,
    main (demo_session "B" false) (SubmitGuess "C" "D")
      (main (demo_session "B" false) (SubmitGuess "D" "C")
         (demo_world (Some PHASE_MANTRI_GUESS) 1)).2
    = (Ok scr,
       (main (demo_session "B" false) (SubmitGuess "D" "C")
          (demo_world (Some PHASE_MANTRI_GUESS) 1)).2)
    /\ scr <> Rerun
    /\ round_scores
         (main (demo_session "B" false) (SubmitGuess "C" "D")
            (main (demo_session "B" false) (SubmitGuess "D" "C")
               (demo_world (Some PHASE_MANTRI_GUESS) 1)).2).2
       = round_scores
           (main (demo_session "B" false) (SubmitGuess "D" "C")
              (demo_world (Some PHASE_MANTRI_GUESS) 1)).2.
Proof.
  apply (repeated_guess_is_ignored (demo_session "B" false)
           (demo_session "B" false) (SubmitGuess "D" "C") (SubmitGuess "C" "D")
           (demo_world (Some PHASE_MANTRI_GUESS) 1)).
  - reflexivity.
  - reflexivity.
  - vm_compute. reflexivity.
Defined.

(** C6 fails as stated. The Mantri of the sample room submits the guess;
    the room moves to [ROUND_RESULT] and four rows are appended. A second
    submission read afterwards ends on the waiting screen: no error of any
    kind. A second run that had read the room before that write (the room
    still in [MANTRI_GUESS] for it) is applied in full although the stored
    phase is [ROUND_RESULT] by then, and the round has two rows per player. *)
Lemma stale_guess_is_applied_again :
  let w0 := demo_world (Some PHASE_MANTRI_GUESS) 1 in
  let r0 := demo_room (Some PHASE_MANTRI_GUESS) 1 in
  let mantri := demo_session "B" false in
  let w1 := (main mantri (SubmitGuess "D" "C") w0).2 in
  let stale := room_screen r0 (fetch_players "ROOM42" w0) mantri
                 (SubmitGuess "D" "C") w1 in
  fetch_room "ROOM42" w0 = Some r0
  /\ (main mantri (SubmitGuess "D" "C") w0).1 = Ok Rerun
  /\ current_phase <$> fetch_room "ROOM42" w1 = Some (Some PHASE_ROUND_RESULT)
  /\ length (round_scores w1) = 4%nat
  /\ main mantri (SubmitGuess "D" "C") w1 = (Ok Waiting, w1)
  /\ stale.1 = Ok Rerun
  /\ length (round_scores stale.2) = 8%nat
  /\ filter (fun row => rs_player_name row = "B" /\ rs_round_number row = 1)
       (round_scores stale.2)
     = [ {| rs_room_code := "ROOM42"; rs_player_name := "B";
            rs_round_number := 1; rs_points := 500 |};
         {| rs_room_code := "ROOM42"; rs_player_name := "B";
            rs_round_number := 1; rs_points := 500 |} ].
Proof. repeat apply conj; vm_compute; reflexivity. Qed.

Lemma round_result_advance_witness :
  (exists w' r',
     main (demo_session "A" true) NextRound
       (demo_world (Some PHASE_ROUND_RESULT) 1) = (Ok Rerun, w')
     /\ fetch_room "ROOM42" w' = Some r'
     /\ current_round r' = 2
     /\ current_phase r' = Some PHASE_RAJA_REVEAL
     /\ mantri_chor_guess r' = None
     /\ mantri_sipahi_guess r' = None
     /\ raja_rani_guess r' = None)
  /\ main (demo_session "A" true) NextRound
       (demo_world (Some PHASE_ROUND_RESULT) 2)
     = (Ok Idle, demo_world (Some PHASE_ROUND_RESULT) 2)
  /\ (exists w' r',
     main (demo_session "A" true) FinishGame
       (demo_world (Some PHASE_ROUND_RESULT) 2) = (Ok Rerun, w')
     /\ fetch_room "ROOM42" w' = Some r'
     /\ current_phase r' = Some PHASE_GAME_OVER).
Proof.
  assert (forall n,
            "A" ∈ player_name <$>
              fetch_players (room_code (demo_room (Some PHASE_ROUND_RESULT) n))
                (demo_world (Some PHASE_ROUND_RESULT) n)) as Hme.
  { intros n. apply (bool_decide_unpack _). vm_compute. exact I. }
  destruct (round_result_advance (demo_session "A" true)
              (demo_world (Some PHASE_ROUND_RESULT) 1)
              (demo_room (Some PHASE_ROUND_RESULT) 1))
    as [Hbelow _]; [done|reflexivity|apply Hme|reflexivity|reflexivity|].
  destruct (round_result_advance (demo_session "A" true)
              (demo_world (Some PHASE_ROUND_RESULT) 2)
              (demo_room (Some PHASE_ROUND_RESULT) 2))
    as [_ Hlast]; [done|reflexivity|apply Hme|reflexivity|reflexivity|].
  destruct Hbelow as [(w' & r' & H1 & H2 & H3 & H4 & _ & H6 & H7 & H8 & _) _];
    [reflexivity|].
  destruct Hlast as [Hnext (w2 & r2 & G1 & G2 & G3 & _)]; [discriminate|].
  split; [|split].
  - exists w', r'. repeat split; assumption.
  - exact Hnext.
  - exists w2, r2. repeat split; assumption.
Defined.

Lemma update_room_keeps_admin_name_witness :
  let updates :=
    <["admin_name" := VStr "D"]> (phase_update PHASE_RAJA_REVEAL) in
  let w := demo_world None 1 in
  update_room "ROOM42" updates w
    = update_room "ROOM42" (phase_update PHASE_RAJA_REVEAL) w
  /\ admin_name <$> rooms (demo_world (Some PHASE_RAJA_REVEAL) 1)
     = admin_name <$> rooms w
  /\ is_ok (update_room "ROOM42" updates w) = true.
Proof.
  intros updates w.
  destruct (update_room_keeps_admin_name "ROOM42" updates w)
    as (Hsame & Hkeep & Hok).
  repeat apply conj.
  - exact Hsame.
  - apply (Hkeep (Some (demo_room (Some PHASE_RAJA_REVEAL) 1))).
    vm_compute. reflexivity.
  - apply Hok; [discriminate|]. unfold updates.
    rewrite delete_insert_eq. apply map_Forall_delete, phase_update_accepted.
Defined.

Lemma compute_roles_for_round_unchecked_witness :
  exists shuffled,
    shuffled ≡ₚ ["A"; "B"; "C"]
    /\ (compute_roles_for_round ["A"; "B"; "C"] 4 [2; 0]%nat).1
       = dict (zip shuffled roles4)
    /\ forall p r,
         (compute_roles_for_round ["A"; "B"; "C"] 4 [2; 0]%nat).1 !! p = Some r ->
         p ∈ ["A"; "B"; "C"] /\ r ∈ roles4.
Proof. exact (compute_roles_for_round_unchecked ["A"; "B"; "C"] 4 [2; 0]%nat). Defined.

(** ** The documented rounds, evaluated *)

Example four_players_guess_right :
  calculate_points_4_players ["A"; "B"; "C"; "D"] scenario4 (Some "D", Some "C")
  = Ok (dict [("A", 1000); ("B", 500); ("C", 250); ("D", 0)]).
Proof. vm_compute. reflexivity. Qed.

Example four_players_guess_wrong :
  calculate_points_4_players ["A"; "B"; "C"; "D"] scenario4 (Some "C", Some "D")
  = Ok (dict [("A", 1000); ("B", 0); ("C", 250); ("D", 500)]).
Proof. vm_compute. reflexivity. Qed.

Example five_players_both_right :
  calculate_points_5_players ["A"; "B"; "C"; "D"; "E"] scenario5
    (Some "E", Some "D") (Some "B")
  = Ok (dict [("A", 1000); ("B", 750); ("C", 500); ("D", 250); ("E", 0)]).
Proof. vm_compute. reflexivity. Qed.

Example five_players_both_wrong :
  calculate_points_5_players ["A"; "B"; "C"; "D"; "E"] scenario5
    (Some "D", Some "E") (Some "C")
  = Ok (dict [("A", 500); ("B", 750); ("C", 0); ("D", 250); ("E", 1000)]).
Proof. vm_compute. reflexivity. Qed.

Example start_game_assigns_roles :
  let run := main (demo_session "A" true) StartGame (demo_world None 1) in
  run.1 = Ok Rerun
  /\ (current_phase <$> fetch_room "ROOM42" run.2) = Some (Some PHASE_RAJA_REVEAL)
  /\ (current_roles <$> fetch_room "ROOM42" run.2)
     = Some (Some (dict [("C", "Raja"); ("A", "Mantri"); ("B", "Sipahi");
                         ("D", "Chor")])).
Proof. repeat apply conj; vm_compute; reflexivity. Qed.

(** * Further properties of the code *)

(** ** When the calculators fail *)

Lemma names_with_role_missing player_names (role_assignment : gmap string string)
    role p :
  p ∈ player_names -> role_assignment !! p = None ->
  names_with_role player_names role_assignment role = Raise KeyError.
Proof.
  induction player_names as [|q rest IH]; intros Hin Hnone.
  - now apply elem_of_nil in Hin.
  - cbn [names_with_role]. unfold subscript.
    destruct (role_assignment !! q) as [r|] eqn:Hq; [|reflexivity]. cbn.
    apply elem_of_cons in Hin as [->|Hin]; [congruence|].
    now rewrite IH.
Qed.

Lemma player_with_role_missing player_names (role_assignment : gmap string string)
    role p :
  p ∈ player_names -> role_assignment !! p = None ->
  _player_with_role player_names role_assignment role = Raise KeyError.
Proof.
  intros Hin Hnone. unfold _player_with_role.
  now rewrite (names_with_role_missing _ _ _ p).
Qed.

(** With every listed player in the assignment, the holder is the first
    listed player with the role, and the lookup fails exactly when there is
    none. *)
Lemma player_with_role_total player_names (role_assignment : gmap string string)
    role :
  (forall p, p ∈ player_names -> is_Some (role_assignment !! p)) ->
  _player_with_role player_names role_assignment role
  = first (filter (fun q => role_assignment !! q = Some role) player_names).
Proof.
  intros Hdom. unfold _player_with_role.
  now rewrite names_with_role_total.
Qed.

Lemma first_filter_cases {A : Type} (P : A -> Prop) `{forall x, Decision (P x)}
    (l : list A) :
  (first (filter P l) = Raise IndexError /\ forall x, x ∈ l -> ~ P x)
  \/ (exists x, first (filter P l) = Ok x /\ x ∈ l /\ P x).
Proof.
  destruct (filter P l) as [|x l'] eqn:Hf.
  - left. split; [done|]. intros x Hx HP.
    assert (x ∈ filter P l) as Hin by now apply list_elem_of_filter.
    rewrite Hf in Hin. now apply elem_of_nil in Hin.
  - right. exists x. split; [done|].
    assert (x ∈ filter P l) as Hin by (rewrite Hf; left).
    apply list_elem_of_filter in Hin. tauto.
Qed.

Lemma some_player_unassigned (player_names : list string)
    (role_assignment : gmap string string) :
  (forall p, p ∈ player_names -> is_Some (role_assignment !! p))
  \/ (exists p, p ∈ player_names /\ role_assignment !! p = None).
Proof.
  induction player_names as [|q rest [IH|(p & Hp & Hnone)]].
  - left. intros p Hp. now apply elem_of_nil in Hp.
  - destruct (role_assignment !! q) as [r|] eqn:Hq.
    + left. intros p [->|Hp]%elem_of_cons; [eauto|now apply IH].
    + right. exists q. split; [left|done].
  - right. exists p. split; [now right|done].
Qed.

Lemma subscript_is_Some {V : Type} (d : gmap string V) k :
  is_Some (d !! k) -> exists v, subscript d k = Ok v /\ d !! k = Some v.
Proof. intros [v Hv]. exists v. unfold subscript. now rewrite Hv. Qed.

Ltac find_holder names ra Hdom role p Hp Hin :=
  rewrite (player_with_role_total names ra role Hdom);
  let Hnone := fresh "Hnone" in
  destruct (first_filter_cases
              (fun q : string => ra !! q = Some role) names)
    as [[-> Hnone]|(p & -> & Hin & Hp)];
  [ cbn; split; [exact Hdom|];
    exists role; split; [unfold roles4, roles5; set_solver|exact Hnone]
  | cbn -[init_points] ].

(** X1: both calculators raise [KeyError] exactly when a listed player
    has no entry in the role assignment; otherwise they raise [IndexError]
    exactly when one of the roles of their role set is held by no listed
    player; otherwise they return a table. They raise nothing else. *)
Theorem calculate_points_failures
    (player_names : list string) (role_assignment : gmap string string)
    (guesses4 guesses5 : option string * option string)
    (raja_rani_guess : option string) :
  lookup_outcome player_names roles4 role_assignment
    (calculate_points_4_players player_names role_assignment guesses4)
  /\ lookup_outcome player_names roles5 role_assignment
    (calculate_points_5_players player_names role_assignment guesses5
       raja_rani_guess).
Proof.
  destruct (some_player_unassigned player_names role_assignment)
    as [Hdom|(p & Hp & Hnone)].
  2:{ unfold calculate_points_4_players, calculate_points_5_players.
      rewrite !(player_with_role_missing _ _ _ p Hp Hnone). cbn.
      split; exists p; done. }
  split.
  - unfold calculate_points_4_players.
    find_holder player_names role_assignment Hdom "Chor" chor Hchor Hchor_in.
    find_holder player_names role_assignment Hdom "Sipahi" sipahi Hsipahi Hsipahi_in.
    find_holder player_names role_assignment Hdom "Mantri" mantri Hmantri Hmantri_in.
    find_holder player_names role_assignment Hdom "Raja" raja Hraja Hraja_in.
    destruct guesses4 as [gc gs]. cbn -[init_points].
    split; [exact Hdom|]. unfold roles4. intros r Hr.
    repeat (apply elem_of_cons in Hr as [->|Hr]); eauto.
    now apply elem_of_nil in Hr.
  - unfold calculate_points_5_players.
    find_holder player_names role_assignment Hdom "Chor" chor Hchor Hchor_in.
    find_holder player_names role_assignment Hdom "Sipahi" sipahi Hsipahi Hsipahi_in.
    find_holder player_names role_assignment Hdom "Rani" rani Hrani Hrani_in.
    find_holder player_names role_assignment Hdom "Mantri" mantri Hmantri Hmantri_in.
    find_holder player_names role_assignment Hdom "Raja" raja Hraja Hraja_in.
    destruct guesses5 as [gc gs]. cbn -[init_points].
    assert (forall pts : gmap string Z,
              lookup_outcome player_names roles5 role_assignment (Ok pts))
      as Hok.
    { intros pts. split; [exact Hdom|]. unfold roles5. intros r Hr.
      repeat (apply elem_of_cons in Hr as [->|Hr]); eauto.
      now apply elem_of_nil in Hr. }
    case_bool_decide; [apply Hok|].
    match goal with
    | |- context [subscript ?d chor] =>
        destruct (subscript_is_Some d chor) as (old & -> & _)
    end; [|apply Hok].
    destruct (_ && _); rewrite !lookup_insert_is_Some'; tauto.
Qed.

(** ** What a returned table looks like *)

Ltac holder_or_trivial names ra Hdom role p Hp Hin :=
  rewrite (player_with_role_total names ra role Hdom);
  let Hnone := fresh "Hnone" in
  destruct (first_filter_cases
              (fun q : string => ra !! q = Some role) names)
    as [[-> Hnone]|(p & -> & Hin & Hp)];
  [ cbn; exact I | cbn -[init_points] ].

Lemma calculate_points_4_players_inv player_names role_assignment gc gs pts :
  calculate_points_4_players player_names role_assignment (gc, gs) = Ok pts ->
  exists chor sipahi mantri raja,
    (chor ∈ player_names /\ role_assignment !! chor = Some "Chor")
    /\ (sipahi ∈ player_names /\ role_assignment !! sipahi = Some "Sipahi")
    /\ (mantri ∈ player_names /\ role_assignment !! mantri = Some "Mantri")
    /\ (raja ∈ player_names /\ role_assignment !! raja = Some "Raja")
    /\ pts = <[sipahi := 250]> (<[raja := 1000]>
         (if bool_decide (gc = Some chor) && bool_decide (gs = Some sipahi)
          then <[chor := 0]> (<[mantri := 500]> (init_points player_names))
          else <[chor := 500]> (<[mantri := 0]> (init_points player_names)))).
Proof.
  assert (match calculate_points_4_players player_names role_assignment (gc, gs)
          with
          | Ok pts =>
              exists chor sipahi mantri raja,
                (chor ∈ player_names /\ role_assignment !! chor = Some "Chor")
                /\ (sipahi ∈ player_names
                    /\ role_assignment !! sipahi = Some "Sipahi")
                /\ (mantri ∈ player_names
                    /\ role_assignment !! mantri = Some "Mantri")
                /\ (raja ∈ player_names /\ role_assignment !! raja = Some "Raja")
                /\ pts = <[sipahi := 250]> (<[raja := 1000]>
                     (if bool_decide (gc = Some chor)
                         && bool_decide (gs = Some sipahi)
                      then <[chor := 0]>
                             (<[mantri := 500]> (init_points player_names))
                      else <[chor := 500]>
                             (<[mantri := 0]> (init_points player_names))))
          | Raise _ => True
          end) as Hall.
  { destruct (some_player_unassigned player_names role_assignment)
      as [Hdom|(p & Hp & Hnone)].
    2:{ unfold calculate_points_4_players.
        now rewrite !(player_with_role_missing _ _ _ p Hp Hnone). }
    unfold calculate_points_4_players.
    holder_or_trivial player_names role_assignment Hdom "Chor" chor Hc Hci.
    holder_or_trivial player_names role_assignment Hdom "Sipahi" sipahi Hs Hsi.
    holder_or_trivial player_names role_assignment Hdom "Mantri" mantri Hm Hmi.
    holder_or_trivial player_names role_assignment Hdom "Raja" raja Hr Hri.
    exists chor, sipahi, mantri, raja. repeat split; done. }
  intros Heq. now rewrite Heq in Hall.
Qed.

Lemma calculate_points_5_players_inv
    player_names role_assignment gc gs raja_rani_guess pts :
  calculate_points_5_players player_names role_assignment (gc, gs)
    raja_rani_guess = Ok pts ->
  exists chor sipahi rani mantri raja,
    (chor ∈ player_names /\ role_assignment !! chor = Some "Chor")
    /\ (sipahi ∈ player_names /\ role_assignment !! sipahi = Some "Sipahi")
    /\ (rani ∈ player_names /\ role_assignment !! rani = Some "Rani")
    /\ (mantri ∈ player_names /\ role_assignment !! mantri = Some "Mantri")
    /\ (raja ∈ player_names /\ role_assignment !! raja = Some "Raja")
    /\ let right := bool_decide (gc = Some chor)
                    && bool_decide (gs = Some sipahi) in
       let base :=
         <[sipahi := 250]>
           (if right
            then <[chor := 0]> (<[mantri := 500]> (init_points player_names))
            else <[chor := 500]> (<[mantri := 0]> (init_points player_names))) in
       pts = <[rani := 750]>
               (if bool_decide (raja_rani_guess = Some rani)
                then <[raja := 1000]> base
                else <[chor := (if right then 0 else 500) + 500]>
                       (<[raja := 500]> base)).
Proof.
  assert (match calculate_points_5_players player_names role_assignment
                  (gc, gs) raja_rani_guess with
          | Ok pts =>
              exists chor sipahi rani mantri raja,
                (chor ∈ player_names /\ role_assignment !! chor = Some "Chor")
                /\ (sipahi ∈ player_names
                    /\ role_assignment !! sipahi = Some "Sipahi")
                /\ (rani ∈ player_names /\ role_assignment !! rani = Some "Rani")
                /\ (mantri ∈ player_names
                    /\ role_assignment !! mantri = Some "Mantri")
                /\ (raja ∈ player_names /\ role_assignment !! raja = Some "Raja")
                /\ let right := bool_decide (gc = Some chor)
                                && bool_decide (gs = Some sipahi) in
                   let base :=
                     <[sipahi := 250]>
                       (if right
                        then <[chor := 0]>
                               (<[mantri := 500]> (init_points player_names))
                        else <[chor := 500]>
                               (<[mantri := 0]> (init_points player_names))) in
                   pts = <[rani := 750]>
                           (if bool_decide (raja_rani_guess = Some rani)
                            then <[raja := 1000]> base
                            else <[chor := (if right then 0 else 500) + 500]>
                                   (<[raja := 500]> base))
          | Raise _ => True
          end) as Hall.
  { destruct (some_player_unassigned player_names role_assignment)
      as [Hdom|(p & Hp & Hnone)].
    2:{ unfold calculate_points_5_players.
        now rewrite !(player_with_role_missing _ _ _ p Hp Hnone). }
    unfold calculate_points_5_players.
    holder_or_trivial player_names role_assignment Hdom "Chor" chor Hc Hci.
    holder_or_trivial player_names role_assignment Hdom "Sipahi" sipahi Hs Hsi.
    holder_or_trivial player_names role_assignment Hdom "Rani" rani Hn Hni.
    holder_or_trivial player_names role_assignment Hdom "Mantri" mantri Hm Hmi.
    holder_or_trivial player_names role_assignment Hdom "Raja" raja Hr Hri.
    assert (raja <> chor) by (eapply role_holders_differ; eauto; done).
    assert (sipahi <> chor) by (eapply role_holders_differ; eauto; done).
    case_bool_decide as Hrg.
    - cbn. exists chor, sipahi, rani, mantri, raja. repeat split; try done.
      cbn. now rewrite (bool_decide_eq_true_2 _ Hrg).
    - unfold subscript. rewrite !lookup_insert_ne by done.
      destruct (bool_decide (gc = Some chor) && bool_decide (gs = Some sipahi))
        eqn:Hright; rewrite lookup_insert_eq; cbn;
        exists chor, sipahi, rani, mantri, raja; repeat split; try done;
        cbn; now rewrite Hright, (bool_decide_eq_false_2 _ Hrg). }
  intros Heq. now rewrite Heq in Hall.
Qed.

Lemma init_points_is_Some (player_names : list string) p :
  is_Some (init_points player_names !! p) <-> p ∈ player_names.
Proof.
  rewrite init_points_lookup. case_decide; split; done.
Qed.

Lemma init_points_value (player_names : list string) p v :
  init_points player_names !! p = Some v -> v = 0.
Proof. rewrite init_points_lookup. case_decide; congruence. Qed.

Ltac insert_cases Hv :=
  repeat (apply lookup_insert_Some in Hv as [[_ <-]|[_ Hv]];
          [set_solver|]);
  apply init_points_value in Hv; subst; set_solver.

(** X2: a table returned by a calculator has exactly the listed players
    as keys, whatever the assignment and the guesses, and awards only the
    amounts 0, 250, 500 and 1000 (four players), or 0, 250, 500, 750 and 1000
    (five players). *)
Theorem calculate_points_table_shape
    (player_names : list string) (role_assignment : gmap string string)
    (guesses4 guesses5 : option string * option string)
    (raja_rani_guess : option string) :
  (forall pts,
     calculate_points_4_players player_names role_assignment guesses4 = Ok pts ->
     (forall p, is_Some (pts !! p) <-> p ∈ player_names)
     /\ forall p v, pts !! p = Some v -> v ∈ [0; 250; 500; 1000])
  /\ (forall pts,
     calculate_points_5_players player_names role_assignment guesses5
       raja_rani_guess = Ok pts ->
     (forall p, is_Some (pts !! p) <-> p ∈ player_names)
     /\ forall p v, pts !! p = Some v -> v ∈ [0; 250; 500; 750; 1000]).
Proof.
  split; intros pts Hrun.
  - destruct guesses4 as [gc gs].
    apply calculate_points_4_players_inv in Hrun
      as (chor & sipahi & mantri & raja & [? _] & [? _] & [? _] & [? _] & ->).
    split.
    + intros p. destruct (_ && _);
        rewrite !lookup_insert_is_Some', init_points_is_Some;
        split; [intros [<-|[<-|[<-|[<-|?]]]]; done|tauto
               |intros [<-|[<-|[<-|[<-|?]]]]; done|tauto].
    + intros p v Hv. destruct (_ && _); insert_cases Hv.
  - destruct guesses5 as [gc gs].
    apply calculate_points_5_players_inv in Hrun
      as (chor & sipahi & rani & mantri & raja
          & [? _] & [? _] & [? _] & [? _] & [? _] & Hpts).
    cbn zeta in Hpts. subst pts. split.
    + intros p. destruct (_ && _), (bool_decide (raja_rani_guess = _));
        rewrite !lookup_insert_is_Some', init_points_is_Some;
        (split; [intros Hp; repeat (destruct Hp as [<-|Hp]; [done|]); done
                |tauto]).
    + intros p v Hv.
      destruct (_ && _), (bool_decide (raja_rani_guess = _)); insert_cases Hv.
Qed.

Lemma calculate_points_table_shape_witness :
  exists pts,
    calculate_points_5_players ["A"; "B"; "C"; "D"; "E"] scenario5
      (Some "D", None) None = Ok pts
    /\ (forall p, is_Some (pts !! p) <-> p ∈ ["A"; "B"; "C"; "D"; "E"])
    /\ forall p v, pts !! p = Some v -> v ∈ [0; 250; 500; 750; 1000].
Proof.
  destruct (calculate_points_table_shape ["A"; "B"; "C"; "D"; "E"] scenario5
              (None, None) (Some "D", None) None) as [_ H5].
  eexists. split; [vm_compute; reflexivity|].
  apply H5. vm_compute. reflexivity.
Defined.

(** ** The hidden players *)

Lemma hidden_players_4 player_names role_assignment sipahi chor :
  role_bijection player_names roles4 role_assignment ->
  role_assignment !! sipahi = Some "Sipahi" ->
  role_assignment !! chor = Some "Chor" ->
  filter (fun p => role_assignment !! p ∉ [Some "Raja"; Some "Mantri"])
    player_names ≡ₚ [sipahi; chor].
Proof.
  intros Hb Hs Hc. apply NoDup_Permutation.
  - apply NoDup_filter, (rb_distinct _ _ _ Hb).
  - apply NoDup_cons. split; [|apply NoDup_singleton].
    intros ->%list_elem_of_singleton. congruence.
  - intros p. rewrite list_elem_of_filter. split.
    + intros [Hrole Hin]. apply (rb_dom _ _ _ Hb) in Hin as [r Hr].
      pose proof (rb_into _ _ _ Hb p r Hr) as Hroles. rewrite Hr in Hrole.
      unfold roles4 in Hroles.
      repeat (apply elem_of_cons in Hroles as [->|Hroles]);
        [set_solver|set_solver| | |now apply elem_of_nil in Hroles].
      * rewrite (rb_inj _ _ _ Hb p sipahi _ Hr Hs). left.
      * rewrite (rb_inj _ _ _ Hb p chor _ Hr Hc). right. left.
    + intros [->|[->|[]%elem_of_nil]%elem_of_cons]%elem_of_cons.
      * rewrite Hs. split; [set_solver|]. apply (rb_dom _ _ _ Hb). eauto.
      * rewrite Hc. split; [set_solver|]. apply (rb_dom _ _ _ Hb). eauto.
Qed.

Lemma hidden_players_5 player_names role_assignment rani sipahi chor :
  role_bijection player_names roles5 role_assignment ->
  role_assignment !! rani = Some "Rani" ->
  role_assignment !! sipahi = Some "Sipahi" ->
  role_assignment !! chor = Some "Chor" ->
  filter (fun p => role_assignment !! p ∉ [Some "Raja"; Some "Mantri"])
    player_names ≡ₚ [rani; sipahi; chor].
Proof.
  intros Hb Hn Hs Hc. apply NoDup_Permutation.
  - apply NoDup_filter, (rb_distinct _ _ _ Hb).
  - apply NoDup_cons. split; [|apply NoDup_cons; split; [|apply NoDup_singleton]].
    + intros [->|[->|[]%elem_of_nil]%elem_of_cons]%elem_of_cons; congruence.
    + intros ->%list_elem_of_singleton. congruence.
  - intros p. rewrite list_elem_of_filter. split.
    + intros [Hrole Hin]. apply (rb_dom _ _ _ Hb) in Hin as [r Hr].
      pose proof (rb_into _ _ _ Hb p r Hr) as Hroles. rewrite Hr in Hrole.
      unfold roles5 in Hroles.
      repeat (apply elem_of_cons in Hroles as [->|Hroles]);
        [set_solver| |set_solver| | |now apply elem_of_nil in Hroles].
      * rewrite (rb_inj _ _ _ Hb p rani _ Hr Hn). left.
      * rewrite (rb_inj _ _ _ Hb p sipahi _ Hr Hs). right. left.
      * rewrite (rb_inj _ _ _ Hb p chor _ Hr Hc). right. right. left.
    + intros [->|[->|[->|[]%elem_of_nil]%elem_of_cons]%elem_of_cons]%elem_of_cons.
      * rewrite Hn. split; [set_solver|]. apply (rb_dom _ _ _ Hb). eauto.
      * rewrite Hs. split; [set_solver|]. apply (rb_dom _ _ _ Hb). eauto.
      * rewrite Hc. split; [set_solver|]. apply (rb_dom _ _ _ Hb). eauto.
Qed.

Lemma role_bijection_total player_names roles role_assignment :
  role_bijection player_names roles role_assignment ->
  forall p, p ∈ player_names -> is_Some (role_assignment !! p).
Proof. intros Hb p Hp. now apply (rb_dom _ _ _ Hb). Qed.

(** X3: under a bijective assignment [_eligible_hidden_players] returns,
    in some order, exactly the holders of Sipahi and Chor with four players,
    and exactly the holders of Rani, Sipahi and Chor with five. *)
Theorem eligible_hidden_players_are_the_hidden_roles
    names4 roles_map4 sipahi4 chor4 names5 roles_map5 rani5 sipahi5 chor5 :
  role_bijection names4 roles4 roles_map4 ->
  roles_map4 !! sipahi4 = Some "Sipahi" ->
  roles_map4 !! chor4 = Some "Chor" ->
  role_bijection names5 roles5 roles_map5 ->
  roles_map5 !! rani5 = Some "Rani" ->
  roles_map5 !! sipahi5 = Some "Sipahi" ->
  roles_map5 !! chor5 = Some "Chor" ->
  (exists hidden,
     _eligible_hidden_players names4 roles_map4 = Ok hidden
     /\ hidden ≡ₚ [sipahi4; chor4])
  /\ (exists hidden,
     _eligible_hidden_players names5 roles_map5 = Ok hidden
     /\ hidden ≡ₚ [rani5; sipahi5; chor5]).
Proof.
  intros Hb4 Hs4 Hc4 Hb5 Hn5 Hs5 Hc5. split; eexists; split.
  - apply eligible_hidden_players_total, (role_bijection_total _ _ _ Hb4).
  - now apply hidden_players_4.
  - apply eligible_hidden_players_total, (role_bijection_total _ _ _ Hb5).
  - now apply hidden_players_5.
Qed.

Lemma eligible_hidden_players_are_the_hidden_roles_witness :
  (exists hidden,
     _eligible_hidden_players ["A"; "B"; "C"; "D"] scenario4 = Ok hidden
     /\ hidden ≡ₚ ["C"; "D"])
  /\ (exists hidden,
     _eligible_hidden_players ["A"; "B"; "C"; "D"; "E"] scenario5 = Ok hidden
     /\ hidden ≡ₚ ["B"; "D"; "E"]).
Proof.
  apply (eligible_hidden_players_are_the_hidden_roles
           ["A"; "B"; "C"; "D"] scenario4 "C" "D"
           ["A"; "B"; "C"; "D"; "E"] scenario5 "B" "D" "E").
  - apply scenario4_bijection.
  - vm_compute. reflexivity.
  - vm_compute. reflexivity.
  - apply scenario5_bijection.
  - vm_compute. reflexivity.
  - vm_compute. reflexivity.
  - vm_compute. reflexivity.
Defined.

(** ** No partial credit with four players *)

Lemma calculate_points_4_players_bijection
    player_names role_assignment gc gs raja mantri sipahi chor :
  role_bijection player_names roles4 role_assignment ->
  role_assignment !! raja = Some "Raja" ->
  role_assignment !! mantri = Some "Mantri" ->
  role_assignment !! sipahi = Some "Sipahi" ->
  role_assignment !! chor = Some "Chor" ->
  calculate_points_4_players player_names role_assignment (gc, gs)
  = Ok (<[sipahi := 250]> (<[raja := 1000]>
      (if bool_decide (gc = Some chor) && bool_decide (gs = Some sipahi)
       then <[chor := 0]> (<[mantri := 500]> (init_points player_names))
       else <[chor := 500]> (<[mantri := 0]> (init_points player_names))))).
Proof.
  intros Hb Hraja Hmantri Hsipahi Hchor.
  unfold calculate_points_4_players.
  rewrite (player_with_role_bijection _ _ _ chor "Chor" Hb Hchor).
  rewrite (player_with_role_bijection _ _ _ sipahi "Sipahi" Hb Hsipahi).
  rewrite (player_with_role_bijection _ _ _ mantri "Mantri" Hb Hmantri).
  rewrite (player_with_role_bijection _ _ _ raja "Raja" Hb Hraja).
  cbn -[init_points]. now destruct (_ && _).
Qed.

Lemma infer_sipahi_4p_bijection player_names role_assignment sipahi chor pick :
  role_bijection player_names roles4 role_assignment ->
  role_assignment !! sipahi = Some "Sipahi" ->
  role_assignment !! chor = Some "Chor" ->
  pick = sipahi \/ pick = chor ->
  _infer_sipahi_4p player_names role_assignment (Some pick)
  = Ok (if decide (pick = chor) then sipahi else chor).
Proof.
  intros Hb Hs Hc Hpick.
  assert (sipahi <> chor) as Hne by (intros ->; congruence).
  unfold _infer_sipahi_4p.
  rewrite eligible_hidden_players_total by apply (role_bijection_total _ _ _ Hb).
  cbn.
  pose proof (hidden_players_4 _ _ _ _ Hb Hs Hc) as Hperm.
  assert (filter (fun p => Some p <> Some pick)
            (filter (fun p => role_assignment !! p ∉ [Some "Raja"; Some "Mantri"])
               player_names)
          = [if decide (pick = chor) then sipahi else chor]) as ->; [|done].
  apply Permutation_singleton_r. rewrite Hperm.
  rewrite !filter_cons, filter_nil.
  destruct (decide (pick = chor)) as [->|Hpc].
  - rewrite decide_True by congruence. now rewrite decide_False by tauto.
  - destruct Hpick as [-> | ->]; [|done].
    rewrite decide_False by tauto. now rewrite decide_True by congruence.
Qed.

(** X4: with four players and a bijective assignment, once the Mantri has
    picked one of the two hidden players as Chor, the inferred Sipahi is the
    other one, so the guess is right as a whole or wrong as a whole: Mantri
    gets 500 and Chor 0 when the pick is the Chor, and Mantri 0 and Chor 500
    when it is the Sipahi. *)
Theorem four_player_round_decided_by_chor_pick
    player_names role_assignment raja mantri sipahi chor pick :
  role_bijection player_names roles4 role_assignment ->
  role_assignment !! raja = Some "Raja" ->
  role_assignment !! mantri = Some "Mantri" ->
  role_assignment !! sipahi = Some "Sipahi" ->
  role_assignment !! chor = Some "Chor" ->
  pick = sipahi \/ pick = chor ->
  exists inferred pts,
    _infer_sipahi_4p player_names role_assignment (Some pick) = Ok inferred
    /\ inferred = (if decide (pick = chor) then sipahi else chor)
    /\ calculate_points_4_players player_names role_assignment
         (Some pick, Some inferred) = Ok pts
    /\ pts !! mantri = Some (if decide (pick = chor) then 500 else 0)
    /\ pts !! chor = Some (if decide (pick = chor) then 0 else 500).
Proof.
  intros Hb Hraja Hmantri Hsipahi Hchor Hpick.
  assert (raja <> mantri) by (eapply role_holders_differ; eauto; done).
  assert (raja <> chor) by (eapply role_holders_differ; eauto; done).
  assert (mantri <> sipahi) by (eapply role_holders_differ; eauto; done).
  assert (mantri <> chor) by (eapply role_holders_differ; eauto; done).
  assert (sipahi <> chor) by (eapply role_holders_differ; eauto; done).
  exists (if decide (pick = chor) then sipahi else chor). eexists.
  split; [now apply infer_sipahi_4p_bijection|].
  split; [reflexivity|]. split.
  { eapply calculate_points_4_players_bijection; eassumption. }
  destruct (decide (pick = chor)) as [->|Hpc].
  - rewrite !bool_decide_eq_true_2 by done. cbn. split; now simplify_map_eq.
  - rewrite (bool_decide_eq_false_2 (Some pick = Some chor)) by congruence.
    cbn. split; now simplify_map_eq.
Qed.

Lemma four_player_round_decided_by_chor_pick_witness :
  exists inferred pts,
    _infer_sipahi_4p ["A"; "B"; "C"; "D"] scenario4 (Some "C") = Ok inferred
    /\ inferred = "D"
    /\ calculate_points_4_players ["A"; "B"; "C"; "D"] scenario4
         (Some "C", Some inferred) = Ok pts
    /\ pts !! "B" = Some 0
    /\ pts !! "D" = Some 500.
Proof.
  apply (four_player_round_decided_by_chor_pick ["A"; "B"; "C"; "D"] scenario4
           "A" "B" "C" "D" "C").
  - apply scenario4_bijection.
  - vm_compute. reflexivity.
  - vm_compute. reflexivity.
  - vm_compute. reflexivity.
  - vm_compute. reflexivity.
  - left. reflexivity.
Defined.

(** ** Room codes *)

Lemma string_get_elem (s : string) (j : nat) c :
  String.get j s = Some c -> c ∈ String.list_ascii_of_string s.
Proof.
  revert j. induction s as [|a s IH]; intros j Hget; [done|].
  destruct j as [|j]; cbn in *.
  - simplify_eq. left.
  - right. eapply IH, Hget.
Qed.

Lemma string_get_lt (s : string) (j : nat) :
  (j < String.length s)%nat -> is_Some (String.get j s).
Proof.
  revert j. induction s as [|a s IH]; intros j Hlt; cbn in *; [lia|].
  destruct j as [|j]; [eauto|]. apply IH. lia.
Qed.

Lemma choice_alphabet (g : rng) :
  exists c, choice alphabet g = (Ok c, tl g) /\ c ∈ String.list_ascii_of_string alphabet.
Proof.
  unfold choice. change (String.length alphabet) with 32%nat.
  cbn [randbelow]. unfold randbelow.
  destruct (string_get_lt alphabet (Nat.modulo (hd 0%nat g) 32)) as [c Hc].
  { change (String.length alphabet) with 32%nat.
    apply Nat.mod_upper_bound. discriminate. }
  exists c. rewrite Hc. split; [done|]. eapply string_get_elem, Hc.
Qed.

Lemma choices_shape (n : nat) (g : rng) :
  exists code,
    choices n g = (Ok code, drop n g)
    /\ String.length code = n
    /\ Forall (fun c => c ∈ String.list_ascii_of_string alphabet)
         (String.list_ascii_of_string code).
Proof.
  revert g. induction n as [|n IH]; intros g.
  - exists "". rewrite drop_0. repeat split. constructor.
  - destruct (choice_alphabet g) as (c & Hc & Hin).
    destruct (IH (tl g)) as (rest & Hrest & Hlen & Hall).
    exists (String c rest). cbn [choices]. rewrite Hc, Hrest.
    repeat split.
    + f_equal. destruct g; cbn; [now rewrite drop_nil|done].
    + cbn. now rewrite Hlen.
    + cbn. now constructor.
Qed.

(** X5: [random_room_code] never fails. The code has the requested
    length (none for a length below one), consists only of characters of the
    32-character alphabet, which has no "I", "O", "0" or "1", and uses one
    draw of the generator per character; a code of positive length is
    therefore not empty. *)
Theorem random_room_code_shape (length : Z) (g : rng) :
  exists code,
    random_room_code length g = (Ok code, drop (Z.to_nat length) g)
    /\ String.length code = Z.to_nat length
    /\ Forall (fun c => c ∈ String.list_ascii_of_string alphabet
                        /\ c ∉ String.list_ascii_of_string "IO01")
         (String.list_ascii_of_string code)
    /\ (0 < length -> code <> "").
Proof.
  destruct (choices_shape (Z.to_nat length) g) as (code & Hrun & Hlen & Hall).
  exists code. repeat apply conj; try done.
  - eapply Forall_impl; [exact Hall|]. intros c Hc. split; [done|].
    intros Hbad. revert Hc.
    cbn in Hbad. 
    repeat (apply elem_of_cons in Hbad as [->|Hbad]);
      [..|now apply elem_of_nil in Hbad];
      intros Hc; apply (bool_decide_pack _) in Hc; vm_compute in Hc; done.
  - intros Hpos ->. cbn in Hlen. lia.
Qed.

Lemma random_room_code_shape_witness :
  exists code,
    random_room_code 6 [0; 33; 7; 40; 31; 2; 9]%nat = (Ok code, [9%nat])
    /\ code = "ABHJ9C"
    /\ code <> "".
Proof.
  destruct (random_room_code_shape 6 [0; 33; 7; 40; 31; 2; 9]%nat)
    as (code & Hrun & _ & _ & Hne).
  exists code. split; [exact Hrun|]. split; [|apply Hne; lia].
  vm_compute in Hrun. congruence.
Defined.

(** ** The scoreboard *)

Lemma sum_points_app rows rows' :
  sum_points (rows ++ rows') = sum_points rows + sum_points rows'.
Proof.
  unfold sum_points. induction rows as [|e rows IH]; cbn; [done|].
  rewrite IH. lia.
Qed.

Lemma sum_points_cons e rows :
  sum_points (e :: rows) = rs_points e + sum_points rows.
Proof. reflexivity. Qed.

#[global] Instance sum_points_perm : Proper ((≡ₚ) ==> (=)) sum_points.
Proof.
  intros l k Hperm. unfold sum_points.
  induction Hperm; cbn; lia.
Qed.

Lemma points_map_from (scores : list round_score) (m : gmap (string * Z) Z) k :
  default 0
    (foldl (fun points_map row =>
              let key := (rs_player_name row, rs_round_number row) in
              <[key := default 0 (points_map !! key) + rs_points row]> points_map)
       m scores !! k)
  = default 0 (m !! k)
    + sum_points
        (filter (fun row => (rs_player_name row, rs_round_number row) = k) scores).
Proof.
  revert m. induction scores as [|e scores IH]; intros m; [cbn; lia|].
  cbn [foldl]. rewrite IH, filter_cons. case_decide as Hk.
  - rewrite <- Hk, lookup_insert_eq, sum_points_cons. cbn. lia.
  - now rewrite lookup_insert_ne.
Qed.

Lemma points_map_cell (scores : list round_score) pname rnd :
  default 0 (points_map_of scores !! (pname, rnd))
  = sum_points
      (filter (fun row => (rs_player_name row, rs_round_number row) = (pname, rnd))
         scores).
Proof. unfold points_map_of. now rewrite points_map_from, lookup_empty. Qed.

Lemma foldl_add_sum (a : Z) (l : list Z) :
  foldl Z.add a l = a + foldr Z.add 0 l.
Proof.
  revert a. induction l as [|x l IH]; intros a; cbn; [lia|]. rewrite IH. lia.
Qed.

Lemma sum_indicator (l : list Z) (k v : Z) :
  NoDup l ->
  foldr Z.add 0 ((fun x => if decide (k = x) then v else 0) <$> l)
  = if decide (k ∈ l) then v else 0.
Proof.
  induction 1 as [|x l Hnotin Hnd IH]; cbn.
  - rewrite decide_False; [done|apply not_elem_of_nil].
  - rewrite IH. destruct (decide (k = x)) as [->|Hne].
    + rewrite (decide_False (P := x ∈ l)) by done.
      rewrite (decide_True (P := x ∈ x :: l)) by left. lia.
    + destruct (decide (k ∈ l)).
      * rewrite (decide_True (P := k ∈ x :: l)) by now right. lia.
      * rewrite (decide_False (P := k ∈ x :: l)); [lia|].
        intros [?|?]%elem_of_cons; done.
Qed.

(** Summing the cells of one player over the rounds of the board. *)
Lemma cells_sum (scores : list round_score) pname (num_rounds : Z) :
  foldr Z.add 0
    ((fun rnd =>
        sum_points
          (filter (fun row => (rs_player_name row, rs_round_number row)
                              = (pname, rnd)) scores))
       <$> round_numbers num_rounds)
  = sum_points
      (filter (fun row => rs_player_name row = pname
                          /\ 1 <= rs_round_number row <= num_rounds) scores).
Proof.
  induction scores as [|e scores IH].
  - cbn. induction (round_numbers num_rounds); cbn; [done|lia].
  - transitivity
      ((if decide (rs_player_name e = pname
                   /\ 1 <= rs_round_number e <= num_rounds)
        then rs_points e else 0)
       + sum_points
           (filter (fun row => rs_player_name row = pname
                               /\ 1 <= rs_round_number row <= num_rounds)
              scores)).
    2:{ rewrite filter_cons. case_decide; [rewrite sum_points_cons|]; lia. }
    rewrite <- IH. clear IH.
    assert (forall (l : list Z) (f g h : Z -> Z),
              (forall x, f x = g x + h x) ->
              foldr Z.add 0 (f <$> l)
              = foldr Z.add 0 (g <$> l) + foldr Z.add 0 (h <$> l)) as Hsplit.
    { intros l f g h Hfgh. induction l as [|x l IHl]; cbn; [done|].
      rewrite IHl, Hfgh. lia. }
    rewrite (Hsplit _ _
               (fun rnd => if decide (rs_round_number e = rnd)
                           then (if decide (rs_player_name e = pname)
                                 then rs_points e else 0)
                           else 0)
               (fun rnd =>
                  sum_points
                    (filter (fun row => (rs_player_name row, rs_round_number row)
                                        = (pname, rnd)) scores))).
    2:{ intros rnd. rewrite filter_cons.
        destruct (decide ((rs_player_name e, rs_round_number e) = (pname, rnd)))
          as [Hp|Hp];
          destruct (decide (rs_round_number e = rnd));
          destruct (decide (rs_player_name e = pname));
          rewrite ?sum_points_cons; try lia; exfalso;
          first [congruence | apply Hp; congruence]. }
    rewrite sum_indicator by apply NoDup_seqZ.
    unfold round_numbers.
    f_equal.
    destruct (decide (rs_round_number e ∈ seqZ 1 num_rounds)) as [Hin|Hin];
      rewrite elem_of_seqZ in Hin;
      destruct (decide (rs_player_name e = pname));
      destruct (decide (_ /\ _)) as [[? ?]|Hn];
      try done; try lia; exfalso; apply Hn; (split; [done|lia]).
Qed.

(** X6: the scoreboard has one line per player, in the order of the
    players, with one cell for each round from 1 to [num_rounds]. "Total" is
    the sum of the cells, and it is the sum of the points of all ledger rows
    of that room and player whose round number lies between 1 and
    [num_rounds]: repeated rows for a round add up, rows of other rooms and
    rows with another round number are not counted. *)
Theorem scoreboard_totals (code : string) (players : list player)
    (num_rounds : Z) (w : world) :
  let board := build_scoreboard_from_db code players num_rounds w in
  br_player <$> board = player_name <$> players
  /\ Forall (fun line =>
       length (br_rounds line) = Z.to_nat num_rounds
       /\ br_total line = foldr Z.add 0 (br_rounds line)
       /\ br_total line
          = sum_points
              (filter (counted_for code (br_player line) num_rounds)
                 (round_scores w))) board.
Proof.
  intros board. unfold board, build_scoreboard_from_db. split.
  - rewrite <- list_fmap_compose. now apply list_fmap_ext.
  - apply Forall_fmap, Forall_forall. intros p _. cbn.
    rewrite length_fmap. unfold round_numbers. rewrite length_seqZ.
    split; [done|]. rewrite foldl_add_sum, Z.add_0_l. split; [done|].
    erewrite list_fmap_ext; [|intros ? rnd _; apply points_map_cell].
    fold (round_numbers num_rounds). rewrite cells_sum.
    unfold fetch_round_scores. rewrite merge_sort_Permutation.
    rewrite list_filter_filter. f_equal. apply list_filter_iff.
    intros row. unfold counted_for. tauto.
Qed.

(** ** What an update touches *)

Lemma stripped_updates_delete (updates : gmap string val) :
  (if bool_decide (is_Some (updates !! "admin_name"))
   then filter (fun kv => kv.1 <> "admin_name") updates
   else updates) = delete "admin_name" updates.
Proof.
  apply map_eq. intros k. destruct (decide (k = "admin_name")) as [->|Hne].
  - now rewrite stripped_updates_no_admin, lookup_delete_eq.
  - rewrite lookup_delete_ne by done. case_bool_decide; [|done].
    destruct (updates !! k) as [v|] eqn:Hk.
    + now apply map_lookup_filter_Some.
    + apply map_lookup_filter_None. now left.
Qed.

(** The rooms after an update with [updates] on the rooms with [code]. *)
Lemma update_room_inv code updates w res w' :
  update_room code updates w = Ok (res, w') ->
  forall w2,
    update_room code updates w2
    = Ok (head (apply_updates (delete "admin_name" updates)
                  <$> filter (has_code code) (rooms w2)),
          with_rooms w2
            ((fun r => if decide (has_code code r)
                       then apply_updates (delete "admin_name" updates) r
                       else r) <$> rooms w2)).
Proof.
  unfold update_room. rewrite stripped_updates_delete.
  destruct (bool_decide (code = "")); [done|].
  destruct (bool_decide (map_Forall _ _)); done.
Qed.

Lemma apply_updates_twice updates r :
  apply_updates updates (apply_updates updates r) = apply_updates updates r.
Proof.
  unfold apply_updates. cbn.
  f_equal; unfold set_str, set_int, set_opt_str, set_roles, set_log;
    repeat case_match; done.
Qed.

Lemma apply_updates_code updates r :
  updates !! "room_code" = None ->
  room_code (apply_updates updates r) = room_code r.
Proof. intros Hno. cbn. now rewrite Hno. Qed.

(** X7: an update that [update_room] applies changes nothing but the
    rooms carrying the given code: the players, the ledger and the generator
    are kept, the rooms with another code are kept, and each room with the
    code gets the columns named in the updates ([admin_name] excepted). Unless
    the updates rename the room, the returned row is the first room with the
    code after the update, and applying the same update again changes nothing
    more. *)
Theorem update_room_frame (code : string) (updates : gmap string val)
    (w w' : world) (res : option room) :
  update_room code updates w = Ok (res, w') ->
  players w' = players w
  /\ round_scores w' = round_scores w
  /\ gen w' = gen w
  /\ Forall2 (fun r r' =>
       if decide (room_code r = code)
       then r' = apply_updates (delete "admin_name" updates) r
       else r' = r) (rooms w) (rooms w')
  /\ (updates !! "room_code" = None ->
      res = fetch_room code w'
      /\ update_room code updates w' = Ok (res, w')).
Proof.
  intros Hrun. pose proof (update_room_inv _ _ _ _ _ Hrun) as Hany.
  rewrite (Hany w) in Hrun. injection Hrun as <- <-. cbn.
  repeat apply conj; try done.
  - apply Forall2_fmap_r, Forall_Forall2_diag, Forall_forall.
    intros r _. unfold has_code. cbn.
    destruct (decide (room_code r = code)); done.
  - intros Hno.
    assert (delete "admin_name" updates !! "room_code" = None) as Hno'
      by now rewrite lookup_delete_ne.
    set (u := delete "admin_name" updates) in *.
    assert (forall rs : list room,
              filter (has_code code)
                ((fun r => if decide (has_code code r)
                           then apply_updates u r else r) <$> rs)
              = apply_updates u <$> filter (has_code code) rs) as Hfilter.
    { induction rs as [|r rs IH]; [done|].
      rewrite fmap_cons, !filter_cons.
      destruct (decide (has_code code r)) as [Hc|Hc].
      - rewrite decide_True
          by (unfold has_code in *; now rewrite apply_updates_code).
        now rewrite fmap_cons, IH.
      - now rewrite decide_False. }
    assert (forall rs : list room,
              apply_updates u <$> (apply_updates u <$> rs)
              = apply_updates u <$> rs) as Htwice.
    { intros rs. rewrite <- list_fmap_compose. apply list_fmap_ext.
      intros _ r _. apply apply_updates_twice. }
    split.
    + unfold fetch_room. cbn. rewrite Hfilter.
      now destruct (filter (has_code code) (rooms w)).
    + rewrite Hany. cbn. rewrite Hfilter, Htwice. f_equal. f_equal.
      unfold with_rooms. cbn. f_equal.
      rewrite <- list_fmap_compose. apply list_fmap_ext. intros _ r _. cbn.
      destruct (decide (has_code code r)) as [Hc|Hc].
      * rewrite decide_True
          by (unfold has_code in *; now rewrite apply_updates_code).
        apply apply_updates_twice.
      * now rewrite decide_False.
Qed.

Lemma update_room_frame_witness :
  exists res w',
    update_room "ROOM42" (phase_update PHASE_GAME_OVER)
      (demo_world (Some PHASE_ROUND_RESULT) 2) = Ok (res, w')
    /\ players w' = players (demo_world (Some PHASE_ROUND_RESULT) 2)
    /\ res = fetch_room "ROOM42" w'
    /\ update_room "ROOM42" (phase_update PHASE_GAME_OVER) w' = Ok (res, w').
Proof.
  eexists _, _. split; [vm_compute; reflexivity|].
  destruct (update_room_frame "ROOM42" (phase_update PHASE_GAME_OVER)
              (demo_world (Some PHASE_ROUND_RESULT) 2)
              (demo_world (Some PHASE_GAME_OVER) 2)
              (Some (demo_room (Some PHASE_GAME_OVER) 2)))
    as (Hp & _ & _ & _ & Hagain); [vm_compute; reflexivity|].
  destruct Hagain as [Hres Hsame]; [reflexivity|].
  repeat split; assumption.
Defined.

(** ** The lobby log *)

Lemma lobby_update_applied (log : list string) (r : room) :
  apply_updates (<["lobby_log" := VLog log]> ∅) r = with_lobby_log r (Some log).
Proof. reflexivity. Qed.

Lemma lobby_update_accepted (log : list string) :
  map_Forall (fun k v => column_accepts k v = true)
    (<["lobby_log" := VLog log]> (∅ : gmap string val)).
Proof. apply map_Forall_insert_2; [reflexivity|apply map_Forall_empty]. Qed.

(** X8: [append_lobby_event] never raises. For an unknown room, or an
    empty code, it changes nothing. Otherwise it puts the text at the end of
    the log read from the first room with the code (an absent log counting as
    empty) and stores that log in every room with the code; every other
    column of those rooms, every other room, the players, the ledger and the
    generator stay as they are. *)
Theorem append_lobby_event_effect (code text : string) (w : world) :
  let w' := append_lobby_event code text w in
  players w' = players w
  /\ round_scores w' = round_scores w
  /\ gen w' = gen w
  /\ match fetch_room code w with
     | None => w' = w
     | Some r =>
         let log := (default [] (lobby_log r) ++ [text])%list in
         if decide (code = "") then w' = w
         else
           fetch_room code w' = Some (with_lobby_log r (Some log))
           /\ Forall2 (fun r0 r0' =>
                if decide (room_code r0 = code)
                then r0' = with_lobby_log r0 (Some log)
                else r0' = r0) (rooms w) (rooms w')
     end.
Proof.
  intros w'. unfold w', append_lobby_event.
  destruct (fetch_room code w) as [r|] eqn:Hroom; [|done].
  destruct (decide (code = "")) as [->|Hcode].
  { unfold update_room. now rewrite bool_decide_eq_true_2. }
  rewrite update_room_ok;
    [|done|reflexivity|apply lobby_update_accepted].
  cbn. repeat apply conj; try done.
  - rewrite fetch_room_updated by reflexivity. now rewrite Hroom.
  - apply Forall2_fmap_r, Forall_Forall2_diag, Forall_forall.
    intros r0 _. unfold has_code. cbn.
    destruct (decide (room_code r0 = code)); done.
Qed.

(** ** What a run of the room screen never touches *)

Lemma same_setup_refl r : same_setup r r.
Proof. now unfold same_setup. Qed.

Lemma keeps_setup_refl w : keeps_setup w w.
Proof.
  unfold keeps_setup. repeat split; [|done].
  apply Forall_Forall2_diag, Forall_forall. intros r _. apply same_setup_refl.
Qed.

Lemma keeps_setup_trans w1 w2 w3 :
  keeps_setup w1 w2 -> keeps_setup w2 w3 -> keeps_setup w1 w3.
Proof.
  intros (Hp & Hr & Hs) (Hp' & Hr' & Hs'). unfold keeps_setup.
  repeat split; [congruence| |by etrans].
  eapply Forall2_trans; [|exact Hr|exact Hr'].
  intros r1 r2 r3 (?&?&?&?) (?&?&?&?). unfold same_setup.
  repeat split; congruence.
Qed.

Lemma keeps_setup_with_gen w g : keeps_setup w (with_gen w g).
Proof.
  unfold keeps_setup. cbn. repeat split; [|done].
  apply Forall_Forall2_diag, Forall_forall. intros r _. apply same_setup_refl.
Qed.

Lemma keeps_setup_insert_round_scores rows w :
  keeps_setup w (insert_round_scores rows w).
Proof.
  destruct rows as [|row rows]; [apply keeps_setup_refl|].
  unfold keeps_setup. cbn. repeat split.
  - apply Forall_Forall2_diag, Forall_forall. intros r _. apply same_setup_refl.
  - now apply prefix_app_r.
Qed.

Lemma keeps_setup_update_and_rerun code updates w :
  updates !! "room_code" = None ->
  updates !! "num_players" = None ->
  updates !! "num_rounds" = None ->
  keeps_setup w (update_and_rerun code updates w).2.
Proof.
  intros Hcode Hnp Hnr. unfold update_and_rerun.
  destruct (update_room code updates w) as [[res w']|e] eqn:Hrun;
    [|apply keeps_setup_refl].
  pose proof (update_room_inv _ _ _ _ _ Hrun w) as Hany.
  rewrite Hany in Hrun. injection Hrun as _ <-. cbn.
  unfold keeps_setup. cbn. repeat split; [|done].
  apply Forall2_fmap_r, Forall_Forall2_diag, Forall_forall.
  intros r _. cbn. case_decide; [|apply same_setup_refl].
  unfold same_setup. cbn.
  rewrite lookup_delete_eq.
  rewrite !lookup_delete_ne by done. now rewrite Hcode, Hnp, Hnr.
Qed.

Ltac keeps_setup_step :=
  first
    [ apply keeps_setup_refl
    | apply keeps_setup_update_and_rerun; reflexivity
    | eapply keeps_setup_trans;
      [apply keeps_setup_insert_round_scores
      |apply keeps_setup_update_and_rerun; reflexivity]
    | eapply keeps_setup_trans;
      [apply keeps_setup_with_gen
      |apply keeps_setup_update_and_rerun; reflexivity] ].

Lemma lobby_phase_keeps_setup r ps s ev w :
  keeps_setup w (lobby_phase r ps s ev w).2.
Proof.
  unfold lobby_phase.
  destruct (is_admin s); [|keeps_setup_step].
  case_bool_decide; [|keeps_setup_step].
  destruct (button StartGame ev); [|keeps_setup_step].
  destruct (compute_roles_for_round _ _ _) as [roles g'].
  keeps_setup_step.
Qed.

Lemma reveal_phase_keeps_setup next b r s ev w :
  keeps_setup w (reveal_phase next b r s ev w).2.
Proof.
  unfold reveal_phase.
  destruct (is_admin s); [|keeps_setup_step].
  destruct (button b ev); keeps_setup_step.
Qed.

Lemma mantri_guess_phase_keeps_setup r ps roles_map s ev w :
  keeps_setup w (mantri_guess_phase r ps roles_map s ev w).2.
Proof.
  unfold mantri_guess_phase.
  case_bool_decide; [|keeps_setup_step].
  destruct (_ && _); [keeps_setup_step|].
  destruct (is_submit_guess ev); [|keeps_setup_step].
  case_bool_decide; [|keeps_setup_step].
  destruct (calculate_points_4_players _ _ _); keeps_setup_step.
Qed.

Lemma raja_guess_phase_keeps_setup r ps roles_map s ev w :
  keeps_setup w (raja_guess_phase r ps roles_map s ev w).2.
Proof.
  unfold raja_guess_phase.
  destruct (player_with_role _ _ _); [|keeps_setup_step].
  case_bool_decide; [keeps_setup_step|].
  destruct (is_submit_raja_guess ev); [|keeps_setup_step].
  destruct (calculate_points_5_players _ _ _ _); keeps_setup_step.
Qed.

Lemma round_result_phase_keeps_setup r ps s ev w :
  keeps_setup w (round_result_phase r ps s ev w).2.
Proof.
  unfold round_result_phase.
  destruct (is_admin s); [|keeps_setup_step].
  case_bool_decide.
  - destruct (button NextRound ev); [|keeps_setup_step].
    destruct (compute_roles_for_round _ _ _) as [roles g'].
    keeps_setup_step.
  - destruct (button FinishGame ev); keeps_setup_step.
Qed.

Lemma room_screen_keeps_setup r ps s ev w :
  keeps_setup w (room_screen r ps s ev w).2.
Proof.
  unfold room_screen.
  destruct (current_phase r); [|apply lobby_phase_keeps_setup].
  repeat case_bool_decide;
    first [ apply reveal_phase_keeps_setup
          | apply mantri_guess_phase_keeps_setup
          | apply raja_guess_phase_keeps_setup
          | apply round_result_phase_keeps_setup
          | apply keeps_setup_refl ].
Qed.

Lemma main_frame (s : session) (ev : click) (w : world) :
  keeps_setup w (main s ev w).2.
Proof.
  unfold main.
  case_bool_decide; [apply keeps_setup_refl|].
  destruct (fetch_room _ _) as [r|]; [|apply keeps_setup_refl].
  destruct (fetch_players _ _) as [|p ps]; [apply keeps_setup_refl|].
  case_bool_decide; [|apply keeps_setup_refl].
  apply room_screen_keeps_setup.
Qed.

(** X9: no run of the room screen, whoever clicks whatever in whatever
    phase, and whether it ends normally or by an exception, adds or removes a
    room or a player, or changes the code, the admin, the number of players
    or the number of rounds of any room; and the ledger only grows at its
    end: the rows it had are still there, unchanged and in place. *)
Theorem main_keeps_setup (s : session) (ev : click) (w : world) :
  players (main s ev w).2 = players w
  /\ Forall2 same_setup (rooms w) (rooms (main s ev w).2)
  /\ round_scores w `prefix_of` round_scores (main s ev w).2.
Proof. apply main_frame. Qed.

(** ** Rooms keep their admin *)

Lemma same_setup_admins w w' :
  Forall2 same_setup (rooms w) (rooms w') -> admins_named w -> admins_named w'.
Proof.
  unfold admins_named. intros Hall Hnamed.
  induction Hall as [|r r' rs rs' (_ & Ha & _) _ IH]; [done|].
  apply Forall_cons in Hnamed as [Hr Hrs].
  constructor; [congruence|now apply IH].
Qed.

Lemma create_room_cases room_data w :
  match create_room room_data w with
  | (Ok r, w') =>
      room_data !! "admin_name" = Some (VStr (admin_name r))
      /\ admin_name r <> ""
      /\ room_data !! "room_code" = Some (VStr (room_code r))
      /\ w' = with_rooms w (rooms w ++ [r])
  | (Raise AssertionError, w') =>
      truthy (room_data !! "admin_name") = false /\ w' = w
  | (Raise _, w') => w' = w
  end.
Proof.
  unfold create_room.
  destruct (truthy (room_data !! "admin_name")) eqn:Htruthy; cbn; [|done].
  unfold inserted_row.
  destruct (room_data !! "room_code") as [[| |code| |]|]; try done.
  destruct (room_data !! "num_players") as [[|np| | |]|]; try done.
  destruct (room_data !! "num_rounds") as [[|nr| | |]|]; try done.
  destruct (room_data !! "current_round") as [[|cr| | |]|]; try done.
  destruct (room_data !! "admin_name") as [[| |admin| |]|]; try done.
  case_bool_decide; [|done]. cbn. repeat split.
  cbn in Htruthy. now apply bool_decide_eq_true in Htruthy.
Qed.

Lemma append_lobby_event_admins code text w :
  admins_named w -> admins_named (append_lobby_event code text w).
Proof.
  intros Hnamed. unfold append_lobby_event.
  destruct (fetch_room code w) as [r|]; [|done].
  destruct (update_room _ _ w) as [[res w']|e] eqn:Hrun; [|done].
  pose proof (update_room_inv _ _ _ _ _ Hrun w) as Hany.
  rewrite Hany in Hrun. injection Hrun as _ <-.
  unfold admins_named in *. cbn. apply Forall_fmap.
  eapply Forall_impl; [exact Hnamed|]. intros r0 Hr0. unfold compose.
  case_decide; [|done].
  now rewrite apply_updates_admin_name by apply lookup_delete_eq.
Qed.

(** X10: [create_room] refuses, by [AssertionError] and without touching
    the store, room data without an [admin_name] or with an empty one; a room
    it creates is added at the end of the table with that admin. From then on
    the admin is never empty: a store in which every room has a non-empty
    admin is still such a store after [create_room], after an applied
    [update_room], after [append_lobby_event] and after any run of the room
    screen. *)
Theorem rooms_keep_an_admin (w : world) :
  admins_named w ->
  (forall room_data,
     admins_named (create_room room_data w).2
     /\ (truthy (room_data !! "admin_name") = false ->
         create_room room_data w = (Raise AssertionError, w))
     /\ (forall r, (create_room room_data w).1 = Ok r ->
         room_data !! "admin_name" = Some (VStr (admin_name r))
         /\ rooms (create_room room_data w).2 = (rooms w ++ [r])%list))
  /\ (forall code updates res w',
        update_room code updates w = Ok (res, w') -> admins_named w')
  /\ (forall code text, admins_named (append_lobby_event code text w))
  /\ (forall s ev, admins_named (main s ev w).2).
Proof.
  intros Hnamed. repeat apply conj.
  - intros room_data. pose proof (create_room_cases room_data w) as Hcases.
    repeat apply conj.
    + destruct (create_room room_data w) as [[r|e] w']; cbn.
      * destruct Hcases as (_ & Hadmin & _ & ->). unfold admins_named. cbn.
        apply Forall_app. split; [done|]. now constructor.
      * destruct e; destruct_and?; now subst.
    + intros Hfalse. unfold create_room. now rewrite Hfalse.
    + intros r Hr. destruct (create_room room_data w) as [[r'|e] w']; [|done].
      cbn in Hr. injection Hr as ->. destruct Hcases as (? & _ & _ & ->).
      done.
  - intros code updates res w' Hrun.
    pose proof (update_room_inv _ _ _ _ _ Hrun w) as Hany.
    rewrite Hany in Hrun. injection Hrun as _ <-.
    unfold admins_named in *. cbn. apply Forall_fmap.
    eapply Forall_impl; [exact Hnamed|]. intros r0 Hr0. unfold compose.
    case_decide; [|done].
    now rewrite apply_updates_admin_name by apply lookup_delete_eq.
  - intros code text. now apply append_lobby_event_admins.
  - intros s ev. destruct (main_frame s ev w) as (_ & Hrooms & _).
    now apply (same_setup_admins w).
Qed.

Lemma rooms_keep_an_admin_witness :
  admins_named (demo_world None 1)
  /\ create_room
       (<["room_code" := VStr "ABCDEF"]> (<["admin_name" := VStr ""]> ∅))
       (demo_world None 1)
     = (Raise AssertionError, demo_world None 1)
  /\ admins_named (main (demo_session "A" true) StartGame (demo_world None 1)).2.
Proof.
  assert (admins_named (demo_world None 1)) as Hnamed.
  { unfold admins_named. cbn. constructor; [discriminate|constructor]. }
  destruct (rooms_keep_an_admin (demo_world None 1) Hnamed)
    as (Hcreate & _ & _ & Hmain).
  split; [exact Hnamed|]. split; [|apply Hmain].
  apply (Hcreate (<["room_code" := VStr "ABCDEF"]>
                    (<["admin_name" := VStr ""]> ∅))).
  reflexivity.
Defined.

(** ** Rounds stay in range *)

Lemma same_setup_codes rs rs' :
  Forall2 same_setup rs rs' -> room_code <$> rs' = room_code <$> rs.
Proof.
  induction 1 as [|r r' rs rs' (Hc & _) _ IH]; [done|].
  rewrite !fmap_cons. now f_equal.
Qed.

Lemma room_of_code (rs : list room) r r' :
  NoDup (room_code <$> rs) -> r ∈ rs -> r' ∈ rs ->
  room_code r = room_code r' -> r = r'.
Proof.
  induction rs as [|r0 rs IH]; intros Hnd Hr Hr' Hcode.
  - now apply elem_of_nil in Hr.
  - rewrite fmap_cons in Hnd. apply NoDup_cons in Hnd as [Hnotin Hnd].
    apply elem_of_cons in Hr as [->|Hr], Hr' as [->|Hr']; try done.
    + exfalso. apply Hnotin. rewrite Hcode. now apply list_elem_of_fmap_2.
    + exfalso. apply Hnotin. rewrite <- Hcode. now apply list_elem_of_fmap_2.
    + now apply IH.
Qed.

Lemma fetch_room_elem code w r : fetch_room code w = Some r -> r ∈ rooms w.
Proof.
  unfold fetch_room. intros Hhd.
  assert (r ∈ filter (has_code code) (rooms w)) as Hin.
  { destruct (filter _ _); [done|]. cbn in Hhd. simplify_eq. left. }
  now apply list_elem_of_filter in Hin as [_ ?].
Qed.

(** With pairwise different codes, an update through the fetched room is an
    update of that room alone. *)
Lemma update_and_rerun_forall (P : room -> Prop) code updates w r :
  NoDup (room_code <$> rooms w) ->
  fetch_room code w = Some r ->
  updates !! "admin_name" = None ->
  P (apply_updates updates r) ->
  Forall P (rooms w) ->
  Forall P (rooms (update_and_rerun code updates w).2).
Proof.
  intros Hnd Hroom Hno Hnew Hall. unfold update_and_rerun.
  rewrite <- (delete_id updates "admin_name" Hno) in Hnew.
  destruct (update_room code updates w) as [[res w']|e] eqn:Hrun; [|done].
  pose proof (update_room_inv _ _ _ _ _ Hrun w) as Hany.
  rewrite Hany in Hrun. injection Hrun as _ <-. cbn.
  apply Forall_fmap, Forall_forall. intros r0 Hr0. unfold compose.
  case_decide as Hc; [|now apply (proj1 (Forall_forall _ _) Hall)].
  assert (r0 = r) as ->; [|done].
  apply (room_of_code (rooms w));
    [done|done|now apply (fetch_room_elem code)|].
  unfold has_code in Hc. now rewrite Hc, (fetch_room_code _ _ _ Hroom).
Qed.

Lemma round_ok_kept updates r :
  updates !! "current_round" = None -> updates !! "num_rounds" = None ->
  round_ok r -> round_ok (apply_updates updates r).
Proof. intros Hcr Hnr. unfold round_ok. cbn. now rewrite Hcr, Hnr. Qed.

Lemma round_ok_new_round n roles r :
  1 <= n <= num_rounds r ->
  round_ok (apply_updates (new_round_updates n roles) r).
Proof. intros Hn. unfold round_ok. exact Hn. Qed.

Ltac rounds_step Hnd Hroom Hall :=
  first
    [ exact Hall
    | apply (update_and_rerun_forall round_ok _ _ _ _ Hnd Hroom);
      [reflexivity|apply round_ok_kept; done|exact Hall] ].

Lemma room_screen_rounds r ps s ev w :
  NoDup (room_code <$> rooms w) ->
  fetch_room (room_code r) w = Some r ->
  Forall round_ok (rooms w) ->
  Forall round_ok (rooms (room_screen r ps s ev w).2).
Proof.
  intros Hnd Hroom Hall.
  assert (round_ok r) as Hr.
  { apply (proj1 (Forall_forall _ _) Hall), (fetch_room_elem _ _ _ Hroom). }
  pose proof Hr as Hr'. unfold round_ok in Hr'.
  assert (forall rows,
            fetch_room (room_code r) (insert_round_scores rows w) = Some r)
    as Hroom' by (intros; now rewrite fetch_room_insert_round_scores).
  assert (forall rows,
            NoDup (room_code <$> rooms (insert_round_scores rows w)))
    as Hnd' by (intros; now rewrite rooms_insert_round_scores).
  assert (forall rows, Forall round_ok (rooms (insert_round_scores rows w)))
    as Hall' by (intros; now rewrite rooms_insert_round_scores).
  unfold room_screen.
  destruct (current_phase r) as [phase|].
  2:{ unfold lobby_phase. destruct (is_admin s); [|done].
      case_bool_decide; [|done]. destruct (button StartGame ev); [|done].
      destruct (compute_roles_for_round _ _ _) as [roles g'].
      apply (update_and_rerun_forall round_ok _ _ (with_gen w g') r);
        [done|done|reflexivity|apply round_ok_new_round; lia|done]. }
  repeat case_bool_decide.
  - unfold reveal_phase. destruct (is_admin s); [|done].
    destruct (button _ ev); rounds_step Hnd Hroom Hall.
  - unfold reveal_phase. destruct (is_admin s); [|done].
    destruct (button _ ev); rounds_step Hnd Hroom Hall.
  - unfold mantri_guess_phase.
    case_bool_decide; [|done]. destruct (_ && _); [done|].
    destruct (is_submit_guess ev); [|done].
    case_bool_decide; [|rounds_step Hnd Hroom Hall].
    destruct (calculate_points_4_players _ _ _) as [pts|]; [|done].
    apply (update_and_rerun_forall round_ok _ _ _ r (Hnd' _) (Hroom' _));
      [reflexivity|apply round_ok_kept; done|apply Hall'].
  - unfold raja_guess_phase.
    destruct (player_with_role _ _ _); [|done].
    case_bool_decide; [done|]. destruct (is_submit_raja_guess ev); [|done].
    destruct (calculate_points_5_players _ _ _ _) as [pts|]; [|done].
    apply (update_and_rerun_forall round_ok _ _ _ r (Hnd' _) (Hroom' _));
      [reflexivity|apply round_ok_kept; done|apply Hall'].
  - unfold round_result_phase. destruct (is_admin s); [|done].
    case_bool_decide.
    + destruct (button NextRound ev); [|done].
      destruct (compute_roles_for_round _ _ _) as [roles g'].
      apply (update_and_rerun_forall round_ok _ _ (with_gen w g') r);
        [done|done|reflexivity|apply round_ok_new_round; lia|done].
    + destruct (button FinishGame ev); rounds_step Hnd Hroom Hall.
  - done.
  - done.
Qed.

(** X11: in a store whose room codes are pairwise different and whose
    rooms all have a current round between 1 and their number of rounds, every
    run of the room screen leaves a store of that kind: the round index is
    only ever set to 1 or moved one step up while below the number of
    rounds. *)
Theorem main_keeps_rounds_in_range (s : session) (ev : click) (w : world) :
  rounds_in_range w -> rounds_in_range (main s ev w).2.
Proof.
  intros [Hnd Hall]. split.
  - destruct (main_frame s ev w) as (_ & Hrooms & _).
    now rewrite (same_setup_codes _ _ Hrooms).
  - change (Forall round_ok (rooms (main s ev w).2)).
    change (Forall round_ok (rooms w)) in Hall.
    unfold main. case_bool_decide; [done|].
    destruct (fetch_room _ _) as [r|] eqn:Hroom; [|done].
    destruct (fetch_players _ _) as [|p ps]; [done|].
    case_bool_decide; [|done].
    apply room_screen_rounds; [done| |done].
    now rewrite (fetch_room_code _ _ _ Hroom).
Qed.

Lemma main_keeps_rounds_in_range_witness :
  rounds_in_range
    (main (demo_session "A" true) NextRound
       (demo_world (Some PHASE_ROUND_RESULT) 1)).2.
Proof.
  apply main_keeps_rounds_in_range. split.
  - apply (bool_decide_unpack _). vm_compute. exact I.
  - constructor; [cbn; lia|constructor].
Defined.

(** ** Runs that only look *)

Lemma no_click_no_effect r s : no_effect r s NoClick.
Proof.
  unfold no_effect. destruct (current_phase r); [|by right].
  repeat apply conj; intros _; first [by left|by right|by (right; split)|done].
Qed.

(** X12: a run that no click triggered (a client looking at the room or
    polling it) raises nothing and leaves the store as it is, in every phase.
    So does every run, whatever the click, for a room that is in [GAME_OVER]
    or in a phase the screen does not know: the game cannot be moved on from
    there. *)
Theorem passive_runs_change_nothing (s : session) (ev : click) (w : world) :
  (exists scr, main s NoClick w = (Ok scr, w))
  /\ forall r phase,
       fetch_room (session_room_code s) w = Some r ->
       current_phase r = Some phase ->
       phase ∉ [PHASE_RAJA_REVEAL; PHASE_MANTRI_REVEAL; PHASE_MANTRI_GUESS;
                PHASE_RAJA_GUESS; PHASE_ROUND_RESULT] ->
       exists scr, main s ev w = (Ok scr, w).
Proof.
  split.
  - destruct (main_unchanged s NoClick w) as (scr & Hrun & _); [|by exists scr].
    intros r _. apply no_click_no_effect.
  - intros r phase Hroom Hphase Hother. unfold main. rewrite Hroom.
    case_bool_decide; [by eexists|].
    destruct (fetch_players _ _) as [|p ps]; [by eexists|].
    case_bool_decide; [|by eexists].
    unfold room_screen. rewrite Hphase.
    rewrite !not_elem_of_cons in Hother.
    destruct Hother as (?&?&?&?&?&_).
    rewrite !bool_decide_eq_false_2 by done.
    case_bool_decide; by eexists.
Qed.

Lemma passive_runs_change_nothing_witness :
  exists scr,
    main (demo_session "A" true) NextRound (demo_world (Some PHASE_GAME_OVER) 2)
    = (Ok scr, demo_world (Some PHASE_GAME_OVER) 2).
Proof.
  destruct (passive_runs_change_nothing (demo_session "A" true) NextRound
              (demo_world (Some PHASE_GAME_OVER) 2)) as [_ Hover].
  apply (Hover (demo_room (Some PHASE_GAME_OVER) 2) PHASE_GAME_OVER).
  - reflexivity.
  - reflexivity.
  - apply (bool_decide_unpack _). vm_compute. exact I.
Defined.

(** ** Starting the game *)

Lemma room_screen_lobby r ps s ev w :
  current_phase r = None ->
  room_screen r ps s ev w = lobby_phase r ps s ev w.
Proof. intros Hphase. unfold room_screen. now rewrite Hphase. Qed.

(** X13: in the lobby the admin's "Start Game" is acted on only when the
    number of registered players equals the configured number; otherwise the
    run changes nothing. When it is acted on, the room enters [RAJA_REVEAL] in
    round 1 with the three guesses cleared and the assignment just drawn
    stored, the players and the ledger untouched; and for four (five)
    registered players with pairwise different names that assignment is a
    bijection from the players onto the four (five) roles. *)
Theorem start_game_assigns_roles_to_all (s : session) (w : world) (r : room) :
  session_room_code s <> "" ->
  fetch_room (session_room_code s) w = Some r ->
  session_player_name s ∈ player_name <$> fetch_players (room_code r) w ->
  current_phase r = None ->
  is_admin s = true ->
  let ps := fetch_players (room_code r) w in
  let names := player_name <$> ps in
  (Z.of_nat (length ps) <> num_players r -> main s StartGame w = (Ok Idle, w))
  /\ (Z.of_nat (length ps) = num_players r ->
      exists w' r' roles,
        main s StartGame w = (Ok Rerun, w')
        /\ fetch_room (session_room_code s) w' = Some r'
        /\ current_phase r' = Some PHASE_RAJA_REVEAL
        /\ current_round r' = 1
        /\ current_roles r' = Some roles
        /\ mantri_chor_guess r' = None
        /\ mantri_sipahi_guess r' = None
        /\ raja_rani_guess r' = None
        /\ players w' = players w
        /\ round_scores w' = round_scores w
        /\ (NoDup names ->
            (num_players r = 4 -> role_bijection names roles4 roles)
            /\ (num_players r = 5 -> role_bijection names roles5 roles))).
Proof.
  intros Hcode Hroom Hme Hphase Hadmin ps names.
  pose proof (fetch_room_code _ _ _ Hroom) as Hrc.
  assert (room_code r <> "") as Hrc' by congruence.
  rewrite !(main_in_room s _ w r) by done.
  rewrite !room_screen_lobby by done.
  unfold lobby_phase. rewrite Hadmin. fold ps. split; intros Hcount.
  - now rewrite bool_decide_eq_false_2.
  - rewrite bool_decide_eq_true_2 by done. cbn -[compute_roles_for_round].
    fold names.
    destruct (compute_roles_for_round names (num_players r) (gen w))
      as [roles g'] eqn:Hassigned.
    unfold update_and_rerun.
    rewrite update_room_ok;
      [|done|reflexivity|apply new_round_updates_accepted].
    eexists _, _, roles. split; [reflexivity|].
    rewrite <- Hrc at 1.
    rewrite (fetch_room_updated (room_code r) _ (with_gen w g')) by reflexivity.
    replace (fetch_room (room_code r) (with_gen w g')) with (Some r)
      by (rewrite Hrc; symmetry; exact Hroom).
    cbn. repeat apply conj; try reflexivity.
    intros Hnd. split; intros Hnp.
    + rewrite Hnp in Hassigned, Hcount.
      assert (assign_roles_4_players names (gen w) = (roles, g')) as Heq
        by (rewrite <- Hassigned; reflexivity).
      replace roles with (assign_roles_4_players names (gen w)).1
        by now rewrite Heq.
      apply assign_roles_4_players_bijection; [done|].
      unfold names. rewrite length_fmap. lia.
    + rewrite Hnp in Hassigned, Hcount.
      assert (assign_roles_5_players names (gen w) = (roles, g')) as Heq
        by (rewrite <- Hassigned; reflexivity).
      replace roles with (assign_roles_5_players names (gen w)).1
        by now rewrite Heq.
      apply assign_roles_5_players_bijection; [done|].
      unfold names. rewrite length_fmap. lia.
Qed.

Lemma start_game_assigns_roles_to_all_witness :
  exists w' r' roles,
    main (demo_session "A" true) StartGame (demo_world None 1) = (Ok Rerun, w')
    /\ fetch_room "ROOM42" w' = Some r'
    /\ current_phase r' = Some PHASE_RAJA_REVEAL
    /\ current_roles r' = Some roles
    /\ role_bijection ["A"; "B"; "C"; "D"] roles4 roles.
Proof.
  destruct (start_game_assigns_roles_to_all (demo_session "A" true)
              (demo_world None 1) (demo_room None 1))
    as [_ Hstart]; [done|reflexivity| |reflexivity|reflexivity|].
  { apply (bool_decide_unpack _). vm_compute. exact I. }
  destruct Hstart as (w' & r' & roles & H1 & H2 & H3 & _ & H5 & _ & _ & _ & _
                      & _ & Hbij); [reflexivity|].
  exists w', r', roles. repeat apply conj; try assumption.
  destruct Hbij as [Hfour _].
  - apply (bool_decide_unpack _). vm_compute. exact I.
  - apply Hfour. reflexivity.
Defined.

(** ** The reveal phases *)

Lemma room_screen_raja_reveal r ps s ev w :
  current_phase r = Some PHASE_RAJA_REVEAL ->
  room_screen r ps s ev w
  = reveal_phase PHASE_MANTRI_REVEAL ContinueMantriReveal r s ev w.
Proof. intros Hphase. unfold room_screen. rewrite Hphase. reflexivity. Qed.

Lemma room_screen_mantri_reveal r ps s ev w :
  current_phase r = Some PHASE_MANTRI_REVEAL ->
  room_screen r ps s ev w
  = reveal_phase PHASE_MANTRI_GUESS ContinueMantriGuess r s ev w.
Proof. intros Hphase. unfold room_screen. rewrite Hphase. reflexivity. Qed.

Lemma phase_update_applied phase r :
  apply_updates (phase_update phase) r = with_phase r (Some phase).
Proof. reflexivity. Qed.

(** The admin's button of a reveal phase moves the room on and touches
    nothing else. *)
Lemma reveal_phase_continue next b r s w :
  room_code r <> "" ->
  fetch_room (room_code r) w = Some r ->
  is_admin s = true ->
  exists w',
    reveal_phase next b r s b w = (Ok Rerun, w')
    /\ fetch_room (room_code r) w' = Some (with_phase r (Some next))
    /\ players w' = players w
    /\ round_scores w' = round_scores w
    /\ gen w' = gen w.
Proof.
  intros Hcode Hroom Hadmin. unfold reveal_phase, button.
  rewrite Hadmin, bool_decide_eq_true_2 by done.
  unfold update_and_rerun.
  rewrite update_room_ok; [|done|reflexivity|apply phase_update_accepted].
  eexists. split; [reflexivity|].
  rewrite fetch_room_updated by reflexivity. rewrite Hroom. done.
Qed.

(** X14: from [RAJA_REVEAL] the admin's two "Continue" buttons, pressed
    in turn, take the room through [MANTRI_REVEAL] to [MANTRI_GUESS]; each
    step changes the phase of the room and nothing else: round, roles,
    guesses, players, ledger and generator stay as they are. The button of the
    later phase, pressed too early, does nothing. *)
Theorem reveal_phases_only_move_the_phase (s : session) (w : world) (r : room) :
  session_room_code s <> "" ->
  fetch_room (session_room_code s) w = Some r ->
  session_player_name s ∈ player_name <$> fetch_players (room_code r) w ->
  current_phase r = Some PHASE_RAJA_REVEAL ->
  is_admin s = true ->
  main s ContinueMantriGuess w = (Ok Idle, w)
  /\ exists w1 w2,
       main s ContinueMantriReveal w = (Ok Rerun, w1)
       /\ fetch_room (session_room_code s) w1
          = Some (with_phase r (Some PHASE_MANTRI_REVEAL))
       /\ main s ContinueMantriGuess w1 = (Ok Rerun, w2)
       /\ fetch_room (session_room_code s) w2
          = Some (with_phase r (Some PHASE_MANTRI_GUESS))
       /\ players w2 = players w
       /\ round_scores w2 = round_scores w
       /\ gen w2 = gen w.
Proof.
  intros Hcode Hroom Hme Hphase Hadmin.
  pose proof (fetch_room_code _ _ _ Hroom) as Hrc.
  assert (room_code r <> "") as Hrc' by congruence.
  assert (fetch_room (room_code r) w = Some r) as Hroom' by now rewrite Hrc.
  split.
  - rewrite (main_in_room s _ w r) by done.
    rewrite room_screen_raja_reveal by done.
    unfold reveal_phase, button. rewrite Hadmin.
    now rewrite bool_decide_eq_false_2.
  - destruct (reveal_phase_continue PHASE_MANTRI_REVEAL ContinueMantriReveal
                r s w Hrc' Hroom' Hadmin)
      as (w1 & Hrun1 & Hroom1 & Hp1 & Hs1 & Hg1).
    set (r1 := with_phase r (Some PHASE_MANTRI_REVEAL)) in *.
    assert (fetch_players (room_code r1) w1 = fetch_players (room_code r) w)
      as Hps by (unfold fetch_players; cbn; now rewrite Hp1).
    destruct (reveal_phase_continue PHASE_MANTRI_GUESS ContinueMantriGuess
                r1 s w1 Hrc' Hroom1 Hadmin)
      as (w2 & Hrun2 & Hroom2 & Hp2 & Hs2 & Hg2).
    cbn [room_code r1 with_phase] in Hroom1, Hroom2.
    rewrite Hrc in Hroom1, Hroom2.
    exists w1, w2. repeat apply conj.
    + rewrite (main_in_room s _ w r) by done.
      now rewrite room_screen_raja_reveal.
    + exact Hroom1.
    + rewrite (main_in_room s _ w1 r1); [|done|exact Hroom1|now rewrite Hps].
      now rewrite room_screen_mantri_reveal.
    + exact Hroom2.
    + congruence.
    + congruence.
    + congruence.
Qed.

Lemma reveal_phases_only_move_the_phase_witness :
  exists w1 w2,
    main (demo_session "A" true) ContinueMantriReveal
      (demo_world (Some PHASE_RAJA_REVEAL) 1) = (Ok Rerun, w1)
    /\ main (demo_session "A" true) ContinueMantriGuess w1 = (Ok Rerun, w2)
    /\ fetch_room "ROOM42" w2 = Some (demo_room (Some PHASE_MANTRI_GUESS) 1).
Proof.
  destruct (reveal_phases_only_move_the_phase (demo_session "A" true)
              (demo_world (Some PHASE_RAJA_REVEAL) 1)
              (demo_room (Some PHASE_RAJA_REVEAL) 1))
    as (_ & w1 & w2 & H1 & _ & H2 & H3 & _);
    [done|reflexivity| |reflexivity|reflexivity|].
  { apply (bool_decide_unpack _). vm_compute. exact I. }
  exists w1, w2. repeat split; assumption.
Defined.

(** ** A round settled through the room screen *)

Lemma names_filter (P : string -> Prop) `{forall n, Decision (P n)}
    (ps : list player) :
  player_name <$> filter (fun p => P (player_name p)) ps
  = filter P (player_name <$> ps).
Proof.
  induction ps as [|p ps IH]; [done|].
  rewrite fmap_cons, !filter_cons. case_decide; [|done].
  now rewrite fmap_cons, IH.
Qed.

Lemma head_fmap_names (ps : list player) :
  player_name <$> head ps = head (player_name <$> ps).
Proof. now destruct ps. Qed.

(** The holder that the room screen finds is the holder of the role. *)
Lemma player_with_role_name ps roles roles_map role n :
  role_bijection (player_name <$> ps) roles roles_map ->
  roles_map !! n = Some role ->
  player_name <$> player_with_role ps roles_map role = Some n.
Proof.
  intros Hb Hn. unfold player_with_role.
  rewrite head_fmap_names.
  pose proof (names_filter (fun m : string => roles_map !! m = Some role) ps)
    as Hnames.
  cbn beta in Hnames. rewrite Hnames.
  erewrite (filter_unique _ _ n); [done|apply (rb_distinct _ _ _ Hb)| |done|].
  - apply (rb_dom _ _ _ Hb). eauto.
  - intros m _ Hm. eapply (rb_inj _ _ _ Hb); eauto.
Qed.

Lemma sipahi_candidates_4 player_names role_assignment sipahi chor pick :
  role_bijection player_names roles4 role_assignment ->
  role_assignment !! sipahi = Some "Sipahi" ->
  role_assignment !! chor = Some "Chor" ->
  pick = sipahi \/ pick = chor ->
  filter (fun p => Some p <> Some pick)
    (filter (fun p => role_assignment !! p ∉ [Some "Raja"; Some "Mantri"])
       player_names)
  = [if decide (pick = chor) then sipahi else chor].
Proof.
  intros Hb Hs Hc Hpick.
  assert (sipahi <> chor) as Hne by (intros ->; congruence).
  pose proof (hidden_players_4 _ _ _ _ Hb Hs Hc) as Hperm.
  apply Permutation_singleton_r. rewrite Hperm.
  rewrite !filter_cons, filter_nil.
  destruct (decide (pick = chor)) as [->|Hpc].
  - rewrite decide_True by congruence. now rewrite decide_False by tauto.
  - destruct Hpick as [-> | ->]; [|done].
    rewrite decide_False by tauto. now rewrite decide_True by congruence.
Qed.

Lemma score_rows_sum r ps round (pts : gmap string Z) :
  sum_points (score_rows r ps round pts)
  = total_points (player_name <$> ps) pts.
Proof.
  unfold score_rows, sum_points, total_points.
  induction ps as [|p ps IH]; [done|]. cbn. now rewrite IH.
Qed.

Lemma round_scores_inserted rows w :
  round_scores (insert_round_scores rows w) = (round_scores w ++ rows)%list.
Proof. destruct rows; [now rewrite app_nil_r|done]. Qed.

Lemma guess_update_accepted (phase chor_choice sipahi_choice : string) :
  map_Forall (fun k v => column_accepts k v = true)
    (<["current_phase" := VStr phase]>
       (<["mantri_sipahi_guess" := opt_str (Some sipahi_choice)]>
          (<["mantri_chor_guess" := opt_str (Some chor_choice)]>
             (∅ : gmap string val)))).
Proof.
  repeat (apply map_Forall_insert_2; [reflexivity|]). apply map_Forall_empty.
Qed.

Lemma selectbox_offered (options : list string) n :
  n ∈ options -> selectbox options (Some n) = Some n.
Proof. intros Hn. unfold selectbox. now rewrite bool_decide_eq_true_2. Qed.

(** X15: in a four-player room in [MANTRI_GUESS] whose stored assignment
    is a bijection from the registered players onto the four roles, the
    Mantri's submission with one of the two hidden players picked as Chor is
    acted on in one run: the other hidden player is recorded as the Sipahi
    guess (a Sipahi selection sent along is ignored), one ledger row per
    registered player is appended for the current round with the points of
    [calculate_points_4_players], 1750 in all, Mantri getting 500 exactly when
    the pick is the Chor, and the room enters [ROUND_RESULT] with round and
    roles unchanged. *)
Theorem mantri_guess_settles_four_player_round
    (s : session) (w : world) (r : room) (roles : gmap string string)
    (raja mantri sipahi chor pick sipahi_pick : string) :
  session_room_code s <> "" ->
  fetch_room (session_room_code s) w = Some r ->
  current_phase r = Some PHASE_MANTRI_GUESS ->
  num_players r = 4 ->
  current_roles r = Some roles ->
  let ps := fetch_players (room_code r) w in
  let names := player_name <$> ps in
  role_bijection names roles4 roles ->
  roles !! raja = Some "Raja" ->
  roles !! mantri = Some "Mantri" ->
  roles !! sipahi = Some "Sipahi" ->
  roles !! chor = Some "Chor" ->
  session_player_name s = mantri ->
  pick = sipahi \/ pick = chor ->
  let other := if decide (pick = chor) then sipahi else chor in
  exists w' r' pts,
    main s (SubmitGuess pick sipahi_pick) w = (Ok Rerun, w')
    /\ calculate_points_4_players names roles (Some pick, Some other) = Ok pts
    /\ round_scores w'
       = (round_scores w ++ score_rows r ps (current_round r) pts)%list
    /\ sum_points (score_rows r ps (current_round r) pts) = 1750
    /\ pts !! mantri = Some (if decide (pick = chor) then 500 else 0)
    /\ fetch_room (session_room_code s) w' = Some r'
    /\ current_phase r' = Some PHASE_ROUND_RESULT
    /\ mantri_chor_guess r' = Some pick
    /\ mantri_sipahi_guess r' = Some other
    /\ current_round r' = current_round r
    /\ current_roles r' = Some roles.
Proof.
  intros Hcode Hroom Hphase Hfour Hroles ps names Hb Hraja Hmantri Hsipahi Hchor
    Hme Hpick other.
  pose proof (fetch_room_code _ _ _ Hroom) as Hrc.
  assert (room_code r <> "") as Hrc' by congruence.
  assert (session_player_name s ∈ names) as Hin.
  { rewrite Hme. apply (rb_dom _ _ _ Hb). eauto. }
  assert (mantri <> chor) by (eapply role_holders_differ; eauto; done).
  assert (mantri <> sipahi) by (eapply role_holders_differ; eauto; done).
  assert (raja <> mantri) by (eapply role_holders_differ; eauto; done).
  assert (sipahi <> chor) by (eapply role_holders_differ; eauto; done).
  rewrite (main_in_room s _ w r) by done.
  rewrite room_screen_mantri_guess by done.
  rewrite Hroles. change (default ∅ (Some roles)) with roles. fold ps.
  unfold mantri_guess_phase.
  rewrite (player_with_role_name ps roles4 roles "Mantri" mantri Hb Hmantri).
  rewrite bool_decide_eq_true_2 by congruence.
  pose proof (names_filter
                (fun n : string => roles !! n ∉ [Some "Raja"; Some "Mantri"]) ps)
    as Hhidden.
  cbn beta in Hhidden. rewrite Hhidden. fold names. clear Hhidden.
  set (hidden := filter (fun n : string =>
                           roles !! n ∉ [Some "Raja"; Some "Mantri"]) names).
  assert (pick ∈ hidden) as Hpick_in.
  { unfold hidden. rewrite (hidden_players_4 _ _ _ _ Hb Hsipahi Hchor).
    destruct Hpick as [-> | ->]; [left|right; left]. }
  cbn [chor_pick_of sipahi_pick_of is_submit_guess].
  rewrite (selectbox_offered hidden pick Hpick_in).
  rewrite Hfour.
  rewrite (bool_decide_eq_false_2 (4 = 5)) by done.
  unfold sipahi_choice_4p. unfold hidden.
  rewrite (sipahi_candidates_4 _ _ _ _ _ Hb Hsipahi Hchor Hpick).
  fold other. cbn [head].
  rewrite (bool_decide_eq_false_2 (Some other = None)) by done.
  rewrite andb_false_r.
  rewrite (bool_decide_eq_true_2 (4 = 4)) by done.
  rewrite (calculate_points_4_players_bijection names roles (Some pick)
             (Some other) raja mantri sipahi chor Hb Hraja Hmantri Hsipahi Hchor).
  set (pts := <[sipahi := 250]> (<[raja := 1000]> _)).
  unfold update_and_rerun.
  rewrite update_room_ok; [|done|reflexivity|apply guess_update_accepted].
  exists (with_rooms
            (insert_round_scores (score_rows r ps (current_round r) pts) w)
            ((fun r0 => if decide (has_code (room_code r) r0)
                        then apply_updates
                               (<["current_phase" := VStr PHASE_ROUND_RESULT]>
                                  (<["mantri_sipahi_guess" := opt_str (Some other)]>
                                     (<["mantri_chor_guess" := opt_str (Some pick)]>
                                        ∅))) r0
                        else r0)
               <$> rooms (insert_round_scores
                            (score_rows r ps (current_round r) pts) w))).
  eexists _, pts. split; [reflexivity|]. split; [reflexivity|].
  split; [cbn; apply round_scores_inserted|].
  split.
  { rewrite score_rows_sum. fold names.
    destruct (calculate_points_4_players_total names roles
                (Some pick, Some other) Hb) as (pts' & Hrun & Htotal).
    rewrite (calculate_points_4_players_bijection names roles (Some pick)
               (Some other) raja mantri sipahi chor Hb Hraja Hmantri Hsipahi
               Hchor) in Hrun.
    injection Hrun as <-. exact Htotal. }
  split.
  { unfold pts, other. destruct (decide (pick = chor)) as [->|Hpc].
    - rewrite !bool_decide_eq_true_2 by done. cbn. now simplify_map_eq.
    - rewrite (bool_decide_eq_false_2 (Some pick = Some chor)) by congruence.
      cbn. now simplify_map_eq. }
  rewrite <- Hrc at 1.
  rewrite fetch_room_updated by reflexivity.
  rewrite fetch_room_insert_round_scores, Hrc, Hroom.
  split; [reflexivity|]. cbn. rewrite Hroles. repeat split.
Qed.

Lemma mantri_guess_settles_four_player_round_witness :
  exists w' r' pts,
    main (demo_session "B" false) (SubmitGuess "C" "A")
      (demo_world (Some PHASE_MANTRI_GUESS) 1) = (Ok Rerun, w')
    /\ calculate_points_4_players ["A"; "B"; "C"; "D"] scenario4
         (Some "C", Some "D") = Ok pts
    /\ sum_points (round_scores w') = 1750
    /\ pts !! "B" = Some 0
    /\ fetch_room "ROOM42" w' = Some r'
    /\ current_phase r' = Some PHASE_ROUND_RESULT
    /\ mantri_sipahi_guess r' = Some "D".
Proof.
  destruct (mantri_guess_settles_four_player_round (demo_session "B" false)
              (demo_world (Some PHASE_MANTRI_GUESS) 1)
              (demo_room (Some PHASE_MANTRI_GUESS) 1) scenario4
              "A" "B" "C" "D" "C" "A")
    as (w' & r' & pts & H1 & H2 & H3 & H4 & H5 & H6 & H7 & _ & H9 & _).
  - done.
  - reflexivity.
  - reflexivity.
  - reflexivity.
  - reflexivity.
  - exact scenario4_bijection.
  - vm_compute. reflexivity.
  - vm_compute. reflexivity.
  - vm_compute. reflexivity.
  - vm_compute. reflexivity.
  - reflexivity.
  - left. reflexivity.
  - exists w', r', pts. repeat apply conj; try assumption.
    rewrite H3. exact H4.
Defined.




(** ** Joining a room *)

Lemma append_lobby_event_frame code text w :
  players (append_lobby_event code text w) = players w
  /\ round_scores (append_lobby_event code text w) = round_scores w
  /\ gen (append_lobby_event code text w) = gen w
  /\ Forall2 same_setup (rooms w) (rooms (append_lobby_event code text w)).
Proof.
  assert (Forall2 same_setup (rooms w) (rooms w)) as Hrefl.
  { apply Forall_Forall2_diag, Forall_forall. intros r _. apply same_setup_refl. }
  unfold append_lobby_event.
  destruct (fetch_room code w) as [r|]; [|done].
  destruct (update_room _ _ w) as [[res w']|e] eqn:Hrun; [|done].
  pose proof (update_room_inv _ _ _ _ _ Hrun w) as Hany.
  rewrite Hany in Hrun. injection Hrun as _ <-. cbn.
  repeat split.
  apply Forall2_fmap_r, Forall_Forall2_diag, Forall_forall.
  intros r0 _. unfold compose. case_decide; [|apply same_setup_refl].
  unfold same_setup. cbn. done.
Qed.

Lemma log_join_frame st code name w :
  players (log_join st code name w) = players w
  /\ round_scores (log_join st code name w) = round_scores w
  /\ gen (log_join st code name w) = gen w
  /\ Forall2 same_setup (rooms w) (rooms (log_join st code name w)).
Proof.
  unfold log_join. destruct (lobby_join_logged st);
    [|apply append_lobby_event_frame].
  repeat split.
  apply Forall_Forall2_diag, Forall_forall. intros r _. apply same_setup_refl.
Qed.

Lemma fetch_players_same_players c w w' :
  players w' = players w -> fetch_players c w' = fetch_players c w.
Proof. intros Hp. unfold fetch_players. now rewrite Hp. Qed.

Lemma fetch_room_same_setup c w w' r' :
  Forall2 same_setup (rooms w) (rooms w') ->
  fetch_room c w' = Some r' ->
  exists r, fetch_room c w = Some r /\ same_setup r r'.
Proof.
  unfold fetch_room. intros Hall.
  induction Hall as [|r0 r0' rs rs' Hsame _ IH]; [done|].
  rewrite !filter_cons. unfold has_code at 1 3.
  destruct Hsame as (Hc & Hrest).
  destruct (decide (room_code r0' = c)) as [Hc'|Hc'].
  - rewrite decide_True by congruence. cbn. intros [= <-].
    exists r0. split; [done|]. now split.
  - rewrite decide_False by congruence. apply IH.
Qed.

Lemma fetch_room_same_setup_fwd c w w' r :
  Forall2 same_setup (rooms w) (rooms w') ->
  fetch_room c w = Some r ->
  exists r', fetch_room c w' = Some r' /\ same_setup r r'.
Proof.
  unfold fetch_room. intros Hall.
  induction Hall as [|r0 r0' rs rs' Hsame _ IH]; [done|].
  rewrite !filter_cons. unfold has_code at 1 3.
  destruct Hsame as (Hc & Hrest).
  destruct (decide (room_code r0 = c)) as [Hc'|Hc'].
  - rewrite decide_True by congruence. cbn. intros [= <-].
    exists r0'. split; [done|]. now split.
  - rewrite decide_False by congruence. apply IH.
Qed.

Lemma fetch_players_names_added c w (p : player) :
  player_name <$> fetch_players c (with_players w (players w ++ [p]))
  ≡ₚ (player_name <$> fetch_players c w)
     ++ (if decide (pl_room_code p = c) then [player_name p] else []).
Proof.
  unfold fetch_players. cbn. rewrite !merge_sort_Permutation.
  rewrite filter_app, fmap_app. f_equiv.
  rewrite filter_cons, filter_nil. now case_decide.
Qed.

Lemma fetch_players_no_such_name c w n :
  filter (fun p => player_name p = n) (fetch_players c w) = [] ->
  n ∉ player_name <$> fetch_players c w.
Proof.
  intros Hnone (p & -> & Hp)%list_elem_of_fmap.
  assert (p ∈ filter (fun q => player_name q = player_name p)
            (fetch_players c w)) as Hin by now apply list_elem_of_filter.
  rewrite Hnone in Hin. now apply elem_of_nil in Hin.
Qed.

Lemma fetch_room_by_code_fetch strip upper code w r :
  fetch_room_by_code strip upper code w = Some r ->
  fetch_room (room_code r) w = Some r.
Proof.
  unfold fetch_room_by_code. case_bool_decide; [done|]. intros Hhd.
  assert (room_code r = upper (strip code)) as ->; [|done].
  now apply (fetch_room_code _ w).
Qed.

Lemma join_room_view_cases strip upper code_input name_input pressed st w
    scr st' w' :
  join_room_view strip upper code_input name_input pressed st w
  = (scr, st', w') ->
  round_scores w' = round_scores w
  /\ Forall2 same_setup (rooms w) (rooms w')
  /\ ((scr <> Rerun /\ players w' = players w /\ st' = st)
      \/ exists r,
           fetch_room_by_code strip upper (upper code_input) w = Some r
           /\ scr = Rerun
           /\ st' = entered st (room_code r) (strip name_input)
                      (bool_decide (strip name_input = admin_name r))
           /\ ((strip name_input
                  ∈ (player_name <$> fetch_players (room_code r) w)
                /\ players w' = players w)
               \/ ((strip name_input
                      ∉ player_name <$> fetch_players (room_code r) w)
                   /\ Z.of_nat (length (fetch_players (room_code r) w))
                      < num_players r
                   /\ players w'
                      = (players w
                         ++ [new_player (room_code r) (strip name_input)])%list))).
Proof.
  assert (Forall2 same_setup (rooms w) (rooms w)) as Hrefl.
  { apply Forall_Forall2_diag, Forall_forall. intros r _. apply same_setup_refl. }
  unfold join_room_view. destruct pressed.
  2:{ intros [= <- <- <-]. repeat split; [done|]. left. done. }
  destruct (fetch_room_by_code strip upper (upper code_input) w) as [r|]
    eqn:Hroom.
  2:{ intros [= <- <- <-]. repeat split; [done|]. left. done. }
  destruct (filter (fun p => player_name p = strip name_input)
              (fetch_players (room_code r) w)) as [|p existing] eqn:Hex.
  - case_bool_decide as Hfull.
    { intros [= <- <- <-]. repeat split; [done|]. left. done. }
    cbn. intros [= <- <- <-].
    destruct (log_join_frame st (room_code r) (strip name_input)
                (with_players w
                   (players w ++ [new_player (room_code r) (strip name_input)])))
      as (Hp & Hs & _ & Hr).
    repeat split; [done|done|]. right. exists r.
    split; [done|]. split; [done|]. split; [done|].
    right. split; [|split; [lia|done]].
    now apply fetch_players_no_such_name.
  - assert (p ∈ filter (fun p => player_name p = strip name_input)
              (fetch_players (room_code r) w)) as Hin by (rewrite Hex; left).
    apply list_elem_of_filter in Hin as [Hname Hin].
    intros [= <- <- <-].
    destruct (log_join_frame st (room_code r) (player_name p) w)
      as (Hp & Hs & _ & Hr).
    repeat split; [done|done|]. right. exists r. rewrite Hname in *.
    split; [done|]. split; [done|]. split; [done|]. left. split; [|done].
    rewrite <- Hname. now apply list_elem_of_fmap_2.
Qed.

(** X17: whatever is typed into the join screen, a join leaves the ledger
    as it is and no room's code, admin, number of players or number of rounds
    is changed. It never breaks a room: where the names of a room's players
    were pairwise different they still are, and a room that held no more
    players than its configured number still does. A join that succeeds puts
    the client in the room under the stripped name, as admin exactly when that
    name is the room's admin name, and a player of that name is then
    registered in the room; a name already registered is taken over without a
    new row. *)
Theorem join_keeps_rooms_in_order (strip upper : string -> string)
    (code_input name_input : string) (pressed : bool) (st : local_state)
    (w : world) (scr : screen) (st' : local_state) (w' : world) :
  join_room_view strip upper code_input name_input pressed st w
  = (scr, st', w') ->
  round_scores w' = round_scores w
  /\ Forall2 same_setup (rooms w) (rooms w')
  /\ (forall c,
        NoDup (player_name <$> fetch_players c w) ->
        NoDup (player_name <$> fetch_players c w'))
  /\ (forall c r,
        fetch_room c w = Some r ->
        Z.of_nat (length (fetch_players c w)) <= num_players r ->
        Z.of_nat (length (fetch_players c w')) <= num_players r)
  /\ (scr = Rerun ->
      exists r,
        fetch_room_by_code strip upper (upper code_input) w = Some r
        /\ st' = entered st (room_code r) (strip name_input)
                   (bool_decide (strip name_input = admin_name r))
        /\ strip name_input ∈ (player_name <$> fetch_players (room_code r) w')
        /\ (strip name_input ∈ (player_name <$> fetch_players (room_code r) w) ->
            players w' = players w)).
Proof.
  intros Hrun.
  apply join_room_view_cases in Hrun as (Hs & Hr & Hcases).
  split; [done|]. split; [done|].
  destruct Hcases as [(Hscr & Hp & ->)|(r & Hroom & -> & -> & Hcases)].
  { repeat split.
    - intros c. now rewrite (fetch_players_same_players c w w').
    - intros c r _. now rewrite (fetch_players_same_players c w w').
    - done. }
  pose proof (fetch_room_by_code_fetch _ _ _ _ _ Hroom) as Hfetch.
  destruct Hcases as [[Hin Hp]|(Hnotin & Hroomy & Hp)].
  - repeat apply conj.
    + intros c. now rewrite (fetch_players_same_players c w w').
    + intros c r0 _. now rewrite (fetch_players_same_players c w w').
    + intros _. exists r. repeat split; [done| |done].
      now rewrite (fetch_players_same_players _ w w').
  - assert (forall c,
              player_name <$> fetch_players c w'
              ≡ₚ (player_name <$> fetch_players c w)
                 ++ (if decide (room_code r = c)
                     then [strip name_input] else [])) as Hnames.
    { intros c.
      rewrite (fetch_players_same_players c
                 (with_players w
                    (players w
                     ++ [new_player (room_code r) (strip name_input)])) w')
        by exact Hp.
      apply fetch_players_names_added. }
    repeat apply conj.
    + intros c Hnd. rewrite Hnames. case_decide as Hc.
      * subst c. apply NoDup_app. split; [done|]. split; [|apply NoDup_singleton].
        intros n Hn ->%list_elem_of_singleton. done.
      * now rewrite app_nil_r.
    + intros c r0 Hr0 Hle.
      assert (length (fetch_players c w')
              = length (player_name <$> fetch_players c w')) as ->
        by now rewrite length_fmap.
      rewrite Hnames, length_app, length_fmap. case_decide as Hc.
      * subst c. rewrite Hfetch in Hr0. injection Hr0 as <-. cbn. lia.
      * cbn. lia.
    + intros _. exists r. repeat split; [done| |done].
      rewrite Hnames. rewrite decide_True by done.
      apply elem_of_app. right. left.
Qed.

Lemma join_keeps_rooms_in_order_witness :
  let st := {| view := "join_room"; ls_room_code := None; ls_is_admin := false;
               ls_player_name := ""; ls_admin_name := None;
               lobby_join_logged := false |} in
  let run := join_room_view id id "ROOM42" "B" true st (demo_world None 1) in
  run.1.2 = entered st "ROOM42" "B" false
  /\ round_scores run.2 = []
  /\ players run.2 = players (demo_world None 1).
Proof.
  intros st run.
  destruct (join_keeps_rooms_in_order id id "ROOM42" "B" true st
              (demo_world None 1) run.1.1 run.1.2 run.2)
    as (Hs & _ & _ & _ & Hrerun); [reflexivity|].
  destruct Hrerun as (r & Hroom & Hst & _ & Hsame); [reflexivity|].
  vm_compute in Hroom. injection Hroom as <-.
  split; [exact Hst|]. split; [exact Hs|]. apply Hsame.
  apply (bool_decide_unpack _). vm_compute. exact I.
Defined.

(** ** Hosting a room *)

Lemma remove_dups_length_le (l : list string) :
  (length (remove_dups l) <= length l)%nat.
Proof.
  induction l as [|x l IH]; cbn; [lia|]. case_decide; cbn; lia.
Qed.

Lemma distinct_count_NoDup (l : list string) :
  distinct_count l = length l <-> NoDup l.
Proof.
  unfold distinct_count. induction l as [|x l IH]; cbn.
  - split; [constructor|done].
  - pose proof (remove_dups_length_le l) as Hle. case_decide as Hx; cbn.
    + split; [lia|]. intros Hnd. now apply NoDup_cons in Hnd as [? _].
    + rewrite NoDup_cons. split.
      * intros [= Hlen]. split; [done|]. now apply IH.
      * intros [_ Hnd]. f_equal. now apply IH.
Qed.

Lemma cleaned_names_filled strip num_players host_name :
  "" ∉ cleaned_names strip num_players host_name.
Proof.
  unfold cleaned_names. intros Hin. now apply list_elem_of_filter in Hin as [? _].
Qed.

Lemma room_insert_row code num_players num_rounds admin :
  inserted_row (room_insert code num_players num_rounds admin)
  = Some (hosted_room code num_players num_rounds admin).
Proof.
  unfold inserted_row.
  change (room_insert code num_players num_rounds admin !! "room_code")
    with (Some (VStr code)).
  change (room_insert code num_players num_rounds admin !! "num_players")
    with (Some (VInt num_players)).
  change (room_insert code num_players num_rounds admin !! "num_rounds")
    with (Some (VInt num_rounds)).
  change (room_insert code num_players num_rounds admin !! "current_round")
    with (Some (VInt 1)).
  change (room_insert code num_players num_rounds admin !! "admin_name")
    with (Some (VStr admin)).
  rewrite bool_decide_eq_true_2; [reflexivity|].
  unfold room_insert.
  repeat (apply map_Forall_insert_2; [reflexivity|]). apply map_Forall_empty.
Qed.

Lemma admin_row_found code admin (cleaned : list string) :
  admin ∈ cleaned ->
  exists p rest,
    filter (fun p => player_name p = admin) (new_player code <$> cleaned)
    = p :: rest
    /\ player_name p = admin.
Proof.
  intros Hin.
  assert (new_player code admin
            ∈ filter (fun p => player_name p = admin)
                (new_player code <$> cleaned)) as Hrow.
  { apply list_elem_of_filter. split; [done|]. now apply list_elem_of_fmap_2. }
  destruct (filter _ _) as [|p rest] eqn:Hf; [now apply elem_of_nil in Hrow|].
  exists p, rest. split; [done|].
  assert (p ∈ filter (fun p => player_name p = admin)
                (new_player code <$> cleaned)) as Hp by (rewrite Hf; left).
  now apply list_elem_of_filter in Hp as [? _].
Qed.

(** X18: the host screen never raises, and it writes a room only for a
    valid input: the button pressed, one non-empty stripped name per player,
    the names pairwise different and the stripped admin input one of them.
    For any other input the store and the session are left as they are. For a
    valid input the run ends in a rerun with the session hosting the new room
    as its admin: one room is added, with a six-character code from the
    generator, the chosen numbers of players and rounds, round 1, no phase and
    that admin (its lobby log alone may then receive the join message), one
    player row without role and with score 0 is added per name, in the order
    of the inputs, and the ledger is untouched. *)
Theorem host_setup_creates_room_for_valid_input (strip : string -> string)
    (players_choice rounds_choice : Z) (host_name : nat -> string)
    (admin_name_input : string) (pressed : bool) (st : local_state)
    (w : world) (out : result screen) (st' : local_state) (w' : world) :
  host_setup_view strip players_choice rounds_choice host_name
    admin_name_input pressed st w = (out, st', w') ->
  let cleaned := cleaned_names strip players_choice host_name in
  let admin := strip admin_name_input in
  (~ host_input_valid cleaned players_choice admin pressed ->
   is_ok out = true /\ out <> Ok Rerun /\ st' = st /\ w' = w)
  /\ (host_input_valid cleaned players_choice admin pressed ->
      exists code,
        random_room_code 6 (gen w) = (Ok code, drop 6 (gen w))
        /\ String.length code = 6%nat
        /\ out = Ok Rerun
        /\ st' = hosting code admin
        /\ players w' = (players w ++ (new_player code <$> cleaned))%list
        /\ round_scores w' = round_scores w
        /\ gen w' = drop 6 (gen w)
        /\ Forall2 same_setup
             (rooms w ++ [hosted_room code players_choice rounds_choice admin])
             (rooms w')
        /\ (lobby_join_logged st = true ->
            rooms w'
            = (rooms w
               ++ [hosted_room code players_choice rounds_choice admin])%list)).
Proof.
  intros Hrun cleaned admin. unfold host_setup_view in Hrun.
  fold cleaned admin in Hrun.
  pose proof (cleaned_names_filled strip players_choice host_name) as Hfilled.
  fold cleaned in Hfilled.
  pose proof (distinct_count_NoDup cleaned) as Hdistinct.
  unfold host_input_valid.
  destruct (bool_decide (Z.of_nat (length cleaned) = players_choice)) eqn:Hlen;
    [apply bool_decide_eq_true in Hlen|apply bool_decide_eq_false in Hlen].
  2:{ cbn in Hrun. injection Hrun as <- <- <-.
      split; [done|]. intros (_ & ? & _). done. }
  destruct (bool_decide (Z.of_nat (distinct_count cleaned) = players_choice))
    eqn:Hdis;
    [apply bool_decide_eq_true in Hdis|apply bool_decide_eq_false in Hdis].
  2:{ cbn in Hrun. injection Hrun as <- <- <-.
      split; [done|]. intros (_ & _ & Hnd & _). apply Hdistinct in Hnd. lia. }
  assert (NoDup cleaned) as Hnd by (apply Hdistinct; lia).
  destruct pressed.
  2:{ cbn in Hrun. injection Hrun as <- <- <-.
      split; [done|]. intros (? & _). done. }
  cbn [andb] in Hrun.
  case_bool_decide as Hempty.
  { injection Hrun as <- <- <-. split; [done|]. intros (_ & _ & _ & Hin).
    rewrite Hempty in Hin. done. }
  case_bool_decide as Hin.
  { injection Hrun as <- <- <-. split; [done|]. intros (_ & _ & _ & ?). done. }
  split; [intros Hbad; destruct Hbad; done|]. intros _.
  destruct (choices_shape 6 (gen w)) as (code & Hcode & Hlength & _).
  change (choices 6 (gen w)) with (random_room_code 6 (gen w)) in Hcode.
  rewrite Hcode in Hrun. exists code.
  unfold create_room in Hrun.
  change (room_insert code players_choice rounds_choice admin !! "admin_name")
    with (Some (VStr admin)) in Hrun.
  cbn [truthy] in Hrun. rewrite bool_decide_eq_true_2 in Hrun by done.
  cbn [negb] in Hrun. rewrite room_insert_row in Hrun.
  unfold insert_players in Hrun.
  destruct (admin_row_found code admin cleaned Hin) as (p & rest & Hrow & Hname).
  destruct (new_player code <$> cleaned) as [|row rows] eqn:Hrows;
    [now rewrite filter_nil in Hrow|].
  rewrite Hrow, Hname in Hrun. injection Hrun as <- <- <-.
  match goal with
  | |- context [log_join ?s code admin ?v] =>
      destruct (log_join_frame s code admin v) as (Hp & Hs & Hg & Hr)
  end.
  repeat apply conj; try done.
  intros Hlogged. unfold log_join. cbn. now rewrite Hlogged.
Qed.

Lemma host_setup_creates_room_for_valid_input_witness :
  exists code,
    random_room_code 6 (gen (demo_world None 1)) = (Ok code, [])
    /\ (host_setup_view id 4 3
          (fun i => nth i ["P"; "Q"; "R"; "S"] "") "Q" true
          {| view := "host_setup"; ls_room_code := None; ls_is_admin := true;
             ls_player_name := ""; ls_admin_name := None;
             lobby_join_logged := true |}
          (demo_world None 1)).1.2
       = hosting code "Q".
Proof.
  pose (st := {| view := "host_setup"; ls_room_code := None;
                 ls_is_admin := true; ls_player_name := "";
                 ls_admin_name := None; lobby_join_logged := true |}).
  pose (run := host_setup_view id 4 3
                 (fun i => nth i ["P"; "Q"; "R"; "S"] "") "Q" true st
                 (demo_world None 1)).
  destruct (host_setup_creates_room_for_valid_input id 4 3
              (fun i => nth i ["P"; "Q"; "R"; "S"] "") "Q" true st
              (demo_world None 1) run.1.1 run.1.2 run.2)
    as [_ Hvalid]; [reflexivity|].
  destruct Hvalid as (code & Hcode & _ & _ & Hst & _).
  - unfold host_input_valid. repeat split.
    + apply (bool_decide_unpack _). vm_compute. exact I.
    + apply (bool_decide_unpack _). vm_compute. exact I.
  - exists code. split; [exact Hcode|exact Hst].
Defined.
